(** * Reconciliation and cursor engine of the industrial process analytics
      system: a shallow embedding of the Python sources and the properties
      of its status decoder, cursor store, combined-record writer and
      reconciliation driver.

    Layout: definitions first (Python values, the status decoder, the time
    model, the connection manager, the database and the query executor, the
    state manager, the equipment data handler, the data processor,
    start-up), then the lemmas and theorems. *)

From Stdlib Require Import ZArith Lia Bool.
From stdpp Require Import base option list strings gmap sorting pretty.

Local Open Scope string_scope.
Local Open Scope Z_scope.

(* ===================================================================== *)
(** * Python values reaching the decoder *)
(* ===================================================================== *)

(** The value of a [status_field] cell as the database connector hands it to
    Python.  [PyFloat m e] is the finite float [m * 2^e] (a database column
    holds neither an infinity nor a NaN).  [PyOther] stands for any object
    that does not compare equal to [0] and that [int()] rejects with
    [TypeError] or [ValueError] (a list, a dict, non-numeric bytes). *)
Inductive pyval : Type :=
  | PyNone
  | PyBool (b : bool)
  | PyInt (n : Z)
  | PyFloat (m e : Z)
  | PyStr (s : string)
  | PyOther.

(** [status_value is None] *)
Definition is_None (v : pyval) : bool :=
  match v with PyNone => true | _ => false end.

(** [status_value == 0]: only a number can be equal to [0]; [False == 0]
    holds because [bool] is a subclass of [int], and a float is [0] when its
    mantissa is. *)
Definition py_eq_zero (v : pyval) : bool :=
  match v with
  | PyInt n => n =? 0
  | PyFloat m _ => m =? 0
  | PyBool b => negb b
  | _ => false
  end.

Module process_decoder.
Section WithInt.

(** Python's built-in [int()] on a [str]: the integer, or [None] where it
    raises [ValueError]. *)
Variable int_of_str : string -> option Z.

(** [int(status_value)] with [ValueError] and [TypeError] as [None]; a
    float is truncated towards zero. *)
Definition py_int (v : pyval) : option Z :=
  match v with
  | PyNone => None
  | PyBool b => Some (if b then 1 else 0)
  | PyInt n => Some n
  | PyFloat m e =>
      Some (if 0 <=? e then m * 2 ^ e else Z.quot m (2 ^ (- e)))
  | PyStr s => int_of_str s
  | PyOther => None
  end.

(** The [STATUS_BITS] dictionary of both decoders. *)
Definition STATUS_BITS : gmap Z string :=
  list_to_map
    [ (1, "start_phase_1"); (2, "start_phase_2"); (3, "start_phase_3");
      (4, "start_phase_4"); (5, "start_phase_5"); (6, "start_phase_6") ].

(** [STATUS_BITS.get(bit_position, f'unknown_status_bit_{bit_position}')] *)
Definition status_name (bit_position : Z) : string :=
  default ("unknown_status_bit_" +:+ pretty bit_position)
          (STATUS_BITS !! bit_position).

(** The loop test [status_int & (1 << (bit_position - 1))], as a truth
    value. *)
Definition bit_active (status_int bit_position : Z) : bool :=
  negb (Z.land status_int (Z.shiftl 1 (bit_position - 1)) =? 0).

(** [for bit_position in range(6, 0, -1): if ...: return ...]: the name of
    the first active position of the range, if any. *)
Fixpoint first_active (status_int : Z) (positions : list Z) : option string :=
  match positions with
  | [] => None
  | bit_position :: rest =>
      if bit_active status_int bit_position
      then Some (status_name bit_position)
      else first_active status_int rest
  end.

Definition decode_status_current (status_value : pyval) : string :=
  if is_None status_value || py_eq_zero status_value then "no_status"
  else
    match py_int status_value with
    | None => "invalid_value"
    | Some status_int =>
        default "no_status" (first_active status_int [6; 5; 4; 3; 2; 1])
    end.

(** [for bit_position in range(1, 7): if ...: active_states.append(...)] *)
Fixpoint collect_active (status_int : Z) (positions : list Z) : list string :=
  match positions with
  | [] => []
  | bit_position :: rest =>
      if bit_active status_int bit_position
      then status_name bit_position :: collect_active status_int rest
      else collect_active status_int rest
  end.

(** [' '.join(active_states)] *)
Fixpoint join_space (active_states : list string) : string :=
  match active_states with
  | [] => ""
  | [s] => s
  | s :: rest => s +:+ " " +:+ join_space rest
  end.

Definition decode_status_complete (status_value : pyval) : string :=
  if is_None status_value || py_eq_zero status_value then "no_states"
  else
    match py_int status_value with
    | None => "invalid_value"
    | Some status_int =>
        let active_states := collect_active status_int [1; 2; 3; 4; 5; 6] in
        match active_states with
        | [] => "no_states"
        | _ => join_space active_states
        end
    end.

End WithInt.
End process_decoder.

(* ===================================================================== *)
(** * Time values *)
(* ===================================================================== *)

(** A naive Python [datetime]: the calendar second (counted from midnight of
    a fixed day, so that a day is 86400 consecutive seconds) and the
    [microsecond] field.  The bounds [MINYEAR] and [MAXYEAR] are not
    modelled. *)
Record datetime : Type := mk_datetime {
  dt_seconds : Z;
  dt_microsecond : Z
}.

Global Instance datetime_eq_dec : EqDecision datetime.
Proof. solve_decision. Defined.

(** Comparison of two [datetime] objects ([<] and [<=]). *)
Definition dt_lt (a b : datetime) : Prop :=
  dt_seconds a < dt_seconds b
  ∨ (dt_seconds a = dt_seconds b ∧ dt_microsecond a < dt_microsecond b).

Definition dt_le (a b : datetime) : Prop :=
  dt_seconds a < dt_seconds b
  ∨ (dt_seconds a = dt_seconds b ∧ dt_microsecond a <= dt_microsecond b).

Global Instance dt_lt_dec a b : Decision (dt_lt a b).
Proof. unfold dt_lt. apply _. Defined.

Global Instance dt_le_dec a b : Decision (dt_le a b).
Proof. unfold dt_le. apply _. Defined.

(** [d + timedelta(minutes=m)]; [m] is negative for a subtraction. *)
Definition add_minutes (d : datetime) (m : Z) : datetime :=
  {| dt_seconds := dt_seconds d + 60 * m;
     dt_microsecond := dt_microsecond d |}.

(** A [DATETIME] cell of the tables that [schema_manager.py] creates
    ([tb_processing_state], [tb_combined_data]): a whole calendar second. *)
Definition DATETIME : Type := Z.

(** [d.strftime('%Y-%m-%d %H:%M:%S')].  The text is determined by, and
    determines, the calendar second of [d]; it is represented by that second.
    The microsecond field is dropped. *)
Definition strftime_seconds (d : datetime) : DATETIME := dt_seconds d.

(** The [datetime] a [DATETIME] cell denotes. *)
Definition of_DATETIME (c : DATETIME) : datetime :=
  {| dt_seconds := c; dt_microsecond := 0 |}.

(** The server's conversion of a [datetime] parameter to a [DATETIME] cell:
    the fraction of the second is not kept. *)
Definition to_DATETIME (d : datetime) : DATETIME := dt_seconds d.

(** [DATE(ts)]: the day of an instant. *)
Definition DATE (d : datetime) : Z := dt_seconds d `div` 86400.

(** A time as Python holds it: a [str] or a [datetime]; where [None] is
    possible the type is [option time_value]. *)
Inductive time_value : Type :=
  | TStr (s : string)
  | TDatetime (d : datetime).

(** Truth value of a time value ([if last_time:], [if result[0]:]): the
    empty [str] is false, a [datetime] is always true. *)
Definition truthy (t : time_value) : bool :=
  match t with
  | TStr s => negb (bool_decide (s = ""))
  | TDatetime _ => true
  end.

(** The two formats the sources parse with. *)
Definition FMT_SECONDS : string := "%Y-%m-%d %H:%M:%S".
Definition FMT_FRACTION : string := "%Y-%m-%d %H:%M:%S.%f".

(* ===================================================================== *)
(** * Exceptions, log records, the database and the world *)
(* ===================================================================== *)

Inductive exn : Type :=
  | ValueError
  | KeyError (key : string)
  | IndexError.

Inductive outcome (A : Type) : Type :=
  | Ok (a : A)
  | Raise (e : exn).
Arguments Ok {A} a.
Arguments Raise {A} e.

(** A row of [tb_product_scanner] as selected by the code search:
    [(scanner_timestamp, product_code, operator_id, work_order)]. *)
Record scanner_row : Type := {
  scanner_timestamp : datetime;
  scan_product_code : string;
  scan_operator_id : string;
  scan_work_order : string
}.

(** A row of [tb_equipment_records]: [status_field] and
    [TIMESTAMP(date_field, time_field)]. *)
Record equipment_row : Type := {
  status_field : pyval;
  equipment_timestamp : datetime
}.

(** A row of [tb_combined_data], with the columns of the [INSERT IGNORE]
    statement of [save_combined_data_centered_conveyor].  The state manager
    calls the trigger column [timestamp_conveyor] and the code column
    [code_timestamp]; they are [cd_conveyor_timestamp] and
    [cd_scanner_timestamp] here.  The trigger column may be [NULL] (the
    state manager selects [WHERE timestamp_conveyor IS NOT NULL]). *)
Record combined_row : Type := {
  cd_scanner_timestamp : DATETIME;
  cd_equipment_timestamp : DATETIME;
  cd_conveyor_timestamp : option DATETIME;
  cd_status_field : pyval;
  cd_process_status : string;
  cd_process_complete_status : string;
  cd_product_code : string;
  cd_code_description : string;
  cd_operator_id : string;
  cd_work_order : string
}.

(** The unique key [(code, equipment, conveyor)] timestamps of
    [tb_combined_data]. *)
Definition unique_key (r : combined_row)
    : DATETIME * DATETIME * option DATETIME :=
  (cd_scanner_timestamp r, cd_equipment_timestamp r, cd_conveyor_timestamp r).

Record Database : Type := {
  tb_conveyor_requests : list datetime;
  tb_product_scanner : list scanner_row;
  tb_equipment_records : list equipment_row;
  tb_combined_data : list combined_row;
  (** [last_processed_time] of the row [id = 1] of [tb_processing_state] *)
  tb_processing_state : option DATETIME;
  (** the server's [CURDATE()] *)
  CURDATE : Z
}.

Inductive level : Type := INFO | WARNING | ERROR.

(** The messages the modelled functions log, by their content; of main.py
    the error lines only. *)
Inductive message : Type :=
  (* query_executor *)
  | ExecutorError (db_type : string)
  (* state_manager *)
  | LastProcessedTime (t : option datetime)
  | InconsistentState (t : datetime)
  | InitializingFromConveyor (t : datetime)
  | InitializingFromCode (t : datetime)
  | NoExistingData
  | TimeUpdated (t : datetime)
  (* equipment_data_handler *)
  | NoEquipmentRecordsToSave
  | SavedRecords (n : nat) (t : datetime)
  | ErrorSavingRecords (t : datetime)
  (* data_processor *)
  | FoundRequests (raw filtered : nat)
  | ErrorGettingRequests
  | NoNewRequests
  | ProcessingRequests (n : nat)
  | SearchingFromStartOfDay
  | SearchingAfter (t : datetime)
  | ErrorVerifyingCycle (t : datetime)
  | PreviousCycleNotComplete (prev cur : datetime)
  | NoCodeFound (t : datetime)
  | SkippingRequest (t : datetime)
  | CodeFound (t : datetime)
  | FailedSaving (t : datetime)
  | CombinedDataSaved (t : datetime)
  | ProcessingInfo (t : datetime) (records : nat)
  (* main *)
  | ErrorProcessingRequests
  | ErrorInCycle
  | ErrorInInitialization
  | InitializationFailed.

(** Everything the modelled objects read and write: the databases behind the
    query executor, the outcomes of the coming connections and statements
    ([true]: the connection opens and the statement runs; an exhausted list
    means success), the log, the [last_processed_time] attribute of the
    state manager and the [requests_without_code] set of the data processor
    (its members are [strftime] texts, see [strftime_seconds]). *)
Record World : Type := {
  database : Database;
  outcomes : list bool;
  log : list (level * message);
  last_processed_time : option datetime;
  requests_without_code : gset DATETIME
}.

Definition set_database (db : Database) (w : World) : World :=
  {| database := db; outcomes := outcomes w; log := log w;
     last_processed_time := last_processed_time w;
     requests_without_code := requests_without_code w |}.

Definition set_outcomes (o : list bool) (w : World) : World :=
  {| database := database w; outcomes := o; log := log w;
     last_processed_time := last_processed_time w;
     requests_without_code := requests_without_code w |}.

Definition add_log (r : level * message) (w : World) : World :=
  {| database := database w; outcomes := outcomes w; log := log w ++ [r];
     last_processed_time := last_processed_time w;
     requests_without_code := requests_without_code w |}.

Definition set_last_processed_time (t : option datetime) (w : World) : World :=
  {| database := database w; outcomes := outcomes w; log := log w;
     last_processed_time := t;
     requests_without_code := requests_without_code w |}.

Definition set_requests_without_code (s : gset DATETIME) (w : World) : World :=
  {| database := database w; outcomes := outcomes w; log := log w;
     last_processed_time := last_processed_time w;
     requests_without_code := s |}.

(** Computations over the world that return a value or raise. *)
Definition M (A : Type) : Type := World → outcome A * World.

Definition ret {A} (a : A) : M A := λ w, (Ok a, w).

Definition bind {A B} (c : M A) (k : A → M B) : M B :=
  λ w, match c w with
       | (Ok a, w') => k a w'
       | (Raise e, w') => (Raise e, w')
       end.

Definition raise {A} (e : exn) : M A := λ w, (Raise e, w).

(** [try: c  except Exception as e: h] *)
Definition try_except {A} (c : M A) (h : exn → M A) : M A :=
  λ w, match c w with
       | (Ok a, w') => (Ok a, w')
       | (Raise e, w') => h e w'
       end.

Notation "x <- c ;;; k" := (bind c (λ x, k))
  (at level 20, c at level 99, k at level 200, only parsing).
Notation "c ;;; k" := (bind c (λ _, k))
  (at level 100, k at level 200, only parsing, right associativity).

Definition get_world : M World := λ w, (Ok w, w).
Definition modify (f : World → World) : M unit := λ w, (Ok tt, f w).
Definition logger (l : level) (m : message) : M unit := modify (add_log (l, m)).

(** Result and final world of a computation. *)
Definition result_of {A} (r : outcome A * World) : outcome A := fst r.
Definition world_of {A} (r : outcome A * World) : World := snd r.

(** Python list indexing [l[i]] with a non-negative index. *)
Definition list_get {A} (l : list A) (i : nat) : M A :=
  match l !! i with
  | Some x => ret x
  | None => raise IndexError
  end.

(** Python dictionary indexing [d[key]]. *)
Definition dict_get {A} (d : gmap string A) (key : string) : M A :=
  match d !! key with
  | Some x => ret x
  | None => raise (KeyError key)
  end.

(** [for x in l: body(x)] *)
Fixpoint for_each {A} (body : A → M unit) (l : list A) : M unit :=
  match l with
  | [] => ret tt
  | x :: rest => body x ;;; for_each body rest
  end.

(** [[x for x in l if test(x)]] with a test that may raise. *)
Fixpoint filter_M {A} (test : A → M bool) (l : list A) : M (list A) :=
  match l with
  | [] => ret []
  | x :: rest =>
      keep <- test x ;;;
      kept <- filter_M test rest ;;;
      ret (if keep then x :: kept else kept)
  end.

(** [enumerate(l)] *)
Definition enumerate {A} (l : list A) : list (nat * A) :=
  imap (λ i x, (i, x)) l.

(** [MAX(column)] over the selected cells; [None] is SQL [NULL]. *)
Definition MAX (cells : list DATETIME) : option DATETIME :=
  foldr (λ c acc, Some (from_option (Z.max c) c acc)) None cells.

(** A pure function that may raise, used in a computation. *)
Definition lift {A} (r : outcome A) : M A := λ w, (r, w).

(* ===================================================================== *)
(** * config/credentials.py and database/connection_manager.py *)
(* ===================================================================== *)

Module connection_manager.

(** The keyword arguments of [mariadb.connect]. *)
Record config : Type := {
  host : string;
  user : string;
  password : string;
  database_name : string;
  port : Z
}.

Section Environment.

(** [os.getenv(name, default)] and [int(os.getenv(name, default))] as the
    process environment gives them. *)
Variable getenv : string → string → string.
Variable getenv_int : string → Z → Z.

(** The [DB_CONFIGS] dictionary of credentials.py. *)
Definition DB_CONFIGS : gmap string config :=
  {[ "equipment" :=
       {| host := getenv "DB_EQUIPMENT_HOST" "localhost";
          user := getenv "DB_EQUIPMENT_USER" "user";
          password := getenv "DB_EQUIPMENT_PASS" "password";
          database_name := getenv "DB_EQUIPMENT_NAME" "db";
          port := getenv_int "DB_EQUIPMENT_PORT" 3306 |};
     "Code" :=
       {| host := getenv "DB_CODE_HOST" "localhost";
          user := getenv "DB_CODE_USER" "user";
          password := getenv "DB_CODE_PASS" "password";
          database_name := getenv "DB_CODE_NAME" "db";
          port := getenv_int "DB_CODE_PORT" 3306 |};
     "Combined" :=
       {| host := getenv "DB_COMBINED_HOST" "localhost";
          user := getenv "DB_COMBINED_USER" "user";
          password := getenv "DB_COMBINED_PASS" "password";
          database_name := getenv "DB_COMBINED_NAME" "db";
          port := getenv_int "DB_COMBINED_PORT" 3307 |} ]}.

End Environment.

(** The keys of [DB_CONFIGS]: the database types of credentials.py, which
    no environment changes. *)
Definition DB_TYPES : list string := ["equipment"; "Code"; "Combined"].

(** A connection object, by the order in which [mariadb.connect] made
    it. *)
Definition connection : Type := nat.

Inductive event : Type :=
  | SuccessfulConnection (db_type : string)
  | ErrorConnecting (db_type : string).

(** The manager object and what it acts on: its two dictionaries, the
    connections made so far, those that were closed, the outcomes of the
    coming [mariadb.connect] calls ([false]: [mariadb.Error]; an exhausted
    list means success) and the log. *)
Record Manager : Type := {
  connections : gmap string config;
  active_connections : gmap string connection;
  made : nat;
  closed : gset connection;
  attempts : list bool;
  events : list (level * event)
}.

(** [DatabaseConnectionManager.__init__] *)
Definition DatabaseConnectionManager__init__
    (DB_CONFIGS : gmap string config) (attempts : list bool) : Manager :=
  {| connections := DB_CONFIGS; active_connections := ∅; made := 0;
     closed := ∅; attempts := attempts; events := [] |}.

Definition connect (db_type : string) (m : Manager)
    : outcome (option connection) * Manager :=
  match connections m !! db_type with
  | None => (Raise ValueError, m)
  | Some _ =>
      match active_connections m !! db_type with
      | Some conn => (Ok (Some conn), m)
      | None =>
          if default true (head (attempts m)) then
            let conn := made m in
            (Ok (Some conn),
             {| connections := connections m;
                active_connections := <[ db_type := conn ]> (active_connections m);
                made := S (made m);
                closed := closed m;
                attempts := tail (attempts m);
                events := events m ++ [(INFO, SuccessfulConnection db_type)] |})
          else
            (Ok None,
             {| connections := connections m;
                active_connections := active_connections m;
                made := made m;
                closed := closed m;
                attempts := tail (attempts m);
                events := events m ++ [(ERROR, ErrorConnecting db_type)] |})
      end
  end.

(** A connection object is true, so [if conn: conn.close()] closes it. *)
Definition close_connection (db_type : string) (m : Manager) : Manager :=
  match active_connections m !! db_type with
  | Some conn =>
      {| connections := connections m;
         active_connections := delete db_type (active_connections m);
         made := made m;
         closed := closed m ∪ {[ conn ]};
         attempts := attempts m;
         events := events m |}
  | None => m
  end.

(** The loop over [list(self.active_connections.items())]. *)
Definition close_all (m : Manager) : Manager :=
  foldl (λ m' item, close_connection item.1 m') m
        (map_to_list (active_connections m)).

(** The connections that the manager holds are open: each was made by
    the manager and not closed by it, no two types share one, and what was
    closed had been made. *)
Definition holds_open_connections (m : Manager) : Prop :=
  (∀ (db_type : string) (conn : connection),
     active_connections m !! db_type = Some conn →
     (conn ∉ closed m) ∧ (conn < made m)%nat)
  ∧ (∀ (t1 t2 : string) (conn : connection),
       active_connections m !! t1 = Some conn →
       active_connections m !! t2 = Some conn → t1 = t2)
  ∧ (∀ conn : connection, conn ∈ closed m → (conn < made m)%nat).

End connection_manager.

(* ===================================================================== *)
(** * database/query_executor.py, as far as connections are concerned *)
(* ===================================================================== *)

Module query_executor.

Import connection_manager.

(** [finally: if close_after: self.conn_manager.close_connection(db_type)] *)
Definition finally_close (close_after : bool) (db_type : string)
    (m : Manager) : Manager :=
  if close_after then close_connection db_type m else m.

(** [execute_query]: [statement conn] is what the cursor of [conn]
    fetches, [None] when it raises [mariadb.Error] (the executor's own log
    line is left out). *)
Definition execute_query {R} (db_type : string)
    (statement : connection → option R) (close_after : bool) (m : Manager)
    : outcome (option R) * Manager :=
  match connect db_type m with
  | (Raise e, m1) => (Raise e, m1)
  | (Ok None, m1) => (Ok None, m1)
  | (Ok (Some conn), m1) =>
      (Ok (statement conn), finally_close close_after db_type m1)
  end.

(** [execute_update]: [statement conn] is [false] when the statement or the
    commit raises [mariadb.Error]. *)
Definition execute_update (db_type : string) (statement : connection → bool)
    (close_after : bool) (m : Manager) : outcome bool * Manager :=
  match connect db_type m with
  | (Raise e, m1) => (Raise e, m1)
  | (Ok None, m1) => (Ok false, m1)
  | (Ok (Some conn), m1) =>
      (Ok (statement conn), finally_close close_after db_type m1)
  end.

Definition execute_many {P} (db_type : string)
    (statement : list P → connection → bool) (params_list : list P)
    (close_after : bool) (m : Manager) : outcome bool * Manager :=
  match params_list with
  | [] => (Ok true, m)
  | _ =>
      match connect db_type m with
      | (Raise e, m1) => (Raise e, m1)
      | (Ok None, m1) => (Ok false, m1)
      | (Ok (Some conn), m1) =>
          (Ok (statement params_list conn),
           finally_close close_after db_type m1)
      end
  end.

(** What a call of the executor with [close_after] leaves behind, from the
    manager [m] to the result [r]: when it returns, the type has no active
    connection; it raises only the [ValueError] of an unknown type, and
    then changes nothing; the configuration stays, and so does the
    openness of the held connections. *)
Definition released {R} (db_type : string) (m : Manager)
    (r : outcome R * Manager) : Prop :=
  (∀ x, r.1 = Ok x → active_connections r.2 !! db_type = None)
  ∧ (∀ e, r.1 = Raise e →
          e = ValueError ∧ r.2 = m ∧ connections m !! db_type = None)
  ∧ connections r.2 = connections m
  ∧ (holds_open_connections m → holds_open_connections r.2).

End query_executor.

(* ===================================================================== *)
(** * Notions used in the statements *)
(* ===================================================================== *)

Global Instance level_eq_dec : EqDecision level.
Proof. solve_decision. Defined.

Global Instance message_eq_dec : EqDecision message.
Proof. solve_decision. Defined.

(** The durable cursor: the singleton row of [tb_processing_state]. *)
Definition durable_cursor (w : World) : option DATETIME :=
  tb_processing_state (database w).

(** Both copies of the cursor, the durable one and the in-memory one. *)
Definition cursor_state (w : World) : option DATETIME * option datetime :=
  (durable_cursor w, last_processed_time w).

(** From [w] to [w'] the two copies are untouched, or both were set to one
    instant [t] of [T]: the row to its second, the attribute to [t]. *)
Definition moved (T : datetime → Prop) (w w' : World) : Prop :=
  cursor_state w' = cursor_state w
  ∨ ∃ t, T t ∧ cursor_state w' = (Some (dt_seconds t), Some t).

(** A computation that, from every world, leaves the cursor alone or moves
    it to an instant of [T], whether it returns or raises. *)
Definition advances {A} (T : datetime → Prop) (c : M A) : Prop :=
  ∀ w, moved T w (world_of (c w)).

(** A computation that never touches either copy of the cursor. *)
Definition keeps_cursor {A} (c : M A) : Prop := advances (λ _, False) c.

(** Order on durable cursors; an absent row is below every value. *)
Definition cursor_le (a b : option DATETIME) : Prop :=
  match a, b with
  | None, _ => True
  | Some x, Some y => x <= y
  | Some _, None => False
  end.

(** The durable cursor, when there is one, is not after the in-memory
    cursor. *)
Definition cursor_consistent (w : World) : Prop :=
  match durable_cursor w with
  | None => True
  | Some c => ∃ m, last_processed_time w = Some m ∧ c <= dt_seconds m
  end.

(** The in-memory cursor, when there is one, is not after the durable
    cursor. *)
Definition memory_not_ahead (w : World) : Prop :=
  match last_processed_time w with
  | None => True
  | Some m => ∃ c, durable_cursor w = Some c ∧ dt_le m (of_DATETIME c)
  end.

(** The next connection and statement succeed. *)
Definition next_up (w : World) : Prop := head (outcomes w) ≠ Some false.

(** No connection or statement fails from now on. *)
Definition all_up (w : World) : Prop := Forall (λ up, up = true) (outcomes w).

(** How often the no-code warning for the trigger time [t] is in a log. *)
Definition warnings_for (t : datetime) (l : list (level * message)) : nat :=
  length (filter (λ r, r = (WARNING, NoCodeFound t)) l).

(** The world after the connection of one executor call was consumed. *)
Definition after_call (w : World) : World := set_outcomes (tail (outcomes w)) w.

(** From [w] to [w'] only the log and the pending outcomes may differ, and
    the log has no further no-code warning for the trigger time [t]. *)
Definition quiet (t : datetime) (w w' : World) : Prop :=
  database w' = database w
  ∧ last_processed_time w' = last_processed_time w
  ∧ requests_without_code w' = requests_without_code w
  ∧ warnings_for t (log w') = warnings_for t (log w).

(** A computation whose final world is related by [R] to its initial world,
    whether it returns or raises. *)
Definition preserves {A} (R : relation World) (c : M A) : Prop :=
  ∀ w, R w (world_of (c w)).

(** From [w] to [w'] no table and not the in-memory cursor changed. *)
Definition untouched (w w' : World) : Prop :=
  database w' = database w
  ∧ last_processed_time w' = last_processed_time w.

(** From [w] to [w'] only the log and the pending outcomes may differ. *)
Definition read_only (w w' : World) : Prop :=
  database w' = database w
  ∧ last_processed_time w' = last_processed_time w
  ∧ requests_without_code w' = requests_without_code w.

(** From [w] to [w'] the log only grew, and by no warning of an
    inconsistent state. *)
Definition no_new_inconsistency (w w' : World) : Prop :=
  ∃ added,
    log w' = (log w ++ added)%list
    ∧ Forall (λ r, ∀ t, r ≠ (WARNING, InconsistentState t)) added.

(** A computation that returns from every world. *)
Definition never_raises {A} (c : M A) : Prop :=
  ∀ w, ∃ a, result_of (c w) = Ok a.

(* ===================================================================== *)
(** * Data of the examples *)
(* ===================================================================== *)

(** A whole second as a [datetime]; second 32400 of a day is 09:00:00. *)
Definition at_second (s : Z) : datetime :=
  {| dt_seconds := s; dt_microsecond := 0 |}.

(** A deployment in which no text reaches [int()], [strptime] or the
    server: the connector hands over [datetime] objects, as the MariaDB
    connector does. *)
Definition no_text_int : string → option Z := λ _, None.
Definition no_strptime : string → string → option datetime := λ _ _, None.
Definition no_sql_text : string → option DATETIME := λ _, None.
Definition object_connector : datetime → time_value := TDatetime.
Definition no_descriptions : gmap string string := ∅.

(** The database types that a deployment adds to those of credentials.py:
    none, as in the sources, or the two that the data processor and the
    equipment data handler name besides. *)
Definition as_shipped : list string := [].
Definition with_scanner_and_analytics : list string :=
  ["scanner"; "analytics"].



Definition make_database (triggers : list datetime) (codes : list scanner_row)
    (samples : list equipment_row) (cursor : option DATETIME) : Database :=
  {| tb_conveyor_requests := triggers;
     tb_product_scanner := codes;
     tb_equipment_records := samples;
     tb_combined_data := [];
     tb_processing_state := cursor;
     CURDATE := 0 |}.

(** A freshly constructed system over a database that is reachable. *)
Definition fresh_world (db : Database) : World :=
  {| database := db; outcomes := []; log := [];
     last_processed_time := None; requests_without_code := ∅ |}.

Definition scan (s : Z) : scanner_row :=
  {| scanner_timestamp := at_second s; scan_product_code := "P1";
     scan_operator_id := "operator-7"; scan_work_order := "WO-1" |}.

Definition sample (status : Z) (s : Z) : equipment_row :=
  {| status_field := PyInt status; equipment_timestamp := at_second s |}.

(** A trigger at 09:00:00, its code at 09:00:05, and no equipment sample
    in [(09:00:00, 09:10:00]]. *)
Definition db_zero_samples : Database :=
  make_database [at_second 32400] [scan 32405] [] None.

(** The same trigger and code with three equipment samples in the window,
    the last one with all six phases. *)
Definition db_three_samples : Database :=
  make_database [at_second 32400] [scan 32405]
    [sample 1 32402; sample 3 32406; sample 63 32409] None.

(** A trigger at 09:00:00 and no code yet. *)
Definition db_no_code : Database :=
  make_database [at_second 32400] [] [] None.

(** The code of that trigger arrives, scanned at 09:05:00. *)
Definition db_code_arrived : Database :=
  make_database [at_second 32400] [scan 32700] [] None.

(** A second trigger, at 09:02:00, arrives: the window of the first one now
    ends before the code. *)
Definition db_second_trigger : Database :=
  make_database [at_second 32400; at_second 32520] [scan 32700] [] None.

(** A batch of two equipment samples for the trigger at 09:00:00. *)
Definition two_samples : gmap string (list (pyval * time_value)) :=
  {[ "status_records" := [ (PyInt 1, TDatetime (at_second 32402));
                           (PyInt 3, TDatetime (at_second 32406)) ] ]}.

(** A combined-record table whose only row has no trigger timestamp. *)
Definition db_code_rows_only : Database :=
  {| tb_conveyor_requests := [];
     tb_product_scanner := [];
     tb_equipment_records := [];
     tb_combined_data :=
       [ {| cd_scanner_timestamp := 32405;
            cd_equipment_timestamp := 32406;
            cd_conveyor_timestamp := None;
            cd_status_field := PyInt 3;
            cd_process_status := "start_phase_2";
            cd_process_complete_status := "start_phase_1 start_phase_2";
            cd_product_code := "P1";
            cd_code_description := "";
            cd_operator_id := "operator-7";
            cd_work_order := "WO-1" |} ];
     tb_processing_state := None;
     CURDATE := 0 |}.

(** A [strptime] that reads one text, and only with the fractional
    format. *)
Definition fraction_only_strptime : string → string → option datetime :=
  λ text format,
    if bool_decide (text = "2024-01-01 09:00:00.250000"
                    ∧ format = FMT_FRACTION)
    then Some {| dt_seconds := 32400; dt_microsecond := 250000 |}
    else None.

(** A connector that hands every temporal cell over as that text. *)
Definition fraction_text_connector : datetime → time_value :=
  λ _, TStr "2024-01-01 09:00:00.250000".

(** A system that holds the cursor 10:00:00 in memory and in the row, over
    a combined-record table whose trigger timestamps end at 09:00:00. *)
Definition world_cursor_ahead_of_data : World :=
  {| database :=
       {| tb_conveyor_requests := [];
          tb_product_scanner := [];
          tb_equipment_records := [];
          tb_combined_data :=
            [ {| cd_scanner_timestamp := 32405;
                 cd_equipment_timestamp := 32406;
                 cd_conveyor_timestamp := Some 32400;
                 cd_status_field := PyInt 3;
                 cd_process_status := "start_phase_2";
                 cd_process_complete_status := "start_phase_1 start_phase_2";
                 cd_product_code := "P1";
                 cd_code_description := "";
                 cd_operator_id := "operator-7";
                 cd_work_order := "WO-1" |} ];
          tb_processing_state := Some 36000;
          CURDATE := 0 |};
     outcomes := []; log := [];
     last_processed_time := Some (at_second 36000);
     requests_without_code := ∅ |}.

(** A system whose cursor, in memory and in the row, is 09:00:00, over
    three triggers: one 200 seconds before the cursor, the one at the
    cursor and one at 09:02:00. *)
Definition world_polling_from_cursor : World :=
  {| database :=
       make_database [at_second 32520; at_second 32200; at_second 32400]
         [] [] (Some 32400);
     outcomes := []; log := [];
     last_processed_time := Some (at_second 32400);
     requests_without_code := ∅ |}.

(** A system whose stored cursor is 15:00:00 and whose in-memory cursor is
    unset, as after a start-up at which the stored cursor could not be
    read, over the trigger at 09:00:00 with its code and three samples. *)
Definition world_cursor_not_read : World :=
  {| database :=
       make_database [at_second 32400] [scan 32405]
         [sample 1 32402; sample 3 32406; sample 63 32409] (Some 54000);
     outcomes := []; log := [];
     last_processed_time := None;
     requests_without_code := ∅ |}.

(** A freshly constructed system whose database cannot be reached for the
    next twenty calls. *)
Definition world_database_down : World :=
  {| database := db_three_samples; outcomes := replicate 20 false; log := [];
     last_processed_time := None; requests_without_code := ∅ |}.

(** Two handler methods for the examples: a fetch that returns one sample
    under both keys, and a save that reports failure. *)
Definition handler_get_one_sample (start_time end_time : datetime)
    : M (gmap string (list (pyval * time_value))) :=
  ret {[ "status_records" := [ (PyInt 1, TDatetime (at_second 32402)) ];
         "v24_records" := [ (PyInt 1, TDatetime (at_second 32402)) ] ]}.

Definition handler_save_failing {A} (combined_data : A) : M bool :=
  ret false.

(** A cursor time with a fraction of a second: 09:00:00.250000. *)
Definition quarter_past_second : datetime :=
  {| dt_seconds := 32400; dt_microsecond := 250000 |}.

(** An environment in which no variable is set: [os.getenv] returns its
    default. *)
Definition unset_getenv : string → string → string := λ _ default, default.
Definition unset_getenv_int : string → Z → Z := λ _ default, default.

(** The manager of a new process in that environment, with a reachable
    server. *)
Definition new_manager : connection_manager.Manager :=
  connection_manager.DatabaseConnectionManager__init__
    (connection_manager.DB_CONFIGS unset_getenv unset_getenv_int) [].

Section System.

(** ** What the libraries and the deployment provide *)

(** The database types that a deployment adds to the [DB_CONFIGS] of
    credentials.py.  In the sources as they are it adds none: the list is
    empty, and the connection manager knows ['equipment'], ['Code'] and
    ['Combined'] only. *)
Variable deployment : list string.

(** Python's [int()] on a [str] ([None]: [ValueError]). *)
Variable int_of_str : string → option Z.

(** [datetime.strptime(text, format)] ([None]: [ValueError]). *)
Variable strptime : string → string → option datetime.

(** How the connector hands a temporal cell to Python: as a [datetime]
    object or as text. *)
Variable connector_time : datetime → time_value.

(** The server's reading of a text parameter bound to a [DATETIME] column
    ([None]: the statement fails). *)
Variable sql_datetime : string → option DATETIME.

(** The catalogue [descriptions] of [database/descriptions_dict.py], a
    module that is not among the sources. *)
Variable descriptions : gmap string string.

(* =================================================================== *)
(** ** query_executor.py *)
(* =================================================================== *)

(** [db_type in self.connections], the test of
    [DatabaseConnectionManager.connect]. *)
Definition configured (db_type : string) : bool :=
  bool_decide (db_type ∈ connection_manager.DB_TYPES)
  || bool_decide (db_type ∈ deployment).

(** Whether the connection opens and the statement of the call runs, as
    the next element of [outcomes] says. *)
Definition next_outcome : M bool :=
  λ w, match outcomes w with
       | [] => (Ok true, w)
       | up :: rest => (Ok up, set_outcomes rest w)
       end.

(** Every call of the executor starts with
    [conn = self.conn_manager.connect(db_type)], outside its [try]:
    [connect] raises [ValueError] for a type that is not configured, and
    the executor lets it through.  For a configured type the call opens its
    connection and runs one statement; both succeed or not as
    [next_outcome] says.  A statement is given by what it selects from, or
    does to, the database. *)
Definition connect (db_type : string) : M bool :=
  if configured db_type then next_outcome else raise ValueError.

(** [execute_query(db_type, query, params)]: [fetchall()], or [None] when
    the connection or the query fails. *)
Definition execute_query {R} (db_type : string)
    (query : Database → list R) : M (option (list R)) :=
  up <- connect db_type ;;;
  if (up : bool) then w <- get_world ;;; ret (Some (query (database w)))
  else logger ERROR (ExecutorError db_type) ;;; ret None.

(** [execute_query(db_type, query, params, fetch_one=True)]: [fetchone()],
    which is [None] when no row is selected. *)
Definition execute_query_one {R} (db_type : string)
    (query : Database → option R) : M (option R) :=
  up <- connect db_type ;;;
  if (up : bool) then w <- get_world ;;; ret (query (database w))
  else logger ERROR (ExecutorError db_type) ;;; ret None.

(** [execute_update(db_type, query, params)]: runs and commits; [False]
    when the connection or the statement fails. *)
Definition execute_update (db_type : string)
    (statement : Database → option Database) : M bool :=
  up <- connect db_type ;;;
  if (up : bool) then
    w <- get_world ;;;
    match statement (database w) with
    | Some db' => modify (set_database db') ;;; ret true
    | None => logger ERROR (ExecutorError db_type) ;;; ret false
    end
  else logger ERROR (ExecutorError db_type) ;;; ret false.

(** [cursor.executemany(query, params_list)]: the statement once per
    parameter tuple, in order; the first failure fails the batch. *)
Fixpoint executemany {P} (statement : P → Database → option Database)
    (params_list : list P) (db : Database) : option Database :=
  match params_list with
  | [] => Some db
  | p :: rest =>
      match statement p db with
      | Some db' => executemany statement rest db'
      | None => None
      end
  end.

(** [execute_many(db_type, query, params_list)]: [True] at once for an
    empty list; otherwise the batch is committed as a whole or not at
    all. *)
Definition execute_many {P} (db_type : string)
    (statement : P → Database → option Database)
    (params_list : list P) : M bool :=
  match params_list with
  | [] => ret true
  | _ =>
      up <- connect db_type ;;;
      if (up : bool) then
        w <- get_world ;;;
        match executemany statement params_list (database w) with
        | Some db' => modify (set_database db') ;;; ret true
        | None => logger ERROR (ExecutorError db_type) ;;; ret false
        end
      else logger ERROR (ExecutorError db_type) ;;; ret false
  end.

(* =================================================================== *)
(** ** state_manager.py *)
(* =================================================================== *)

(** The normalisation of a [str] that the sources repeat:
    [try: strptime(s, '%Y-%m-%d %H:%M:%S')]
    [except ValueError: strptime(s, '%Y-%m-%d %H:%M:%S.%f')]. *)
Definition parse_time (s : string) : outcome datetime :=
  match strptime s FMT_SECONDS with
  | Some d => Ok d
  | None =>
      match strptime s FMT_FRACTION with
      | Some d => Ok d
      | None => Raise ValueError
      end
  end.

(** The tail the three getters share: [if result and result[0]: ...
    return result[0]], else [return None].  [result] is the fetched row,
    its only cell [None] for SQL [NULL]. *)
Definition read_time_cell (result : option (option time_value))
    : M (option datetime) :=
  match result with
  | Some (Some cell) =>
      if truthy cell then
        match cell with
        | TStr s => d <- lift (parse_time s) ;;; ret (Some d)
        | TDatetime d => ret (Some d)
        end
      else ret None
  | _ => ret None
  end.

(** [SELECT last_processed_time FROM tb_processing_state WHERE id = 1] *)
Definition select_last_processed_time (db : Database)
    : option (option time_value) :=
  match tb_processing_state db with
  | Some c => Some (Some (connector_time (of_DATETIME c)))
  | None => None
  end.

Definition get_last_processed_time : M (option datetime) :=
  result <- execute_query_one "Combined" select_last_processed_time ;;;
  read_time_cell result.

(** [SELECT MAX(timestamp_conveyor) FROM tb_combined_data
     WHERE timestamp_conveyor IS NOT NULL] *)
Definition select_max_conveyor (db : Database) : option (option time_value) :=
  Some (connector_time ∘ of_DATETIME
          <$> MAX (omap cd_conveyor_timestamp (tb_combined_data db))).

Definition get_last_processed_time_from_conveyor_data : M (option datetime) :=
  result <- execute_query_one "Combined" select_max_conveyor ;;;
  read_time_cell result.

(** [SELECT MAX(code_timestamp) FROM tb_combined_data] *)
Definition select_max_code (db : Database) : option (option time_value) :=
  Some (connector_time ∘ of_DATETIME
          <$> MAX (cd_scanner_timestamp <$> tb_combined_data db)).

Definition get_last_processed_time_from_code_data : M (option datetime) :=
  result <- execute_query_one "Combined" select_max_code ;;;
  read_time_cell result.

(** The upsert of the singleton row with its parameter: the text of
    [strftime] for a [datetime], the text itself for a [str]. *)
Definition upsert_state (last_time : time_value) (db : Database)
    : option Database :=
  match
    match last_time with
    | TDatetime d => Some (strftime_seconds d)
    | TStr s => sql_datetime s
    end
  with
  | Some c =>
      Some {| tb_conveyor_requests := tb_conveyor_requests db;
              tb_product_scanner := tb_product_scanner db;
              tb_equipment_records := tb_equipment_records db;
              tb_combined_data := tb_combined_data db;
              tb_processing_state := Some c;
              CURDATE := CURDATE db |}
  | None => None
  end.

Definition persist_last_processed_time (last_time : option time_value)
    : M bool :=
  match last_time with
  | Some t =>
      if truthy t then execute_update "Combined" (upsert_state t)
      else ret false
  | None => ret false
  end.

Definition update_last_processed_time (new_time : option time_value)
    : M bool :=
  persisted <- persist_last_processed_time new_time ;;;
  if (persisted : bool) then
    new_time' <- match new_time with
                 | Some (TStr s) => d <- lift (parse_time s) ;;; ret (Some d)
                 | Some (TDatetime d) => ret (Some d)
                 | None => ret None
                 end ;;;
    modify (set_last_processed_time new_time') ;;;
    match new_time' with
    | Some d => logger INFO (TimeUpdated d)
    | None => ret tt
    end ;;;
    ret true
  else ret false.

Definition initialize_from_existing_data : M (option datetime) :=
  last_conveyor_time <- get_last_processed_time_from_conveyor_data ;;;
  w <- get_world ;;;
  let current_state := last_processed_time w in
  (* the statements after the first [if] *)
  let otherwise : M (option datetime) :=
    last_conveyor_time <- get_last_processed_time_from_conveyor_data ;;;
    match last_conveyor_time with
    | Some last =>
        logger INFO (InitializingFromConveyor last) ;;;
        persist_last_processed_time (Some (TDatetime last)) ;;;
        modify (set_last_processed_time (Some last)) ;;;
        ret (Some last)
    | None =>
        last_code_time <- get_last_processed_time_from_code_data ;;;
        match last_code_time with
        | Some last =>
            logger INFO (InitializingFromCode last) ;;;
            persist_last_processed_time (Some (TDatetime last)) ;;;
            modify (set_last_processed_time (Some last)) ;;;
            ret (Some last)
        | None =>
            logger INFO NoExistingData ;;;
            ret None
        end
    end in
  match current_state, last_conveyor_time with
  | Some cur, Some last =>
      if bool_decide (dt_lt last cur) then
        logger WARNING (InconsistentState last) ;;;
        persist_last_processed_time (Some (TDatetime last)) ;;;
        modify (set_last_processed_time (Some last)) ;;;
        ret (Some last)
      else otherwise
  | _, _ => otherwise
  end.

(* =================================================================== *)
(** ** equipment_data_handler.py *)
(* =================================================================== *)

(** [descriptions.get(product_code, "")]; the write-only
    [descriptions_cache] attribute is left out. *)
Definition get_code_description (product_code : string) : string :=
  default "" (descriptions !! product_code).

(** The equipment query: rows with
    [TIMESTAMP(date_field, time_field) > start_time] and [<= end_time],
    ordered by that timestamp, as [(status_field, equipment_timestamp)]. *)
Definition select_equipment (start_time end_time : datetime) (db : Database)
    : list (pyval * time_value) :=
  (λ r, (status_field r, connector_time (equipment_timestamp r)))
  <$> merge_sort (λ a b, dt_le (equipment_timestamp a) (equipment_timestamp b))
        (filter (λ r, dt_lt start_time (equipment_timestamp r)
                      ∧ dt_le (equipment_timestamp r) end_time)
                (tb_equipment_records db)).

Definition get_equipment_data_by_time_range (start_time end_time : datetime)
    : M (gmap string (list (pyval * time_value))) :=
  status_records <-
    execute_query "equipment" (select_equipment start_time end_time) ;;;
  ret {[ "status_records" := default [] status_records ]}.

(** A fetched code row [(scanner_timestamp, product_code, operator_id,
    work_order)]. *)
Definition code_tuple : Type := time_value * string * string * string.

(** The [combined_data] dictionary, with its three fixed keys. *)
Record combined_data_dict : Type := {
  conveyor_time : datetime;
  code_data : code_tuple;
  equipment_data : gmap string (list (pyval * time_value))
}.

(** One parameter tuple of the [INSERT IGNORE] statement. *)
Record insert_params : Type := {
  p_scanner_timestamp : time_value;
  p_equipment_timestamp : time_value;
  p_conveyor_time : datetime;
  p_status_value : pyval;
  p_process_status : string;
  p_process_complete_status : string;
  p_product_code : string;
  p_code_description : string;
  p_operator_id : string;
  p_work_order : string
}.

(** The server's conversion of a temporal parameter to a [DATETIME]
    cell. *)
Definition sql_time_param (t : time_value) : option DATETIME :=
  match t with
  | TDatetime d => Some (to_DATETIME d)
  | TStr s => sql_datetime s
  end.

Definition row_of_params (p : insert_params) : option combined_row :=
  match sql_time_param (p_scanner_timestamp p),
        sql_time_param (p_equipment_timestamp p) with
  | Some code_ts, Some equipment_ts =>
      Some {| cd_scanner_timestamp := code_ts;
              cd_equipment_timestamp := equipment_ts;
              cd_conveyor_timestamp := Some (to_DATETIME (p_conveyor_time p));
              cd_status_field := p_status_value p;
              cd_process_status := p_process_status p;
              cd_process_complete_status := p_process_complete_status p;
              cd_product_code := p_product_code p;
              cd_code_description := p_code_description p;
              cd_operator_id := p_operator_id p;
              cd_work_order := p_work_order p |}
  | _, _ => None
  end.

(** Whether a row with this unique key is in the table. *)
Definition key_present (k : DATETIME * DATETIME * option DATETIME)
    (table : list combined_row) : bool :=
  bool_decide (k ∈ unique_key <$> table).

(** [INSERT IGNORE INTO tb_combined_data ... VALUES (...)] for one
    parameter tuple: a row whose unique key is already there is skipped. *)
Definition insert_ignore (p : insert_params) (db : Database)
    : option Database :=
  match row_of_params p with
  | Some row =>
      Some {| tb_conveyor_requests := tb_conveyor_requests db;
              tb_product_scanner := tb_product_scanner db;
              tb_equipment_records := tb_equipment_records db;
              tb_combined_data :=
                if key_present (unique_key row) (tb_combined_data db)
                then tb_combined_data db
                else tb_combined_data db ++ [row];
              tb_processing_state := tb_processing_state db;
              CURDATE := CURDATE db |}
  | None => None
  end.

(** The parameter list built by the loop over [status_records]. *)
Definition build_params (conveyor_time : datetime) (code_data : code_tuple)
    (status_records : list (pyval * time_value)) : list insert_params :=
  let '(scanner_timestamp, product_code, operator_id, work_order) :=
    code_data in
  let code_description := get_code_description product_code in
  (λ equipment_record : pyval * time_value,
     let status_value := equipment_record.1 in
     let equipment_timestamp := equipment_record.2 in
     {| p_scanner_timestamp := scanner_timestamp;
        p_equipment_timestamp := equipment_timestamp;
        p_conveyor_time := conveyor_time;
        p_status_value := status_value;
        p_process_status :=
          process_decoder.decode_status_current int_of_str status_value;
        p_process_complete_status :=
          process_decoder.decode_status_complete int_of_str status_value;
        p_product_code := product_code;
        p_code_description := code_description;
        p_operator_id := operator_id;
        p_work_order := work_order |})
  <$> status_records.

Definition save_combined_data_centered_conveyor
    (combined_data : combined_data_dict) : M bool :=
  let conveyor_time := conveyor_time combined_data in
  let code_data := code_data combined_data in
  let equipment_data := equipment_data combined_data in
  status_records <- dict_get equipment_data "status_records" ;;;
  match status_records with
  | [] => logger INFO NoEquipmentRecordsToSave ;;; ret true
  | _ =>
      let params := build_params conveyor_time code_data status_records in
      success <- execute_many "analytics" insert_ignore params ;;;
      (if (success : bool)
       then logger INFO (SavedRecords (length params) conveyor_time)
       else logger ERROR (ErrorSavingRecords conveyor_time)) ;;;
      ret success
  end.

(** A handler as the data processor reads it, for comparison: the rows of
    [get_equipment_data_by_time_range] under the key ['v24_records'] as
    well.  It is not part of the sources. *)
Definition get_equipment_data_with_v24_records (start_time end_time : datetime)
    : M (gmap string (list (pyval * time_value))) :=
  equipment_data <- get_equipment_data_by_time_range start_time end_time ;;;
  ret (<[ "v24_records" := default [] (equipment_data !! "status_records") ]>
         equipment_data).

(** The batch of the examples: the trigger at 09:00:00, its code, and the
    given equipment data. *)
Definition example_batch
    (equipment_data : gmap string (list (pyval * time_value)))
    : combined_data_dict :=
  {| conveyor_time := at_second 32400;
     code_data := (TDatetime (at_second 32405), "P1", "operator-7", "WO-1");
     equipment_data := equipment_data |}.

(* =================================================================== *)
(** ** data_processor.py *)
(* =================================================================== *)

Section DataProcessor.

(** The [equipment_handler] object handed to the constructor, by the two
    methods the processor calls on it. *)
Variable handler_get_equipment_data_by_time_range :
  datetime → datetime → M (gmap string (list (pyval * time_value))).
Variable handler_save_combined_data_centered_conveyor :
  combined_data_dict → M bool.

Definition _convert_to_datetime (time_value : time_value) : outcome datetime :=
  match time_value with
  | TStr s => parse_time s
  | TDatetime d => Ok d
  end.

(** The query without a cursor: [DATE(code_timestamp) = CURDATE()],
    ascending. *)
Definition select_conveyor_today (db : Database) : list time_value :=
  connector_time
  <$> merge_sort dt_le
        (filter (λ t, DATE t = CURDATE db) (tb_conveyor_requests db)).

(** The query with a cursor: [code_timestamp > search_time],
    ascending. *)
Definition select_conveyor_after (search_time : datetime) (db : Database)
    : list time_value :=
  connector_time
  <$> merge_sort dt_le
        (filter (λ t, dt_lt search_time t) (tb_conveyor_requests db)).

Definition _build_conveyor_query : M (Database → list time_value) :=
  w <- get_world ;;;
  match last_processed_time w with
  | None =>
      logger INFO SearchingFromStartOfDay ;;;
      ret select_conveyor_today
  | Some last_processed =>
      last_time <- lift (_convert_to_datetime (TDatetime last_processed)) ;;;
      let search_time := add_minutes last_time (-5) in
      logger INFO (SearchingAfter search_time) ;;;
      ret (select_conveyor_after search_time)
  end.

Definition get_new_conveyor_requests : M (list time_value) :=
  w <- get_world ;;;
  let last_processed := last_processed_time w in
  last_dt <- match last_processed with
             | Some t => d <- lift (_convert_to_datetime (TDatetime t)) ;;;
                         ret (Some d)
             | None => ret None
             end ;;;
  query <- _build_conveyor_query ;;;
  try_except
    (result <- execute_query "equipment" query ;;;
     let rows := default [] result in
     filtered <- match last_dt with
                 | Some last_dt =>
                     filter_M
                       (λ row, t <- lift (_convert_to_datetime row) ;;;
                               ret (bool_decide (dt_le last_dt t)))
                       rows
                 | None => ret rows
                 end ;;;
     logger INFO (FoundRequests (length rows) (length filtered)) ;;;
     ret filtered)
    (λ e, logger ERROR ErrorGettingRequests ;;; ret []).

(** [sub in s] on strings. *)
Definition contains (sub s : string) : bool :=
  bool_decide (is_Some (String.index 0 sub s)).

(** The cycle query: rows of one conveyor timestamp, optionally with
    [equipment_timestamp <= next_conveyor_time], newest first, as
    [(process_status, process_complete_status)]. *)
Definition in_cycle (conveyor_time : datetime)
    (next_conveyor_time : option datetime) (r : combined_row) : Prop :=
  of_DATETIME <$> cd_conveyor_timestamp r = Some conveyor_time
  ∧ match next_conveyor_time with
    | Some next => dt_le (of_DATETIME (cd_equipment_timestamp r)) next
    | None => True
    end.

Global Instance in_cycle_dec c n r : Decision (in_cycle c n r).
Proof. unfold in_cycle. destruct n; apply _. Defined.

Definition newest_first (a b : combined_row) : Prop :=
  Z.le (cd_equipment_timestamp b) (cd_equipment_timestamp a).

Global Instance newest_first_dec a b : Decision (newest_first a b).
Proof. unfold newest_first. apply _. Defined.

Definition select_cycle (conveyor_time : datetime)
    (next_conveyor_time : option datetime) (db : Database)
    : list (string * string) :=
  (λ r, (cd_process_status r, cd_process_complete_status r))
  <$> merge_sort newest_first
        (filter (in_cycle conveyor_time next_conveyor_time)
                (tb_combined_data db)).

(** The loop of [_verify_complete_cycle] over the fetched rows. *)
Fixpoint cycle_rows_complete (rows : list (string * string)) : bool :=
  match rows with
  | [] => false
  | (status, complete_status) :: rest =>
      if contains "complete_phase_2" status
         || contains "process_complete" status
      then true
      else if negb (bool_decide (complete_status = ""))
              && (contains "complete_phase_2" complete_status
                  || contains "process_complete" complete_status)
      then true
      else cycle_rows_complete rest
  end.

Definition _verify_complete_cycle (conveyor_time : datetime)
    (next_conveyor_time : option datetime) : M bool :=
  fetched <-
    try_except
      (result <- execute_query "analytics"
                   (select_cycle conveyor_time next_conveyor_time) ;;;
       ret (Some (default [] result)))
      (λ e, logger ERROR (ErrorVerifyingCycle conveyor_time) ;;; ret None) ;;;
  match fetched with
  | None => ret false
  | Some rows => ret (cycle_rows_complete rows)
  end.

(** [current_index < len(all_requests) - 1] *)
Definition has_next {A} (all_requests : list A) (current_index : nat)
    : bool :=
  bool_decide (Z.of_nat current_index < Z.of_nat (length all_requests) - 1).

Definition _calculate_end_time (all_requests : list time_value)
    (current_index : nat) (conveyor_time : datetime) : M datetime :=
  if has_next all_requests current_index then
    next <- list_get all_requests (current_index + 1) ;;;
    next_conveyor_time <- lift (_convert_to_datetime next) ;;;
    ret next_conveyor_time
  else ret (add_minutes conveyor_time 10).

Definition _get_next_conveyor_time (all_requests : list time_value)
    (current_index : nat) : M (option datetime) :=
  if has_next all_requests current_index then
    next <- list_get all_requests (current_index + 1) ;;;
    t <- lift (_convert_to_datetime next) ;;;
    ret (Some t)
  else ret None.

(** The code query: rows with [scanner_timestamp > conveyor_time] and
    [<= search_end_time], ascending, [LIMIT 1]. *)
Definition select_code (conveyor_time search_end_time : datetime)
    (db : Database) : list code_tuple :=
  (λ r, (connector_time (scanner_timestamp r), scan_product_code r,
         scan_operator_id r, scan_work_order r))
  <$> take 1
        (merge_sort (λ a b, dt_le (scanner_timestamp a) (scanner_timestamp b))
           (filter (λ r, dt_lt conveyor_time (scanner_timestamp r)
                         ∧ dt_le (scanner_timestamp r) search_end_time)
                   (tb_product_scanner db))).

Definition _search_corresponding_code (conveyor_time : datetime)
    (next_conveyor_time : option datetime) : M (option code_tuple) :=
  let search_end_time :=
    match next_conveyor_time with
    | Some next => next
    | None => add_minutes conveyor_time 10
    end in
  result <- execute_query "scanner"
              (select_code conveyor_time search_end_time) ;;;
  match result with
  | Some (code :: _) =>
      logger INFO (CodeFound conveyor_time) ;;;
      ret (Some code)
  | _ => ret None
  end.

Definition _save_combined_data (conveyor_time : datetime)
    (code_data : code_tuple)
    (equipment_data : gmap string (list (pyval * time_value))) : M bool :=
  let combined_data :=
    {| conveyor_time := conveyor_time;
       code_data := code_data;
       equipment_data := equipment_data |} in
  saved <- handler_save_combined_data_centered_conveyor combined_data ;;;
  if (saved : bool) then
    logger INFO (CombinedDataSaved conveyor_time) ;;;
    ret true
  else ret false.

(** The three INFO lines of [_log_processing_info], after the count
    [len(equipment_data['v24_records'])] they need. *)
Definition _log_processing_info (conveyor_time : datetime)
    (code_data : code_tuple)
    (equipment_data : gmap string (list (pyval * time_value))) : M unit :=
  v24_records <- dict_get equipment_data "v24_records" ;;;
  let v24_count := length v24_records in
  logger INFO (ProcessingInfo conveyor_time v24_count).

Definition _process_individual_conveyor_request
    (conveyor_request : time_value) (all_requests : list time_value)
    (index : nat) : M unit :=
  conveyor_time <- lift (_convert_to_datetime conveyor_request) ;;;
  (* verify the previous cycle if this is not the first request *)
  (if bool_decide (0 < index)%nat then
     prev <- list_get all_requests (index - 1) ;;;
     prev_conveyor_time <- lift (_convert_to_datetime prev) ;;;
     current_conveyor_time <- lift (_convert_to_datetime conveyor_request) ;;;
     complete <- _verify_complete_cycle prev_conveyor_time
                   (Some current_conveyor_time) ;;;
     if (complete : bool) then ret tt
     else logger WARNING
            (PreviousCycleNotComplete prev_conveyor_time
               current_conveyor_time)
   else ret tt) ;;;
  end_time <- _calculate_end_time all_requests index conveyor_time ;;;
  next_conveyor_time <- _get_next_conveyor_time all_requests index ;;;
  code_data <- _search_corresponding_code conveyor_time next_conveyor_time ;;;
  let time_str := strftime_seconds conveyor_time in
  match code_data with
  | None =>
      w <- get_world ;;;
      if bool_decide (time_str ∈ requests_without_code w) then ret tt
      else
        logger WARNING (NoCodeFound conveyor_time) ;;;
        logger WARNING (SkippingRequest conveyor_time) ;;;
        modify (λ w, set_requests_without_code
                       (requests_without_code w ∪ {[ time_str ]}) w)
  | Some code_data =>
      w <- get_world ;;;
      (if bool_decide (time_str ∈ requests_without_code w) then
         modify (λ w, set_requests_without_code
                        (requests_without_code w ∖ {[ time_str ]}) w)
       else ret tt) ;;;
      equipment_data <-
        handler_get_equipment_data_by_time_range conveyor_time end_time ;;;
      _log_processing_info conveyor_time code_data equipment_data ;;;
      v24_records <- dict_get equipment_data "v24_records" ;;;
      saved <- match v24_records with
               | [] => ret true
               | _ =>
                   saved <- _save_combined_data conveyor_time code_data
                              equipment_data ;;;
                   (if (saved : bool) then ret tt
                    else logger ERROR (FailedSaving conveyor_time)) ;;;
                   ret saved
               end ;;;
      if (saved : bool) then
        update_last_processed_time (Some (TDatetime conveyor_time)) ;;;
        ret tt
      else ret tt
  end.

Definition process_new_conveyor_requests
    (conveyor_requests : list time_value) : M unit :=
  match conveyor_requests with
  | [] => logger INFO NoNewRequests
  | _ =>
      logger INFO (ProcessingRequests (length conveyor_requests)) ;;;
      for_each
        (λ '(index, conveyor_request),
           _process_individual_conveyor_request conveyor_request
             conveyor_requests index)
        (enumerate conveyor_requests)
  end.

(** [ProcessingSystem.process_conveyor_requests] of main.py, over the data
    processor built on this handler: an exception is logged and raised
    again. *)
Definition process_conveyor_requests : M unit :=
  try_except
    (new_conveyor_requests <- get_new_conveyor_requests ;;;
     match new_conveyor_requests with
     | [] => ret tt
        | _ => process_new_conveyor_requests new_conveyor_requests
     end)
    (λ e, logger ERROR ErrorProcessingRequests ;;; raise e).

End DataProcessor.

(* =================================================================== *)
(** ** main.py *)
(* =================================================================== *)

(** [StateManager.__init__]: the cursor is read once, outside any
    [try]. *)
Definition StateManager__init__ : M unit :=
  t <- get_last_processed_time ;;;
  modify (set_last_processed_time t) ;;;
  logger INFO (LastProcessedTime t).

(** [ProcessingSystem.__init__], as far as the world is concerned: the
    other constructors only store their arguments. *)
Definition ProcessingSystem__init__ : M unit := StateManager__init__.

(** [get_processing_statistics]: two aggregate queries whose rows are only
    logged. *)
Definition get_processing_statistics : M unit :=
  execute_query_one "Combined" (λ _, Some tt) ;;;
  execute_query_one "Combined" (λ _, Some tt) ;;;
  ret tt.

Definition show_initial_statistics : M unit :=
  try_except get_processing_statistics (λ e, ret tt).

Definition initialize_system_state : M unit :=
  w <- get_world ;;;
  match last_processed_time w with
  | None => initialize_from_existing_data ;;; ret tt
  | Some _ => ret tt
  end.

Definition initialize_system : M bool :=
  try_except
        (show_initial_statistics ;;; initialize_system_state ;;; ret true)
    (λ e, logger ERROR ErrorInInitialization ;;; ret false).

(** [execute_processing_cycle], with the data processor wired to the
    equipment data handler as in [ProcessingSystem.__init__], and without
    the analytics and the wait between cycles, which touch no table,
    attribute or set of this model. *)
Definition execute_processing_cycle : M bool :=
  try_except
    (process_conveyor_requests
       get_equipment_data_by_time_range
            save_combined_data_centered_conveyor ;;;
     ret true)
    (λ e, logger ERROR ErrorInCycle ;;; ret false).

(** [run], stopped after [cycles] cycles. *)
Fixpoint run_cycles (cycles : nat) : M unit :=
  match cycles with
  | O => ret tt
  | S n => execute_processing_cycle ;;; run_cycles n
  end.

Definition run (cycles : nat) : M bool :=
  initialized <- initialize_system ;;;
    if (initialized : bool) then run_cycles cycles ;;; ret true
  else logger ERROR InitializationFailed ;;; ret false.

(** [main]: [system = ProcessingSystem()] and then [system.run()]. *)
Definition main (cycles : nat) : M bool :=
  ProcessingSystem__init__ ;;;
  run cycles.

(* =================================================================== *)
(** ** Notions over the functions above *)
(* =================================================================== *)

(** A combined record whose two status columns are what the decoders give
    for its [status_field], as the writer fills them. *)
Definition decoded_row (r : combined_row) : Prop :=
  cd_process_status r
  = process_decoder.decode_status_current int_of_str (cd_status_field r)
  ∧ cd_process_complete_status r
    = process_decoder.decode_status_complete int_of_str (cd_status_field r).

(** A row of [tb_equipment_records] as the equipment query returns it. *)
Definition equipment_record (r : equipment_row) : pyval * time_value :=
  (status_field r, connector_time (equipment_timestamp r)).

(** A row of [tb_product_scanner] as the code query returns it. *)
Definition code_record (r : scanner_row) : code_tuple :=
  (connector_time (scanner_timestamp r), scan_product_code r,
   scan_operator_id r, scan_work_order r).

(* =================================================================== *)
(** ** Properties of the query executor and of the record writer *)
(* =================================================================== *)

(** [connect] for a configured type, as those of credentials.py are. *)
Lemma connect_configured (db_type : string) :
  configured db_type = true → connect db_type = next_outcome.
Proof. unfold connect. by intros ->. Qed.

Lemma connect_cases (db_type : string) (w : World) :
  connect db_type w =
    if configured db_type
    then (Ok (default true (head (outcomes w))),
          set_outcomes (tail (outcomes w)) w)
    else (Raise ValueError, w).
Proof.
  unfold connect, next_outcome. destruct (configured db_type); [|done].
  destruct w as [db o l m s]. by destruct o.
Qed.

Lemma execute_many_nil {P} (db_type : string)
    (statement : P → Database → option Database) (w : World) :
  execute_many db_type statement [] w = (Ok true, w).
Proof. reflexivity. Qed.

(** A row whose key is present stays present when rows are appended. *)
Lemma key_present_insert (p q : insert_params) (db db' : Database)
    (row : combined_row) :
  row_of_params p = Some row →
  key_present (unique_key row) (tb_combined_data db) = true →
  insert_ignore q db = Some db' →
  key_present (unique_key row) (tb_combined_data db') = true.
Proof.
  intros _ Hin Hq. unfold insert_ignore in Hq.
  destruct (row_of_params q) as [rq|]; [|done].
  injection Hq as <-. cbn.
  destruct (key_present (unique_key rq) (tb_combined_data db)); [done|].
  unfold key_present in *. apply bool_decide_eq_true in Hin.
  apply bool_decide_eq_true. rewrite fmap_app. apply elem_of_app. by left.
Qed.

(** After its own insertion the key of a row is present. *)
Lemma key_present_own (p : insert_params) (db db' : Database)
    (row : combined_row) :
  row_of_params p = Some row →
  insert_ignore p db = Some db' →
  key_present (unique_key row) (tb_combined_data db') = true.
Proof.
  intros Hrow Hp. unfold insert_ignore in Hp. rewrite Hrow in Hp.
  injection Hp as <-. cbn.
  destruct (key_present (unique_key row) (tb_combined_data db)) eqn:E; [done|].
  unfold key_present. apply bool_decide_eq_true. rewrite fmap_app.
  apply elem_of_app. right. apply list_elem_of_singleton. done.
Qed.

(** Inserting a row whose key is present changes nothing. *)
Lemma insert_ignore_present (p : insert_params) (db : Database)
    (row : combined_row) :
  row_of_params p = Some row →
  key_present (unique_key row) (tb_combined_data db) = true →
  insert_ignore p db = Some db.
Proof.
  intros Hrow Hin. unfold insert_ignore. rewrite Hrow, Hin. by destruct db.
Qed.

(** A batch that went through leaves the key of each of its rows present. *)
Lemma executemany_keys_present (params : list insert_params) :
  ∀ db db', executemany insert_ignore params db = Some db' →
  Forall (λ p, ∃ row, row_of_params p = Some row
                      ∧ key_present (unique_key row) (tb_combined_data db') = true)
         params.
Proof.
  induction params as [|p rest IH]; intros db db' Hrun; [constructor|].
  cbn in Hrun. destruct (insert_ignore p db) as [db1|] eqn:Hp; [|done].
  constructor; [|by eapply IH].
  assert (∃ row, row_of_params p = Some row) as [row Hrow].
  { unfold insert_ignore in Hp. destruct (row_of_params p); [eauto|done]. }
  exists row. split; [done|].
  pose proof (key_present_own _ _ _ _ Hrow Hp) as Hown.
  clear Hp IH. revert db1 Hrun Hown.
  induction rest as [|q rest IH]; intros db1 Hrun Hown; cbn in Hrun.
  - by injection Hrun as <-.
  - destruct (insert_ignore q db1) as [db2|] eqn:Hq; [|done].
    eapply IH; [done|]. by eapply key_present_insert.
Qed.

(** A batch whose keys are all present is skipped row by row. *)
Lemma executemany_all_present (params : list insert_params) (db : Database) :
  Forall (λ p, ∃ row, row_of_params p = Some row
                      ∧ key_present (unique_key row) (tb_combined_data db) = true)
         params →
  executemany insert_ignore params db = Some db.
Proof.
  induction 1 as [|p rest (row & Hrow & Hin) _ IH]; [done|].
  cbn. by rewrite (insert_ignore_present _ _ _ Hrow Hin).
Qed.

(** The same batch a second time changes nothing and does not fail. *)
Lemma executemany_twice (params : list insert_params) (db db' : Database) :
  executemany insert_ignore params db = Some db' →
  executemany insert_ignore params db' = Some db'.
Proof.
  intros Hrun. apply executemany_all_present.
  by eapply executemany_keys_present.
Qed.

(** [execute_many] on a batch, by the outcome of its connection and of the
    statements. *)
Lemma execute_many_cases {P} (db_type : string)
    (statement : P → Database → option Database) (params : list P) (w : World) :
  params ≠ [] →
  let w1 := set_outcomes (tail (outcomes w)) w in
  execute_many db_type statement params w =
    if configured db_type then
      if default true (head (outcomes w)) then
        match executemany statement params (database w) with
        | Some db' => (Ok true, set_database db' w1)
        | None => (Ok false, add_log (ERROR, ExecutorError db_type) w1)
        end
      else (Ok false, add_log (ERROR, ExecutorError db_type) w1)
    else (Raise ValueError, w).
Proof.
  intros Hne. destruct params as [|p rest]; [done|].
  unfold execute_many. unfold bind at 1. rewrite connect_cases.
  destruct (configured db_type); [|done].
  unfold bind, get_world, modify, logger, ret.
  destruct w as [db o l m s]. destruct o as [|[] o]; cbn -[executemany];
    try destruct (executemany _ _ _); reflexivity.
Qed.

(** The writer, by its cases. *)
Lemma save_combined_data_cases (combined_data : combined_data_dict) (w : World) :
  save_combined_data_centered_conveyor combined_data w =
    match equipment_data combined_data !! "status_records" with
    | None => (Raise (KeyError "status_records"), w)
    | Some [] => (Ok true, add_log (INFO, NoEquipmentRecordsToSave) w)
    | Some status_records =>
        let params := build_params (conveyor_time combined_data)
                        (code_data combined_data) status_records in
        let w1 := set_outcomes (tail (outcomes w)) w in
        let failed :=
          (Ok false,
           add_log (ERROR, ErrorSavingRecords (conveyor_time combined_data))
             (add_log (ERROR, ExecutorError "analytics") w1)) in
        if configured "analytics" then
          if default true (head (outcomes w)) then
            match executemany insert_ignore params (database w) with
            | Some db' =>
                (Ok true,
                 add_log (INFO, SavedRecords (length params)
                                  (conveyor_time combined_data))
                   (set_database db' w1))
            | None => failed
            end
          else failed
        else (Raise ValueError, w)
    end.
Proof.
  unfold save_combined_data_centered_conveyor, dict_get.
  destruct (equipment_data combined_data !! "status_records")
    as [[|record records]|]; [reflexivity| |reflexivity].
  unfold bind at 1. unfold ret at 1. cbn iota. unfold bind at 1.
  rewrite execute_many_cases.
  2: { unfold build_params. by destruct (code_data combined_data) as [[[??]?]?]. }
  cbn zeta. destruct (configured "analytics"); [|reflexivity].
  destruct (default true (head (outcomes w))); [|reflexivity].
  destruct (executemany _ _ _); reflexivity.
Qed.

(** C4. Running the combined-record writer a second time with the same
    batch, after a run that succeeded, leaves the database (hence the rows
    of the combined-record table and their number) as the first run left
    it; and when its connection opens the second run reports success: the
    rows whose key is already there are skipped, they are no error. *)
Theorem writer_twice_same_rows (w : World) (combined_data : combined_data_dict) :
  let run1 := save_combined_data_centered_conveyor combined_data w in
  let run2 := save_combined_data_centered_conveyor combined_data (world_of run1) in
  result_of run1 = Ok true →
  database (world_of run2) = database (world_of run1)
  ∧ length (tb_combined_data (database (world_of run2)))
    = length (tb_combined_data (database (world_of run1)))
  ∧ (next_up (world_of run1) → result_of run2 = Ok true).
Proof.
  cbn zeta. intros Hrun1.
  assert (Hgoal :
    database (world_of (save_combined_data_centered_conveyor combined_data
       (world_of (save_combined_data_centered_conveyor combined_data w))))
    = database (world_of (save_combined_data_centered_conveyor combined_data w))
    ∧ (next_up (world_of (save_combined_data_centered_conveyor combined_data w)) →
       result_of (save_combined_data_centered_conveyor combined_data
         (world_of (save_combined_data_centered_conveyor combined_data w)))
       = Ok true)).
  2: { destruct Hgoal as [Hdb Hok]. rewrite Hdb. done. }
  revert Hrun1. rewrite (save_combined_data_cases combined_data w).
  destruct (equipment_data combined_data !! "status_records")
    as [[|record records]|] eqn:Hrecords; [| |done].
  - (* nothing to save *)
    intros _. cbn [world_of snd].
    rewrite save_combined_data_cases, Hrecords. done.
  - (* a batch *)
    cbn zeta.
    destruct (configured "analytics") eqn:Hconfigured; [|done].
    destruct (default true (head (outcomes w))); [|done].
    destruct (executemany insert_ignore _ (database w)) as [db'|] eqn:Hrun; [|done].
    intros _. cbn [world_of snd].
    rewrite save_combined_data_cases, Hrecords, Hconfigured. cbn zeta.
    cbn [database add_log set_database set_outcomes outcomes].
    rewrite (executemany_twice _ _ _ Hrun).
    unfold next_up. cbn [outcomes add_log set_database set_outcomes].
    destruct (tail (outcomes w)) as [|[] o]; cbn; [done|done|].
    split; [done|]. intros Hup. done.
Qed.

(** C10. With no status records in the equipment data the writer returns
    [True] and only logs; [execute_many] returns [True] for an empty
    parameter list and leaves the world, its pending connection outcomes
    included, as it was; and the caller's [_save_combined_data] reports
    success as well, so that nothing withholds the cursor update. *)
Theorem empty_batch_reports_success (w : World)
    (combined_data : combined_data_dict)
    (Hempty : equipment_data combined_data !! "status_records" = Some []) :
  save_combined_data_centered_conveyor combined_data w
  = (Ok true, add_log (INFO, NoEquipmentRecordsToSave) w)
  ∧ (∀ (P : Type) (db_type : string)
       (statement : P → Database → option Database) (w' : World),
       execute_many db_type statement [] w' = (Ok true, w'))
  ∧ (∀ t code,
       let r := _save_combined_data save_combined_data_centered_conveyor t code
                  (equipment_data combined_data) w in
       result_of r = Ok true ∧ database (world_of r) = database w).
Proof.
  split; [|split].
  - rewrite save_combined_data_cases, Hempty. done.
  - intros. apply execute_many_nil.
  - intros t code. unfold _save_combined_data, bind.
    rewrite save_combined_data_cases. cbn [equipment_data]. rewrite Hempty. done.
Qed.

(* =================================================================== *)
(** ** Properties of the cursor store *)
(* =================================================================== *)

Lemma persist_cases (t : time_value) (w : World) :
  persist_last_processed_time (Some t) w =
    if truthy t then
      if default true (head (outcomes w)) then
        match upsert_state t (database w) with
        | Some db' => (Ok true, set_database db' (after_call w))
        | None =>
            (Ok false, add_log (ERROR, ExecutorError "Combined") (after_call w))
        end
      else (Ok false, add_log (ERROR, ExecutorError "Combined") (after_call w))
    else (Ok false, w).
Proof.
  unfold persist_last_processed_time. destruct (truthy t); [|reflexivity].
  unfold execute_update. rewrite (connect_configured "Combined") by reflexivity.
  unfold bind, next_outcome, get_world, modify, logger, ret, after_call.
  destruct w as [db o l m s]. destruct o as [|[] o]; cbn;
    try destruct (upsert_state t db); reflexivity.
Qed.

(** The reading of a time value that [update_last_processed_time] keeps in
    memory. *)
Lemma update_cases (t : time_value) (w : World) :
  update_last_processed_time (Some t) w =
    match persist_last_processed_time (Some t) w with
    | (Ok true, w1) =>
        match match t with TStr s => parse_time s | TDatetime d => Ok d end with
        | Ok d =>
            (Ok true,
             add_log (INFO, TimeUpdated d)
               (set_last_processed_time (Some d) w1))
        | Raise e => (Raise e, w1)
        end
    | (Ok false, w1) => (Ok false, w1)
    | (Raise e, w1) => (Raise e, w1)
    end.
Proof.
  unfold update_last_processed_time. unfold bind at 1.
  destruct (persist_last_processed_time (Some t) w) as [[[]|e] w1]; [|done..].
  destruct t as [s|d]; [|reflexivity].
  unfold bind, lift. destruct (parse_time s); reflexivity.
Qed.

(** C3, as the code has it.  [update_last_processed_time] writes the row
    first and sets the attribute only after the write succeeded:
    - when it returns [False] neither copy of the cursor has changed;
    - when it returns [True] the row was written with the parameter of the
      new time and the attribute holds the new time, normalised;
    - when it raises (a text the row accepted and neither format parses)
      the row was written and the attribute is unchanged;
    - for a [datetime] the row holds its calendar second and the attribute
      the [datetime] itself, so the attribute is ahead of the row by the
      microseconds only: it is not ahead exactly when the microsecond
      field is [0] (the field is never negative in Python). *)
Theorem update_persists_then_sets_memory (new_time : option time_value)
    (w : World) :
  let r := update_last_processed_time new_time w in
  let w' := world_of r in
  (result_of r = Ok false → cursor_state w' = cursor_state w)
  ∧ (result_of r = Ok true →
       ∃ t d, new_time = Some t
         ∧ upsert_state t (database w) = Some (database w')
         ∧ match t with TStr s => parse_time s | TDatetime d' => Ok d' end = Ok d
         ∧ last_processed_time w' = Some d)
  ∧ (∀ e, result_of r = Raise e →
       last_processed_time w' = last_processed_time w
       ∧ ∃ t, new_time = Some t
           ∧ upsert_state t (database w) = Some (database w'))
  ∧ (∀ d, new_time = Some (TDatetime d) → result_of r = Ok true →
       durable_cursor w' = Some (dt_seconds d)
       ∧ last_processed_time w' = Some d
       ∧ (memory_not_ahead w' ↔ dt_microsecond d <= 0)).
Proof.
  cbn zeta. destruct new_time as [t|].
  2: { repeat split; try done; intros; done. }
  rewrite update_cases, persist_cases.
  destruct (truthy t) eqn:Htruthy.
  2: { repeat split; try done; intros; done. }
  destruct (default true (head (outcomes w))).
  2: { repeat split; try done; intros; done. }
  destruct (upsert_state t (database w)) as [db'|] eqn:Hupsert.
  2: { repeat split; try done; intros; done. }
  destruct t as [s|d].
  - destruct (parse_time s) as [d|e] eqn:Hparse.
    + split; [done|]. split; [|split; [done|done]].
      intros _. exists (TStr s), d. done.
    + split; [done|]. split; [done|]. split; [|done].
      intros e' _. split; [done|]. exists (TStr s). done.
  - split; [done|]. split; [|split; [done|]].
    + intros _. exists (TDatetime d), d. done.
    + intros d' [= <-] _. unfold upsert_state in Hupsert. injection Hupsert as <-.
      unfold durable_cursor, memory_not_ahead, durable_cursor. cbn.
      split; [done|]. split; [done|]. unfold strftime_seconds, dt_le, of_DATETIME.
      cbn. split.
      * intros (c & [= <-] & Hle). lia.
      * intros Hmicro. exists (dt_seconds d). split; [done|]. right. lia.
Qed.

(** *** Running computations step by step *)

Lemma bind_Ok {A B} (c : M A) (k : A → M B) (w w1 : World) (a : A) :
  c w = (Ok a, w1) → bind c k w = k a w1.
Proof. unfold bind. by intros ->. Qed.

Lemma bind_Raise {A B} (c : M A) (k : A → M B) (w w1 : World) (e : exn) :
  c w = (Raise e, w1) → bind c k w = (Raise e, w1).
Proof. unfold bind. by intros ->. Qed.

Lemma all_up_head (w : World) : all_up w → default true (head (outcomes w)) = true.
Proof. unfold all_up. destruct 1 as [|up o ->]; done. Qed.

Lemma all_up_after_call (w : World) : all_up w → all_up (after_call w).
Proof.
  unfold all_up, after_call. cbn. destruct 1; [constructor|done].
Qed.

Lemma next_up_head (w : World) : next_up w → default true (head (outcomes w)) = true.
Proof. unfold next_up. by destruct (outcomes w) as [|[] o]. Qed.

Lemma all_up_next_up (w : World) : all_up w → next_up w.
Proof. unfold all_up, next_up. by destruct 1 as [|up o ->]. Qed.

Lemma execute_query_one_any {R} (db_type : string)
    (query : Database → option R) (w : World) :
  execute_query_one db_type query w =
    if configured db_type then
      if default true (head (outcomes w))
      then (Ok (query (database w)), after_call w)
      else (Ok None, add_log (ERROR, ExecutorError db_type) (after_call w))
    else (Raise ValueError, w).
Proof.
  unfold execute_query_one. unfold bind at 1. rewrite connect_cases.
  destruct (configured db_type); [|done].
  unfold bind, get_world, logger, modify, ret, after_call.
  destruct w as [db o l m s]. by destruct o as [|[] o].
Qed.

Lemma execute_query_any {R} (db_type : string)
    (query : Database → list R) (w : World) :
  execute_query db_type query w =
    if configured db_type then
      if default true (head (outcomes w))
      then (Ok (Some (query (database w))), after_call w)
      else (Ok None, add_log (ERROR, ExecutorError db_type) (after_call w))
    else (Raise ValueError, w).
Proof.
  unfold execute_query. unfold bind at 1. rewrite connect_cases.
  destruct (configured db_type); [|done].
  unfold bind, get_world, logger, modify, ret, after_call.
  destruct w as [db o l m s]. by destruct o as [|[] o].
Qed.

(** The calls of the state manager: ['Combined'] is a type of
    credentials.py. *)
Lemma execute_query_one_cases {R} (query : Database → option R) (w : World) :
  execute_query_one "Combined" query w =
    if default true (head (outcomes w))
    then (Ok (query (database w)), after_call w)
    else (Ok None, add_log (ERROR, ExecutorError "Combined") (after_call w)).
Proof. by rewrite execute_query_one_any. Qed.

(** The calls of the poll and of the equipment handler: ['equipment'] is a
    type of credentials.py. *)
Lemma execute_query_cases {R} (query : Database → list R) (w : World) :
  execute_query "equipment" query w =
    if default true (head (outcomes w))
    then (Ok (Some (query (database w))), after_call w)
    else (Ok None, add_log (ERROR, ExecutorError "equipment") (after_call w)).
Proof. by rewrite execute_query_any. Qed.


(** The three getters read a cell that the connector renders faithfully. *)
Lemma read_max_cell (cell : option DATETIME) (w : World) :
  (∀ c w', read_time_cell (Some (Some (connector_time (of_DATETIME c)))) w'
           = (Ok (Some (of_DATETIME c)), w')) →
  read_time_cell (Some (connector_time ∘ of_DATETIME <$> cell)) w
  = (Ok (of_DATETIME <$> cell), w).
Proof. intros Hconn. destruct cell as [c|]; [apply Hconn|reflexivity]. Qed.

Lemma persist_datetime_up (d : datetime) (w : World) :
  all_up w →
  ∃ w1, persist_last_processed_time (Some (TDatetime d)) w = (Ok true, w1)
        ∧ durable_cursor w1 = Some (dt_seconds d)
        ∧ last_processed_time w1 = last_processed_time w
        ∧ tb_combined_data (database w1) = tb_combined_data (database w)
        ∧ log w1 = log w
        ∧ all_up w1.
Proof.
  intros Hup. rewrite persist_cases, (all_up_head _ Hup). cbn.
  eexists. split; [reflexivity|]. repeat split; try done.
  by apply all_up_after_call in Hup.
Qed.

(** The common tail of the three initialising branches: log, write the row,
    set the attribute, return. *)
Lemma log_persist_set_return (l : level) (m : message) (last : datetime)
    (w : World) :
  all_up w →
  ∃ w',
    (logger l m ;;;
     persist_last_processed_time (Some (TDatetime last)) ;;;
     modify (set_last_processed_time (Some last)) ;;;
     ret (Some last)) w = (Ok (Some last), w')
    ∧ durable_cursor w' = Some (dt_seconds last)
    ∧ last_processed_time w' = Some last
    ∧ (l, m) ∈ log w'.
Proof.
  intros Hup.
  destruct (persist_datetime_up last (add_log (l, m) w) Hup)
    as (w1 & Hpersist & Hdurable & _ & _ & Hlog & _).
  exists (set_last_processed_time (Some last) w1).
  split; [|split; [done|split; [done|]]].
  - unfold bind at 1. unfold logger at 1. unfold modify at 1.
    erewrite bind_Ok by exact Hpersist. reflexivity.
  - cbn. rewrite Hlog. cbn. apply elem_of_app. right.
    by apply list_elem_of_singleton.
Qed.

(** C8. With the database reachable and a connector that renders a stored
    second faithfully, [initialize_from_existing_data]
    - when the held cursor is after the maximum trigger-derived timestamp of
      the combined-record table: logs the inconsistency, writes that lower
      value into the row, sets it in memory and returns it;
    - whenever that maximum exists: writes it, sets it and returns it;
    - when it does not exist and a maximum code-derived timestamp does:
      writes, sets and returns that one;
    - when neither exists: returns [None] and leaves both copies of the
      cursor as they were (unset, when the cursor was unset). *)
Theorem initialize_from_existing_data_cases (w : World)
    (Hup : all_up w)
    (Hconn : ∀ c w',
       read_time_cell (Some (Some (connector_time (of_DATETIME c)))) w'
       = (Ok (Some (of_DATETIME c)), w')) :
  let r := initialize_from_existing_data w in
  let w' := world_of r in
  let max_trigger :=
    MAX (omap cd_conveyor_timestamp (tb_combined_data (database w))) in
  let max_code := MAX (cd_scanner_timestamp <$> tb_combined_data (database w)) in
  (∀ cur c, last_processed_time w = Some cur → max_trigger = Some c →
     dt_lt (of_DATETIME c) cur →
       result_of r = Ok (Some (of_DATETIME c))
       ∧ durable_cursor w' = Some c
       ∧ last_processed_time w' = Some (of_DATETIME c)
       ∧ (WARNING, InconsistentState (of_DATETIME c)) ∈ log w')
  ∧ (∀ c, max_trigger = Some c →
       result_of r = Ok (Some (of_DATETIME c))
       ∧ durable_cursor w' = Some c
       ∧ last_processed_time w' = Some (of_DATETIME c))
  ∧ (∀ k, max_trigger = None → max_code = Some k →
       result_of r = Ok (Some (of_DATETIME k))
       ∧ durable_cursor w' = Some k
       ∧ last_processed_time w' = Some (of_DATETIME k))
  ∧ (max_trigger = None → max_code = None →
       result_of r = Ok None
       ∧ cursor_state w' = cursor_state w
       ∧ (last_processed_time w = None → last_processed_time w' = None)).
Proof.
  cbn zeta.
  set (max_trigger := MAX (omap cd_conveyor_timestamp (tb_combined_data (database w)))).
  set (max_code := MAX (cd_scanner_timestamp <$> tb_combined_data (database w))).
  (* the first query *)
  assert (Hq1 : get_last_processed_time_from_conveyor_data w
                = (Ok (of_DATETIME <$> max_trigger), after_call w)).
  { unfold get_last_processed_time_from_conveyor_data.
    erewrite bind_Ok.
    2: { rewrite execute_query_one_cases, (all_up_head _ Hup). reflexivity. }
    unfold select_max_conveyor. by apply read_max_cell. }
  pose proof (all_up_after_call _ Hup) as Hup1.
  (* the same query again *)
  assert (Hq2 : get_last_processed_time_from_conveyor_data (after_call w)
                = (Ok (of_DATETIME <$> max_trigger), after_call (after_call w))).
  { unfold get_last_processed_time_from_conveyor_data.
    erewrite bind_Ok.
    2: { rewrite execute_query_one_cases, (all_up_head _ Hup1). reflexivity. }
    unfold select_max_conveyor. by apply read_max_cell. }
  pose proof (all_up_after_call _ Hup1) as Hup2.
  (* the code query *)
  assert (Hq3 : get_last_processed_time_from_code_data (after_call (after_call w))
                = (Ok (of_DATETIME <$> max_code),
                   after_call (after_call (after_call w)))).
  { unfold get_last_processed_time_from_code_data.
    erewrite bind_Ok.
    2: { rewrite execute_query_one_cases, (all_up_head _ Hup2). reflexivity. }
    unfold select_max_code. by apply read_max_cell. }
  pose proof (all_up_after_call _ Hup2) as Hup3.
  (* the statements after the first [if], from the world they start in *)
  assert (Hrest : ∀ r w',
    (match max_trigger with
     | Some c =>
         r = Ok (Some (of_DATETIME c))
         ∧ durable_cursor w' = Some c
         ∧ last_processed_time w' = Some (of_DATETIME c)
     | None =>
         match max_code with
         | Some k =>
             r = Ok (Some (of_DATETIME k))
             ∧ durable_cursor w' = Some k
             ∧ last_processed_time w' = Some (of_DATETIME k)
         | None => r = Ok None ∧ cursor_state w' = cursor_state w
         end
     end) →
    (∀ cur c, last_processed_time w = Some cur → max_trigger = Some c →
       dt_lt (of_DATETIME c) cur → False) →
    (∀ cur c, last_processed_time w = Some cur → max_trigger = Some c →
       dt_lt (of_DATETIME c) cur →
         r = Ok (Some (of_DATETIME c))
         ∧ durable_cursor w' = Some c
         ∧ last_processed_time w' = Some (of_DATETIME c)
         ∧ (WARNING, InconsistentState (of_DATETIME c)) ∈ log w')
    ∧ (∀ c, max_trigger = Some c →
         r = Ok (Some (of_DATETIME c))
         ∧ durable_cursor w' = Some c
         ∧ last_processed_time w' = Some (of_DATETIME c))
    ∧ (∀ k, max_trigger = None → max_code = Some k →
         r = Ok (Some (of_DATETIME k))
         ∧ durable_cursor w' = Some k
         ∧ last_processed_time w' = Some (of_DATETIME k))
    ∧ (max_trigger = None → max_code = None →
         r = Ok None
         ∧ cursor_state w' = cursor_state w
         ∧ (last_processed_time w = None → last_processed_time w' = None))).
  { intros r w' Hcases Hnoreset. split; [|split; [|split]].
    - intros cur c Hcur Hc Hlt. by destruct (Hnoreset cur c).
    - intros c Hc. by rewrite Hc in Hcases.
    - intros k Hc Hk. by rewrite Hc, Hk in Hcases.
    - intros Hc Hk. rewrite Hc, Hk in Hcases. destruct Hcases as [-> Hsame].
      split; [done|]. split; [done|]. intros Hnone.
      unfold cursor_state in Hsame. injection Hsame as _ ->. done. }
  assert (Hotherwise : ∃ r w',
    (last_conveyor_time <- get_last_processed_time_from_conveyor_data ;;;
     match last_conveyor_time with
     | Some last =>
         logger INFO (InitializingFromConveyor last) ;;;
         persist_last_processed_time (Some (TDatetime last)) ;;;
         modify (set_last_processed_time (Some last)) ;;;
         ret (Some last)
     | None =>
         last_code_time <- get_last_processed_time_from_code_data ;;;
         match last_code_time with
         | Some last =>
             logger INFO (InitializingFromCode last) ;;;
             persist_last_processed_time (Some (TDatetime last)) ;;;
             modify (set_last_processed_time (Some last)) ;;;
             ret (Some last)
         | None => logger INFO NoExistingData ;;; ret None
         end
     end) (after_call w) = (r, w')
    ∧ match max_trigger with
      | Some c =>
          r = Ok (Some (of_DATETIME c))
          ∧ durable_cursor w' = Some c
          ∧ last_processed_time w' = Some (of_DATETIME c)
      | None =>
          match max_code with
          | Some k =>
              r = Ok (Some (of_DATETIME k))
              ∧ durable_cursor w' = Some k
              ∧ last_processed_time w' = Some (of_DATETIME k)
          | None => r = Ok None ∧ cursor_state w' = cursor_state w
          end
      end).
  { erewrite bind_Ok by exact Hq2.
    destruct max_trigger as [c|]; cbn [fmap option_fmap option_map].
    - destruct (log_persist_set_return INFO
                  (InitializingFromConveyor (of_DATETIME c)) (of_DATETIME c)
                  _ Hup2) as (w' & Hrun & Hd & Hm & _).
      exists (Ok (Some (of_DATETIME c))), w'. done.
    - erewrite bind_Ok by exact Hq3.
      destruct max_code as [k|]; cbn [fmap option_fmap option_map].
      + destruct (log_persist_set_return INFO
                    (InitializingFromCode (of_DATETIME k)) (of_DATETIME k)
                    _ Hup3) as (w' & Hrun & Hd & Hm & _).
        exists (Ok (Some (of_DATETIME k))), w'. done.
      + eexists _, _. split; [reflexivity|]. done. }
  destruct Hotherwise as (r2 & w2 & Hrun2 & Hcases2).
  (* the whole function *)
  enough (Hmain : ∃ r w', initialize_from_existing_data w = (r, w')
    ∧ ((∀ cur c, last_processed_time w = Some cur → max_trigger = Some c →
          dt_lt (of_DATETIME c) cur →
            r = Ok (Some (of_DATETIME c))
            ∧ durable_cursor w' = Some c
            ∧ last_processed_time w' = Some (of_DATETIME c)
            ∧ (WARNING, InconsistentState (of_DATETIME c)) ∈ log w')
       ∧ (∀ c, max_trigger = Some c →
            r = Ok (Some (of_DATETIME c))
            ∧ durable_cursor w' = Some c
            ∧ last_processed_time w' = Some (of_DATETIME c))
       ∧ (∀ k, max_trigger = None → max_code = Some k →
            r = Ok (Some (of_DATETIME k))
            ∧ durable_cursor w' = Some k
            ∧ last_processed_time w' = Some (of_DATETIME k))
       ∧ (max_trigger = None → max_code = None →
            r = Ok None
            ∧ cursor_state w' = cursor_state w
            ∧ (last_processed_time w = None → last_processed_time w' = None)))).
  { destruct Hmain as (r & w' & -> & Hmain). exact Hmain. }
  unfold initialize_from_existing_data.
  erewrite bind_Ok by exact Hq1.
  unfold bind at 1. unfold get_world at 1.
  change (last_processed_time (after_call w)) with (last_processed_time w).
  destruct (last_processed_time w) as [cur|] eqn:Hcur.
  2: { exists r2, w2. split; [exact Hrun2|]. apply Hrest; [done|]. intros; done. }
  destruct max_trigger as [c|] eqn:Hc; cbn [fmap option_fmap option_map].
  2: { exists r2, w2. split; [exact Hrun2|]. apply Hrest; [done|]. intros; done. }
  destruct (bool_decide (dt_lt (of_DATETIME c) cur)) eqn:Hlt.
  2: { exists r2, w2. split; [exact Hrun2|]. apply Hrest; [done|].
       intros cur' c' [= <-] [= <-] Hlt'.
       by rewrite bool_decide_eq_true_2 in Hlt. }
  destruct (log_persist_set_return WARNING
              (InconsistentState (of_DATETIME c)) (of_DATETIME c)
              _ Hup1) as (w' & Hrun & Hd & Hm & Hlog).
  exists (Ok (Some (of_DATETIME c))), w'. split; [exact Hrun|].
  split; [|split; [|split]]; try done.
  - intros cur' c' _ [= <-] _. done.
  - intros c' [= <-]. done.
Qed.

(* =================================================================== *)
(** ** What a computation may do to the cursor *)
(* =================================================================== *)

Lemma moved_refl (T : datetime → Prop) (w : World) : moved T w w.
Proof. by left. Qed.

Lemma moved_trans (T : datetime → Prop) (w1 w2 w3 : World) :
  moved T w1 w2 → moved T w2 w3 → moved T w1 w3.
Proof.
  intros [H12|H12] [H23|H23].
  - left. congruence.
  - by right.
  - right. destruct H12 as (t & Ht & H12). exists t. split; [done|]. congruence.
  - by right.
Qed.

Lemma moved_mono (T T' : datetime → Prop) (w w' : World) :
  (∀ t, T t → T' t) → moved T w w' → moved T' w w'.
Proof. intros HT [H|(t & Ht & H)]; [by left|right; eauto]. Qed.

Lemma advances_mono {A} (T T' : datetime → Prop) (c : M A) :
  (∀ t, T t → T' t) → advances T c → advances T' c.
Proof. intros HT Hc w. eapply moved_mono; [done|apply Hc]. Qed.

Lemma keeps_cursor_advances {A} (T : datetime → Prop) (c : M A) :
  keeps_cursor c → advances T c.
Proof. apply advances_mono. done. Qed.

Lemma advances_ret {A} (T : datetime → Prop) (a : A) : advances T (ret a).
Proof. intros w. apply moved_refl. Qed.

Lemma advances_raise {A} (T : datetime → Prop) (e : exn) :
  advances T (raise (A:=A) e).
Proof. intros w. apply moved_refl. Qed.

Lemma advances_lift {A} (T : datetime → Prop) (r : outcome A) :
  advances T (lift r).
Proof. intros w. apply moved_refl. Qed.

Lemma advances_get_world (T : datetime → Prop) : advances T get_world.
Proof. intros w. apply moved_refl. Qed.

Lemma advances_bind {A B} (T : datetime → Prop) (c : M A) (k : A → M B) :
  advances T c → (∀ a, advances T (k a)) → advances T (bind c k).
Proof.
  intros Hc Hk w. specialize (Hc w). unfold bind.
  destruct (c w) as [[a|e] w1]; [|done].
  eapply moved_trans; [exact Hc|apply Hk].
Qed.

Lemma advances_try_except {A} (T : datetime → Prop) (c : M A) (h : exn → M A) :
  advances T c → (∀ e, advances T (h e)) → advances T (try_except c h).
Proof.
  intros Hc Hh w. specialize (Hc w). unfold try_except.
  destruct (c w) as [[a|e] w1]; [done|].
  eapply moved_trans; [exact Hc|apply Hh].
Qed.

Lemma advances_logger (T : datetime → Prop) (l : level) (m : message) :
  advances T (logger l m).
Proof. intros w. by left. Qed.

Lemma advances_requests_without_code (T : datetime → Prop)
    (f : World → gset DATETIME) :
  advances T (modify (λ w, set_requests_without_code (f w) w)).
Proof. intros w. by left. Qed.

Lemma advances_next_outcome (T : datetime → Prop) : advances T next_outcome.
Proof. intros w. unfold next_outcome. destruct (outcomes w); by left. Qed.

Lemma advances_execute_query {R} (T : datetime → Prop) (db_type : string)
    (query : Database → list R) :
  advances T (execute_query db_type query).
Proof.
  intros w. rewrite execute_query_any.
  destruct (configured db_type); [|by left].
  destruct (default true (head (outcomes w))); by left.
Qed.

Lemma advances_list_get {A} (T : datetime → Prop) (l : list A) (i : nat) :
  advances T (list_get l i).
Proof. intros w. unfold list_get. destruct (l !! i); by left. Qed.

Lemma advances_dict_get {A} (T : datetime → Prop) (d : gmap string A)
    (key : string) :
  advances T (dict_get d key).
Proof. intros w. unfold dict_get. destruct (d !! key); by left. Qed.

Lemma advances_for_each {A} (T : datetime → Prop) (body : A → M unit)
    (l : list A) :
  (∀ x, x ∈ l → advances T (body x)) → advances T (for_each body l).
Proof.
  induction l as [|x l IH]; intros Hbody; cbn [for_each].
  - apply advances_ret.
  - apply advances_bind.
    + apply Hbody. by left.
    + intros _. apply IH. intros y Hy. apply Hbody. by right.
Qed.

Lemma advances_filter_M {A} (T : datetime → Prop) (test : A → M bool)
    (l : list A) :
  (∀ x, advances T (test x)) → advances T (filter_M test l).
Proof.
  intros Htest. induction l as [|x l IH]; cbn [filter_M].
  - apply advances_ret.
  - apply advances_bind; [apply Htest|]. intros keep.
    apply advances_bind; [apply IH|]. intros kept. apply advances_ret.
Qed.

(** The update of the driver moves both copies to the trigger time, or
    leaves both alone. *)
Lemma advances_update (t : datetime) :
  advances (eq t) (update_last_processed_time (Some (TDatetime t))).
Proof.
  intros w. rewrite update_cases, persist_cases. cbn [truthy].
  destruct (default true (head (outcomes w))); [|by left].
  cbn. right. exists t. done.
Qed.

Create HintDb frame discriminated.

Hint Resolve advances_ret advances_raise advances_lift advances_get_world
  advances_logger advances_requests_without_code advances_next_outcome
  advances_execute_query advances_list_get advances_dict_get : frame.

(** Splits a computation along its binds, branches and handlers, and closes
    the steps that the hints know. *)
Ltac frame_steps :=
  repeat first
    [ progress (auto with frame nocore)
    | apply advances_bind; [|intros ?]
    | apply advances_try_except; [|intros ?]
    | match goal with
      | |- advances _ (match ?x with _ => _ end) => destruct x
      | |- advances _ (let _ := _ in _) => cbv zeta
      end ].

Lemma advances_verify_complete_cycle (T : datetime → Prop)
    (conveyor_time : datetime) (next_conveyor_time : option datetime) :
  advances T (_verify_complete_cycle conveyor_time next_conveyor_time).
Proof. unfold _verify_complete_cycle. frame_steps. Qed.

Lemma advances_search_corresponding_code (T : datetime → Prop)
    (conveyor_time : datetime) (next_conveyor_time : option datetime) :
  advances T (_search_corresponding_code conveyor_time next_conveyor_time).
Proof. unfold _search_corresponding_code. frame_steps. Qed.

Lemma advances_calculate_end_time (T : datetime → Prop)
    (all_requests : list time_value) (index : nat) (conveyor_time : datetime) :
  advances T (_calculate_end_time all_requests index conveyor_time).
Proof. unfold _calculate_end_time. frame_steps. Qed.

Lemma advances_get_next_conveyor_time (T : datetime → Prop)
    (all_requests : list time_value) (index : nat) :
  advances T (_get_next_conveyor_time all_requests index).
Proof. unfold _get_next_conveyor_time. frame_steps. Qed.

Hint Resolve advances_verify_complete_cycle advances_search_corresponding_code
  advances_calculate_end_time advances_get_next_conveyor_time : frame.

Lemma advances_bind_lift {A B} (T : datetime → Prop) (r : outcome A)
    (k : A → M B) :
  (∀ a, r = Ok a → advances T (k a)) → advances T (bind (lift r) k).
Proof.
  intros Hk w. unfold bind, lift. destruct r as [a|e]; [|apply moved_refl].
  by apply Hk.
Qed.

(** One trigger event: both copies of the cursor stay, or both move to the
    time of this event.  The handler is any object whose two methods leave
    the cursor alone. *)
Lemma advances_process_individual
    (handler_get : datetime → datetime → M (gmap string (list (pyval * time_value))))
    (handler_save : combined_data_dict → M bool)
    (Hget : ∀ start_time end_time, keeps_cursor (handler_get start_time end_time))
    (Hsave : ∀ combined_data, keeps_cursor (handler_save combined_data))
    (conveyor_request : time_value) (all_requests : list time_value)
    (index : nat) :
  advances (λ t, _convert_to_datetime conveyor_request = Ok t)
    (_process_individual_conveyor_request handler_get handler_save
       conveyor_request all_requests index).
Proof.
  unfold _process_individual_conveyor_request.
  apply advances_bind_lift. intros conveyor_time Hconv.
  assert (Hupdate : advances (λ t, _convert_to_datetime conveyor_request = Ok t)
            (update_last_processed_time (Some (TDatetime conveyor_time)))).
  { eapply advances_mono; [|apply advances_update]. by intros t <-. }
  assert (Hget' := λ a b, keeps_cursor_advances
            (λ t, _convert_to_datetime conveyor_request = Ok t) _ (Hget a b)).
  assert (Hsave' := λ cd, keeps_cursor_advances
            (λ t, _convert_to_datetime conveyor_request = Ok t) _ (Hsave cd)).
  unfold _log_processing_info, _save_combined_data.
  frame_steps.
Qed.

(* =================================================================== *)
(** ** The trigger events of a poll cycle *)
(* =================================================================== *)

Lemma dt_le_trans : Transitive dt_le.
Proof. intros a b c. unfold dt_le. lia. Qed.

Lemma dt_le_total : Total dt_le.
Proof. intros a b. unfold dt_le. lia. Qed.

Lemma dt_le_seconds (a b : datetime) : dt_le a b → dt_seconds a <= dt_seconds b.
Proof. unfold dt_le. lia. Qed.

(** The comprehension that filters the fetched rows by the cursor: it
    leaves the world alone, and what it keeps, in order, are rows that
    convert to a time not before the cursor. *)
Lemma filter_by_cursor (last_dt : datetime) (ds : list datetime) (w : World) :
  StronglySorted dt_le ds →
  ∃ r,
    filter_M (λ row, t <- lift (_convert_to_datetime row) ;;;
                     ret (bool_decide (dt_le last_dt t)))
             (connector_time <$> ds) w = (r, w)
    ∧ ∀ kept, r = Ok kept →
        ∃ ds', kept = connector_time <$> ds'
          ∧ StronglySorted dt_le ds'
          ∧ (∀ d, d ∈ ds' → d ∈ ds)
          ∧ (∀ x, x ∈ kept →
               ∃ t, _convert_to_datetime x = Ok t ∧ dt_le last_dt t).
Proof.
  induction 1 as [|d ds Hsorted IH Hd]; cbn [fmap list_fmap filter_M].
  - exists (Ok []). split; [done|]. intros kept [= <-]. exists [].
    split; [done|]. split; [constructor|]. split; [done|].
    intros x Hx. by apply elem_of_nil in Hx.
  - destruct IH as (r & Hrun & Hkept).
    unfold bind at 1. unfold bind at 1. unfold lift at 1.
    destruct (_convert_to_datetime (connector_time d)) as [t|e] eqn:Hconv.
    2: { exists (Raise e). split; [done|]. intros kept [=]. }
    unfold ret at 1. unfold bind at 1.
    change (list_fmap datetime time_value connector_time ds)
      with (connector_time <$> ds).
    rewrite Hrun. destruct r as [kept0|e].
    2: { exists (Raise e). split; [done|]. intros kept [=]. }
    destruct (Hkept kept0 eq_refl) as (ds' & -> & Hsorted' & Hsub & Hbound).
    exists (Ok (if bool_decide (dt_le last_dt t)
                then connector_time d :: (connector_time <$> ds')
                else connector_time <$> ds')).
    split; [done|]. intros kept [= <-].
    destruct (bool_decide (dt_le last_dt t)) eqn:Hle.
    + exists (d :: ds'). split; [done|]. split; [|split].
      * constructor; [done|]. apply Forall_forall. intros d' Hd'.
        rewrite Forall_forall in Hd. apply Hd, Hsub, Hd'.
      * intros d' [->|Hd']%elem_of_cons; [by left|right; by apply Hsub].
      * intros x [->|Hx]%elem_of_cons; [|by apply Hbound].
        exists t. split; [done|]. by apply bool_decide_eq_true in Hle.
    + exists ds'. split; [done|]. split; [done|]. split; [|done].
      intros d' Hd'. right. by apply Hsub.
Qed.

(** The rows of either trigger query: an ascending list of stored trigger
    times, as the connector renders them. *)
Lemma conveyor_query_sorted (P : datetime → Prop) `{∀ t, Decision (P t)}
    (db : Database) :
  StronglySorted dt_le (merge_sort dt_le (filter P (tb_conveyor_requests db)))
  ∧ ∀ d, d ∈ merge_sort dt_le (filter P (tb_conveyor_requests db)) →
         d ∈ tb_conveyor_requests db.
Proof.
  split.
  { apply (StronglySorted_merge_sort dt_le (Transitive0:=dt_le_trans)
             (Total0:=dt_le_total)). }
  intros d Hd. rewrite merge_sort_Permutation in Hd.
  by apply list_elem_of_filter in Hd as [_ Hd].
Qed.

(** What [get_new_conveyor_requests] returns and leaves behind. *)
Lemma get_new_conveyor_requests_spec (w : World) :
  ∃ r w1,
    get_new_conveyor_requests w = (r, w1)
    ∧ cursor_state w1 = cursor_state w
    ∧ ∀ reqs, r = Ok reqs →
        ∃ ds, reqs = connector_time <$> ds
          ∧ StronglySorted dt_le ds
          ∧ (∀ d, d ∈ ds → d ∈ tb_conveyor_requests (database w))
          ∧ (∀ last x, last_processed_time w = Some last → x ∈ reqs →
               ∃ t, _convert_to_datetime x = Ok t ∧ dt_le last t).
Proof.
  assert (Hquery : ∃ q l,
    _build_conveyor_query w = (Ok q, add_log l w)
    ∧ ∀ db, ∃ ds, q db = connector_time <$> ds
        ∧ StronglySorted dt_le ds
        ∧ (∀ d, d ∈ ds → d ∈ tb_conveyor_requests db)).
  { unfold _build_conveyor_query, bind, get_world.
    destruct (last_processed_time w) as [last|]; cbn.
    - eexists _, _. split; [reflexivity|]. intros db. eexists.
      split; [reflexivity|]. apply conveyor_query_sorted.
    - eexists _, _. split; [reflexivity|]. intros db. eexists.
      split; [reflexivity|]. apply conveyor_query_sorted. }
  destruct Hquery as (q & l & Hq & Hrows).
  (* the rows fetched, or none when the query fails *)
  assert (Hfetch : ∃ result w2 ds,
    execute_query "equipment" q (add_log l w) = (Ok result, w2)
    ∧ cursor_state w2 = cursor_state w
    ∧ database w2 = database w
    ∧ default [] result = connector_time <$> ds
    ∧ StronglySorted dt_le ds
    ∧ (∀ d, d ∈ ds → d ∈ tb_conveyor_requests (database w))).
  { rewrite execute_query_cases.
    destruct (default true (head (outcomes (add_log l w)))).
    - destruct (Hrows (database (add_log l w))) as (ds & Hds & Hsorted & Hsub).
      eexists _, _, ds. split; [reflexivity|].
      split; [done|]. split; [done|]. split; [exact Hds|]. done.
    - eexists _, _, []. split; [reflexivity|].
      split; [done|]. split; [done|]. split; [done|].
      split; [constructor|]. by intros d Hd%elem_of_nil. }
  destruct Hfetch as (result & w2 & ds & Hfetch & Hcur2 & Hdb2 & Hresult
                      & Hsorted & Hsub).
  unfold get_new_conveyor_requests.
  unfold bind at 1. unfold get_world at 1. cbv zeta.
  destruct (last_processed_time w) as [last|] eqn:Hlast.
  - erewrite bind_Ok by reflexivity.
    erewrite bind_Ok by exact Hq.
    unfold try_except.
    erewrite bind_Ok by exact Hfetch. cbv zeta. rewrite Hresult.
    destruct (filter_by_cursor last ds w2 Hsorted) as (r & Hrun & Hkept).
    destruct r as [kept|e].
    + erewrite bind_Ok by exact Hrun.
      destruct (Hkept kept eq_refl) as (ds' & -> & Hsorted' & Hsub' & Hbound).
      eexists _, _. split; [reflexivity|]. split; [done|].
      intros reqs [= <-]. exists ds'. split; [done|]. split; [done|].
      split; [by auto|]. intros last' x [= <-] Hx. by apply Hbound.
    + erewrite bind_Raise by exact Hrun.
      eexists _, _. split; [reflexivity|]. split; [done|].
      intros reqs [= <-]. exists []. split; [done|]. split; [constructor|].
      split; [by intros d Hd%elem_of_nil|]. by intros last' x _ Hx%elem_of_nil.
  - erewrite bind_Ok by reflexivity.
    erewrite bind_Ok by exact Hq.
    unfold try_except.
    erewrite bind_Ok by exact Hfetch. cbv zeta. rewrite Hresult.
    eexists _, _. split; [reflexivity|]. split; [done|].
    intros reqs [= <-]. exists ds. split; [done|]. split; [done|].
    split; [done|]. intros last' x [=].
Qed.

Lemma elem_of_enumerate {A} (l : list A) (i : nat) (x : A) :
  (i, x) ∈ enumerate l → x ∈ l.
Proof.
  unfold enumerate. intros (j & y & [= -> ->] & Hy)%elem_of_lookup_imap_1.
  by eapply list_elem_of_lookup_2.
Qed.

(** The loop over the trigger events moves the cursor, if at all, to the
    time of one of them. *)
Lemma advances_process_new_conveyor_requests
    (handler_get : datetime → datetime → M (gmap string (list (pyval * time_value))))
    (handler_save : combined_data_dict → M bool)
    (Hget : ∀ start_time end_time, keeps_cursor (handler_get start_time end_time))
    (Hsave : ∀ combined_data, keeps_cursor (handler_save combined_data))
    (conveyor_requests : list time_value) :
  advances (λ t, ∃ x, x ∈ conveyor_requests ∧ _convert_to_datetime x = Ok t)
    (process_new_conveyor_requests handler_get handler_save conveyor_requests).
Proof.
  unfold process_new_conveyor_requests.
  destruct conveyor_requests as [|x0 rest] eqn:Hreqs; [apply advances_logger|].
  rewrite <- Hreqs. apply advances_bind; [apply advances_logger|]. intros _.
  apply advances_for_each. intros [i x] Hx%elem_of_enumerate.
  eapply advances_mono; [|by apply advances_process_individual].
  intros t Ht. by exists x.
Qed.

(** A poll cycle, for any equipment handler whose methods leave the cursor
    alone: both copies of the cursor are left as they were or are set to
    the time of one of the trigger events that the poll returned. *)
Lemma cycle_moves_to_processed_event
    (handler_get : datetime → datetime → M (gmap string (list (pyval * time_value))))
    (handler_save : combined_data_dict → M bool)
    (Hget : ∀ start_time end_time, keeps_cursor (handler_get start_time end_time))
    (Hsave : ∀ combined_data, keeps_cursor (handler_save combined_data))
    (w : World) :
  let w' := world_of (process_conveyor_requests handler_get handler_save w) in
  cursor_state w' = cursor_state w
  ∨ ∃ reqs w1 x t,
      get_new_conveyor_requests w = (Ok reqs, w1)
      ∧ x ∈ reqs
      ∧ _convert_to_datetime x = Ok t
      ∧ cursor_state w' = (Some (dt_seconds t), Some t).
Proof.
  cbn zeta.
  destruct (get_new_conveyor_requests_spec w) as (r & w1 & Hrun & Hcur1 & Hreqs).
  set (loop := λ reqs : list time_value,
                 match reqs with
                 | [] => ret tt
                 | _ => process_new_conveyor_requests handler_get
                          handler_save reqs
                 end).
  assert (Hcycle :
    cursor_state
      (world_of (process_conveyor_requests handler_get handler_save w))
    = match r with
      | Ok reqs => cursor_state (world_of (loop reqs w1))
      | Raise e => cursor_state w1
      end).
  { unfold process_conveyor_requests, try_except, bind. rewrite Hrun.
    destruct r as [reqs|e]; [|done]. fold (loop reqs).
    by destruct (loop reqs w1) as [[[]|e] w2]. }
  rewrite Hcycle. destruct r as [reqs|e]; [|by left].
  assert (Hloop : advances
            (λ t, ∃ x, x ∈ reqs ∧ _convert_to_datetime x = Ok t)
            (loop reqs)).
  { unfold loop. destruct reqs; [apply advances_ret|].
    by apply advances_process_new_conveyor_requests. }
  destruct (Hloop w1) as [Hsame|(t & (x & Hx & Hconv) & Hset)].
  - left. congruence.
  - right. by exists reqs, w1, x, t.
Qed.

(* =================================================================== *)
(** ** A trigger event without a code *)
(* =================================================================== *)

Lemma warnings_for_app (t : datetime) (l1 l2 : list (level * message)) :
  warnings_for t (l1 ++ l2) = (warnings_for t l1 + warnings_for t l2)%nat.
Proof. unfold warnings_for. by rewrite filter_app, length_app. Qed.

Lemma quiet_refl (t : datetime) (w : World) : quiet t w w.
Proof. done. Qed.

Lemma quiet_trans (t : datetime) (w1 w2 w3 : World) :
  quiet t w1 w2 → quiet t w2 w3 → quiet t w1 w3.
Proof.
  intros (Hd1 & Hm1 & Hs1 & Hl1) (Hd2 & Hm2 & Hs2 & Hl2).
  repeat split; congruence.
Qed.

Lemma quiet_add_log (t : datetime) (r : level * message) (w : World) :
  r ≠ (WARNING, NoCodeFound t) → quiet t w (add_log r w).
Proof.
  intros Hr. split; [done|]. split; [done|]. split; [done|].
  cbn [add_log log]. rewrite warnings_for_app.
  unfold warnings_for at 2. rewrite filter_cons, decide_False by done. cbn. lia.
Qed.

Lemma quiet_after_call (t : datetime) (w : World) : quiet t w (after_call w).
Proof. done. Qed.

Lemma verify_complete_cycle_cases (conveyor_time : datetime)
    (next_conveyor_time : option datetime) (w : World) :
  _verify_complete_cycle conveyor_time next_conveyor_time w =
    if configured "analytics" then
      if default true (head (outcomes w)) then
        (Ok (cycle_rows_complete
               (select_cycle conveyor_time next_conveyor_time (database w))),
         after_call w)
      else (Ok false, add_log (ERROR, ExecutorError "analytics") (after_call w))
    else (Ok false, add_log (ERROR, ErrorVerifyingCycle conveyor_time) w).
Proof.
  unfold _verify_complete_cycle, try_except. unfold bind at 1. unfold bind at 1.
  rewrite execute_query_any.
  destruct (configured "analytics"); [|done].
  by destruct (default true (head (outcomes w))).
Qed.

Lemma search_corresponding_code_cases (conveyor_time : datetime)
    (next_conveyor_time : option datetime) (w : World) :
  _search_corresponding_code conveyor_time next_conveyor_time w =
    if configured "scanner" then
      if default true (head (outcomes w)) then
        match select_code conveyor_time
                (default (add_minutes conveyor_time 10) next_conveyor_time)
                (database w) with
        | code :: _ =>
            (Ok (Some code),
             add_log (INFO, CodeFound conveyor_time) (after_call w))
        | [] => (Ok None, after_call w)
        end
      else (Ok None, add_log (ERROR, ExecutorError "scanner") (after_call w))
    else (Raise ValueError, w).
Proof.
  unfold _search_corresponding_code. cbv zeta. unfold bind at 1.
  rewrite execute_query_any.
  replace (match next_conveyor_time with
           | Some next => next
           | None => add_minutes conveyor_time 10
           end)
    with (default (add_minutes conveyor_time 10) next_conveyor_time)
    by by destruct next_conveyor_time.
  destruct (configured "scanner"); [|done].
  destruct (default true (head (outcomes w))); [|done].
  by destruct (select_code _ _ _).
Qed.

(** The check of the previous cycle, whatever it finds, changes the log and
    the pending outcomes only. *)
Lemma verify_previous_cycle_quiet (all_requests : list time_value)
    (index : nat) (conveyor_request : time_value) (conveyor_time : datetime)
    (w : World) :
  _convert_to_datetime conveyor_request = Ok conveyor_time →
  (index = 0%nat
   ∨ ∃ prev t, all_requests !! (index - 1)%nat = Some prev
               ∧ _convert_to_datetime prev = Ok t) →
  ∃ w2,
    (if bool_decide (0 < index)%nat then
       prev <- list_get all_requests (index - 1) ;;;
       prev_conveyor_time <- lift (_convert_to_datetime prev) ;;;
       current_conveyor_time <- lift (_convert_to_datetime conveyor_request) ;;;
       complete <- _verify_complete_cycle prev_conveyor_time
                     (Some current_conveyor_time) ;;;
       if (complete : bool) then ret tt
       else logger WARNING
              (PreviousCycleNotComplete prev_conveyor_time
                 current_conveyor_time)
     else ret tt) w = (Ok tt, w2)
    ∧ quiet conveyor_time w w2.
Proof.
  intros Hconv Hprev. case_bool_decide as Hindex.
  2: { exists w. done. }
  destruct Hprev as [->|(prev & t & Hlookup & Hconv_prev)]; [lia|].
  unfold list_get. rewrite Hlookup.
  erewrite bind_Ok by reflexivity.
  rewrite Hconv_prev, Hconv.
  erewrite bind_Ok by reflexivity.
  erewrite bind_Ok by reflexivity.
  unfold bind. rewrite verify_complete_cycle_cases.
  destruct (configured "analytics").
  2: { eexists. split; [reflexivity|]. eapply quiet_trans; by apply quiet_add_log. }
  destruct (default true (head (outcomes w))).
  - destruct (cycle_rows_complete _).
    + eexists. split; [reflexivity|]. apply quiet_after_call.
    + eexists. split; [reflexivity|].
      eapply quiet_trans; [apply quiet_after_call|]. by apply quiet_add_log.
  - eexists. split; [reflexivity|].
    eapply quiet_trans; [apply quiet_after_call|].
    eapply quiet_trans; by apply quiet_add_log.
Qed.

(** The end of the window and the time of the next trigger, as the two
    helpers compute them. *)
Lemma window_helpers (all_requests : list time_value) (index : nat)
    (conveyor_time : datetime) (next_conveyor_time : option datetime) :
  (∃ x t, all_requests !! S index = Some x
          ∧ _convert_to_datetime x = Ok t ∧ next_conveyor_time = Some t)
  ∨ (all_requests !! S index = None ∧ next_conveyor_time = None) →
  ∀ w, _calculate_end_time all_requests index conveyor_time w
       = (Ok (default (add_minutes conveyor_time 10) next_conveyor_time), w)
       ∧ _get_next_conveyor_time all_requests index w
         = (Ok next_conveyor_time, w).
Proof.
  intros Hnext w. unfold _calculate_end_time, _get_next_conveyor_time, has_next.
  replace (index + 1)%nat with (S index) by lia.
  destruct Hnext as [(x & t & Hx & Hconv & ->)|[Hnone ->]].
  - apply lookup_lt_Some in Hx as Hlt.
    rewrite bool_decide_eq_true_2 by lia.
    unfold list_get. rewrite Hx. unfold bind, ret, lift. by rewrite Hconv.
  - apply lookup_ge_None in Hnone.
    rewrite bool_decide_eq_false_2 by lia. done.
Qed.

(** C7.  The code search passes the database type ['scanner'] to the
    executor, whose [connect] raises [ValueError] for a type that is not among
    the configured ones; credentials.py configures ['equipment'], ['Code'] and
    ['Combined'].  So for a trigger event, with or without a code event in
    its window, the call does not skip the event: it raises [ValueError] at
    the code search.  The database and the in-memory cursor are as before,
    the no-code set is unchanged and no no-code warning is logged. *)
Theorem code_search_raises_before_skip
    (handler_get : datetime → datetime → M (gmap string (list (pyval * time_value))))
    (handler_save : combined_data_dict → M bool)
    (conveyor_request : time_value) (all_requests : list time_value)
    (index : nat) (conveyor_time : datetime)
    (next_conveyor_time : option datetime) (w : World)
    (Hunconfigured : configured "scanner" = false)
    (Hconv : _convert_to_datetime conveyor_request = Ok conveyor_time)
    (Hprev : index = 0%nat
             ∨ ∃ prev t, all_requests !! (index - 1)%nat = Some prev
                         ∧ _convert_to_datetime prev = Ok t)
    (Hnext_trigger :
       (∃ x t, all_requests !! S index = Some x
               ∧ _convert_to_datetime x = Ok t ∧ next_conveyor_time = Some t)
       ∨ (all_requests !! S index = None ∧ next_conveyor_time = None)) :
  let r := _process_individual_conveyor_request handler_get handler_save
             conveyor_request all_requests index w in
  let w' := world_of r in
  result_of r = Raise ValueError
  ∧ database w' = database w
  ∧ last_processed_time w' = last_processed_time w
  ∧ requests_without_code w' = requests_without_code w
  ∧ warnings_for conveyor_time (log w') = warnings_for conveyor_time (log w).
Proof.
  cbn zeta.
  pose proof (λ w0, proj1 (window_helpers all_requests index conveyor_time
                             next_conveyor_time Hnext_trigger w0)) as Hend.
  pose proof (λ w0, proj2 (window_helpers all_requests index conveyor_time
                             next_conveyor_time Hnext_trigger w0)) as Hnext.
  destruct (verify_previous_cycle_quiet all_requests index conveyor_request
              conveyor_time w Hconv Hprev) as (w2 & Hverify & Hquiet2).
  assert (Hrun :
    _process_individual_conveyor_request handler_get handler_save
      conveyor_request all_requests index w = (Raise ValueError, w2)).
  { unfold _process_individual_conveyor_request.
    erewrite bind_Ok by (unfold lift; rewrite Hconv; reflexivity).
    erewrite bind_Ok by exact Hverify.
    erewrite bind_Ok by apply Hend.
    erewrite bind_Ok by apply Hnext.
    unfold bind.
    by rewrite search_corresponding_code_cases, Hunconfigured. }
  rewrite Hrun. cbn [result_of world_of fst snd].
  destruct Hquiet2 as (Hdb & Hmem & Hset & Hlog). done.
Qed.

(** With the database type of the code search configured, a trigger event
    with no code event in its window [(conveyor_time, window end]], the
    window end being the time of the next trigger when there is one and ten
    minutes later otherwise: the call returns without raising, leaves the
    database and the in-memory cursor as they were, puts the [strftime] text
    of the trigger time into the no-code set, and logs the no-code warning
    exactly when that text was not in the set before. *)
Lemma no_code_skip_when_configured
    (handler_get : datetime → datetime → M (gmap string (list (pyval * time_value))))
    (handler_save : combined_data_dict → M bool)
    (conveyor_request : time_value) (all_requests : list time_value)
    (index : nat) (conveyor_time : datetime)
    (next_conveyor_time : option datetime) (w : World)
    (Hconfigured : configured "scanner" = true)
    (Hconv : _convert_to_datetime conveyor_request = Ok conveyor_time)
    (Hprev : index = 0%nat
             ∨ ∃ prev t, all_requests !! (index - 1)%nat = Some prev
                         ∧ _convert_to_datetime prev = Ok t)
    (Hnext_trigger :
       (∃ x t, all_requests !! S index = Some x
               ∧ _convert_to_datetime x = Ok t ∧ next_conveyor_time = Some t)
       ∨ (all_requests !! S index = None ∧ next_conveyor_time = None))
    (Hnocode : select_code conveyor_time
                 (default (add_minutes conveyor_time 10) next_conveyor_time)
                 (database w) = []) :
  let r := _process_individual_conveyor_request handler_get handler_save
             conveyor_request all_requests index w in
  let w' := world_of r in
  let time_str := strftime_seconds conveyor_time in
  result_of r = Ok tt
  ∧ database w' = database w
  ∧ last_processed_time w' = last_processed_time w
  ∧ requests_without_code w' = requests_without_code w ∪ {[ time_str ]}
  ∧ warnings_for conveyor_time (log w')
    = (warnings_for conveyor_time (log w)
       + if bool_decide (time_str ∈ requests_without_code w) then 0 else 1)%nat.
Proof.
  cbn zeta.
  pose proof (λ w0, proj1 (window_helpers all_requests index conveyor_time
                             next_conveyor_time Hnext_trigger w0)) as Hend.
  pose proof (λ w0, proj2 (window_helpers all_requests index conveyor_time
                             next_conveyor_time Hnext_trigger w0)) as Hnext.
  destruct (verify_previous_cycle_quiet all_requests index conveyor_request
              conveyor_time w Hconv Hprev) as (w2 & Hverify & Hquiet2).
  (* the code search finds nothing *)
  assert (Hsearch : ∃ w3,
    _search_corresponding_code conveyor_time next_conveyor_time w2 = (Ok None, w3)
    ∧ quiet conveyor_time w w3).
  { rewrite search_corresponding_code_cases, Hconfigured.
    destruct Hquiet2 as (Hdb2 & ?). rewrite Hdb2, Hnocode.
    destruct (default true (head (outcomes w2))).
    - eexists. split; [reflexivity|].
      eapply quiet_trans; [done|apply quiet_after_call].
    - eexists. split; [reflexivity|].
      eapply quiet_trans; [done|].
      eapply quiet_trans; [apply quiet_after_call|]. by apply quiet_add_log. }
  destruct Hsearch as (w3 & Hsearch & (Hdb & Hmem & Hset & Hlog)).
  enough (Hrun : ∃ w',
    _process_individual_conveyor_request handler_get handler_save
      conveyor_request all_requests index w = (Ok tt, w')
    ∧ database w' = database w3
    ∧ last_processed_time w' = last_processed_time w3
    ∧ requests_without_code w'
      = requests_without_code w3 ∪ {[ strftime_seconds conveyor_time ]}
    ∧ warnings_for conveyor_time (log w')
      = (warnings_for conveyor_time (log w3)
         + if bool_decide (strftime_seconds conveyor_time
                           ∈ requests_without_code w3) then 0 else 1)%nat).
  { destruct Hrun as (w' & -> & Hdb' & Hmem' & Hset' & Hlog').
    cbn [result_of world_of fst snd].
    rewrite Hdb', Hmem', Hset', Hlog', Hdb, Hmem, Hset, Hlog. done. }
  unfold _process_individual_conveyor_request.
  erewrite bind_Ok by (unfold lift; rewrite Hconv; reflexivity).
  erewrite bind_Ok by exact Hverify.
  erewrite bind_Ok by apply Hend.
  erewrite bind_Ok by apply Hnext.
  erewrite bind_Ok by exact Hsearch.
  cbv beta iota zeta. erewrite bind_Ok by reflexivity.
  destruct (bool_decide (strftime_seconds conveyor_time
                         ∈ requests_without_code w3)) eqn:Hin.
  - exists w3. split; [reflexivity|]. apply bool_decide_eq_true in Hin.
    split; [done|]. split; [done|]. split; [|lia].
    rewrite (comm_L (∪)). symmetry. apply subseteq_union_1_L.
    by apply singleton_subseteq_l.
  - eexists. split; [reflexivity|]. cbn -[warnings_for].
    split; [done|]. split; [done|]. split; [done|].
    rewrite <- app_assoc, warnings_for_app. f_equal.
    unfold warnings_for. cbn. rewrite decide_True by done.
    rewrite decide_False by done. done.
Qed.

(* =================================================================== *)
(** ** The data processor wired to the equipment data handler *)
(* =================================================================== *)

Lemma executemany_insert_ignore_state (params : list insert_params) :
  ∀ db db', executemany insert_ignore params db = Some db' →
  tb_processing_state db' = tb_processing_state db.
Proof.
  induction params as [|p rest IH]; intros db db' Hrun; cbn in Hrun.
  - by injection Hrun as <-.
  - destruct (insert_ignore p db) as [db1|] eqn:Hp; [|done].
    rewrite (IH _ _ Hrun). unfold insert_ignore in Hp.
    destruct (row_of_params p); [|done]. by injection Hp as <-.
Qed.

Lemma keeps_cursor_get_equipment_data (start_time end_time : datetime) :
  keeps_cursor (get_equipment_data_by_time_range start_time end_time).
Proof.
  unfold keeps_cursor, get_equipment_data_by_time_range. frame_steps.
Qed.

Lemma keeps_cursor_save_combined_data (combined_data : combined_data_dict) :
  keeps_cursor (save_combined_data_centered_conveyor combined_data).
Proof.
  intros w. rewrite save_combined_data_cases.
  destruct (equipment_data combined_data !! "status_records")
    as [[|record records]|]; [by left| |by left].
  cbn zeta. destruct (configured "analytics"); [|by left].
  destruct (default true (head (outcomes w))); [|by left].
  destruct (executemany insert_ignore _ (database w)) as [db'|] eqn:Hrun;
    [|by left].
  left. unfold cursor_state, durable_cursor. cbn.
  by rewrite (executemany_insert_ignore_state _ _ _ Hrun).
Qed.

(** The dictionary of the handler has the one key ['status_records']. *)
Lemma get_equipment_data_keys (start_time end_time : datetime) (w : World) :
  ∃ status_records w1,
    get_equipment_data_by_time_range start_time end_time w
    = (Ok {[ "status_records" := status_records ]}, w1).
Proof.
  unfold get_equipment_data_by_time_range, bind. rewrite execute_query_cases.
  destruct (default true (head (outcomes w))); eexists _, _; reflexivity.
Qed.

(** No trigger event of the wired system reaches the cursor update: the
    code search raises [ValueError] when its database type is not
    configured, and with the type configured a trigger whose code was
    matched ends, on that dictionary, in [KeyError('v24_records')]. *)
Lemma wired_process_individual_keeps_cursor (conveyor_request : time_value)
    (all_requests : list time_value) (index : nat) :
  keeps_cursor
    (_process_individual_conveyor_request get_equipment_data_by_time_range
       save_combined_data_centered_conveyor conveyor_request all_requests index).
Proof.
  unfold keeps_cursor, _process_individual_conveyor_request.
  apply advances_bind; [frame_steps|]. intros conveyor_time.
  apply advances_bind; [frame_steps|]. intros _.
  apply advances_bind; [frame_steps|]. intros end_time.
  apply advances_bind; [frame_steps|]. intros next_conveyor_time.
  apply advances_bind; [frame_steps|]. intros [code_data|]; [|frame_steps].
  cbv zeta.
  apply advances_bind; [frame_steps|]. intros w0.
  apply advances_bind; [frame_steps|]. intros _.
  intros w.
  destruct (get_equipment_data_keys conveyor_time end_time w)
    as (status_records & w1 & Hget).
  erewrite bind_Ok by exact Hget.
  pose proof (keeps_cursor_get_equipment_data conveyor_time end_time w) as Hkeep.
  rewrite Hget in Hkeep. exact Hkeep.
Qed.

Lemma keeps_cursor_get_new_conveyor_requests :
  keeps_cursor get_new_conveyor_requests.
Proof.
  intros w.
  destruct (get_new_conveyor_requests_spec w) as (r & w1 & Hrun & Hcur & _).
  rewrite Hrun. by left.
Qed.

(** The wired poll cycle leaves both copies of the cursor as they were, in
    every world: it ends in the [ValueError] of the code search or, with
    the type of the code search configured, in the [KeyError] after a match
    and in a skip without one. *)
Lemma wired_cycle_keeps_cursor (w : World) :
  cursor_state (world_of (execute_processing_cycle w)) = cursor_state w.
Proof.
  assert (Hcycle : keeps_cursor execute_processing_cycle).
  { unfold keeps_cursor, execute_processing_cycle, process_conveyor_requests.
    apply advances_try_except; [|intros e; frame_steps].
    apply advances_bind; [|frame_steps].
    apply advances_try_except; [|intros e; frame_steps].
    apply advances_bind; [apply keeps_cursor_get_new_conveyor_requests|].
    intros reqs. destruct reqs as [|x rest] eqn:Hreqs; [frame_steps|].
    rewrite <- Hreqs. unfold process_new_conveyor_requests.
    destruct reqs; [frame_steps|].
    apply advances_bind; [frame_steps|]. intros _.
    apply advances_for_each. intros [i y] _.
    apply wired_process_individual_keeps_cursor. }
  destruct (Hcycle w) as [Hsame|(t & [] & _)]. exact Hsame.
Qed.


(** C2. A poll cycle.
    - The trigger events it works on are the connector's renderings of an
      ascending list of stored trigger times, each of which converts to a
      time not before the in-memory cursor, and the poll leaves both copies
      of the cursor alone.
    - With the data processor wired to the equipment data handler, as
      [ProcessingSystem.__init__] wires it, the durable cursor after the
      cycle is not below the one before, from every world.
    - For any equipment handler whose methods leave the cursor alone, both
      copies of the cursor are left as they were or are set to the time of
      one of the events that the poll returned; and from a world whose
      durable cursor is not after the in-memory one, the durable cursor
      after the cycle is not below the one before and is again not after
      the in-memory one. *)
Theorem persisted_cursor_non_decreasing (w : World) :
  (∃ r w1,
     get_new_conveyor_requests w = (r, w1)
     ∧ cursor_state w1 = cursor_state w
     ∧ ∀ reqs, r = Ok reqs →
         ∃ ds, reqs = connector_time <$> ds
           ∧ StronglySorted dt_le ds
           ∧ (∀ d, d ∈ ds → d ∈ tb_conveyor_requests (database w))
           ∧ (∀ last x, last_processed_time w = Some last → x ∈ reqs →
                ∃ t, _convert_to_datetime x = Ok t ∧ dt_le last t))
  ∧ cursor_le (durable_cursor w)
      (durable_cursor (world_of (execute_processing_cycle w)))
  ∧ ∀ (handler_get :
         datetime → datetime → M (gmap string (list (pyval * time_value))))
      (handler_save : combined_data_dict → M bool),
      (∀ start_time end_time, keeps_cursor (handler_get start_time end_time)) →
      (∀ combined_data, keeps_cursor (handler_save combined_data)) →
      let w' :=
        world_of (process_conveyor_requests handler_get handler_save w) in
      (cursor_state w' = cursor_state w
       ∨ ∃ reqs w1 x t,
           get_new_conveyor_requests w = (Ok reqs, w1)
           ∧ x ∈ reqs
           ∧ _convert_to_datetime x = Ok t
           ∧ cursor_state w' = (Some (dt_seconds t), Some t))
      ∧ (cursor_consistent w →
         cursor_le (durable_cursor w) (durable_cursor w')
         ∧ cursor_consistent w').
Proof.
  split; [apply get_new_conveyor_requests_spec|]. split.
  { pose proof (wired_cycle_keeps_cursor w) as Hsame.
    unfold cursor_state in Hsame. injection Hsame as -> _.
    unfold cursor_le. by destruct (durable_cursor w); [lia|]. }
  intros handler_get handler_save Hget Hsave. cbv zeta.
  pose proof (cycle_moves_to_processed_event handler_get handler_save
                Hget Hsave w) as Hmoved.
  cbv zeta in Hmoved. split; [exact Hmoved|]. intros Hconsistent.
  destruct Hmoved as [Hsame|(reqs & w1 & x & t & Hrun & Hx & Hconv & Hset)].
  - unfold cursor_state in Hsame. injection Hsame as Hd Hm.
    unfold cursor_consistent in *. rewrite Hd, Hm. split; [|done].
    unfold cursor_le. by destruct (durable_cursor w); [lia|].
  - unfold cursor_state in Hset. injection Hset as Hd Hm.
    unfold cursor_consistent in *. rewrite Hd, Hm. split.
    + unfold cursor_le. destruct (durable_cursor w) as [c|]; [|done].
      destruct Hconsistent as (m & Hmem & Hle).
      destruct (get_new_conveyor_requests_spec w)
        as (r & w1' & Hrun' & _ & Hreqs).
      rewrite Hrun in Hrun'. injection Hrun' as <- <-.
      destruct (Hreqs reqs eq_refl) as (ds & _ & _ & _ & Hbound).
      destruct (Hbound m x Hmem Hx) as (t' & Hconv' & Hlt).
      rewrite Hconv in Hconv'. injection Hconv' as <-.
      apply dt_le_seconds in Hlt. lia.
    + exists t. split; [done|]. lia.
Qed.


Lemma keeps_cursor_get_equipment_data_with_v24_records
    (start_time end_time : datetime) :
  keeps_cursor (get_equipment_data_with_v24_records start_time end_time).
Proof.
  unfold keeps_cursor, get_equipment_data_with_v24_records.
  apply advances_bind; [apply keeps_cursor_get_equipment_data|].
  intros equipment_data. apply advances_ret.
Qed.


(** At start-up, when the stored cursor is read and the connector renders it
    faithfully, the durable cursor is not after the in-memory one. *)
Lemma startup_cursor_consistent (w : World) :
  next_up w →
  (∀ c w', read_time_cell (Some (Some (connector_time (of_DATETIME c)))) w'
           = (Ok (Some (of_DATETIME c)), w')) →
  result_of (StateManager__init__ w) = Ok tt
  ∧ cursor_consistent (world_of (StateManager__init__ w)).
Proof.
  intros Hup Hconn.
  assert (Hget : get_last_processed_time w
                 = (Ok (of_DATETIME <$> tb_processing_state (database w)),
                    after_call w)).
  { unfold get_last_processed_time. erewrite bind_Ok.
    2: { rewrite execute_query_one_cases, (next_up_head _ Hup). reflexivity. }
    unfold select_last_processed_time.
    destruct (tb_processing_state (database w)) as [c|]; [apply Hconn|done]. }
  unfold StateManager__init__. erewrite bind_Ok by exact Hget.
  unfold cursor_consistent, durable_cursor. cbn.
  destruct (tb_processing_state (database w)) as [c|]; [|done].
  split; [done|]. exists (of_DATETIME c). cbn. split; [done|]. lia.
Qed.
(* ===================================================================== *)
(** * Further properties: the windows of the queries *)
(* ===================================================================== *)

Lemma by_timestamp_trans {A} (f : A → datetime) :
  Transitive (λ a b, dt_le (f a) (f b)).
Proof. intros a b c. apply dt_le_trans. Qed.

Lemma by_timestamp_total {A} (f : A → datetime) :
  Total (λ a b, dt_le (f a) (f b)).
Proof. intros a b. apply dt_le_total. Qed.

(** [SELECT ... WHERE P ORDER BY f ASC]: the selected rows in ascending
    order. *)
Lemma sorted_selection {A} (f : A → datetime) (P : A → Prop)
    `{∀ r, Decision (P r)} (table : list A) :
  let rows := merge_sort (λ a b, dt_le (f a) (f b)) (filter P table) in
  StronglySorted (λ a b, dt_le (f a) (f b)) rows
  ∧ rows ≡ₚ filter P table
  ∧ ∀ r, r ∈ rows ↔ r ∈ table ∧ P r.
Proof.
  intros rows. split; [|split].
  - apply (StronglySorted_merge_sort _ (Transitive0:=by_timestamp_trans f)
             (Total0:=by_timestamp_total f)).
  - apply merge_sort_Permutation.
  - intros r. unfold rows. rewrite merge_sort_Permutation.
    rewrite list_elem_of_filter. tauto.
Qed.

Lemma read_only_refl (w : World) : read_only w w.
Proof. done. Qed.

Lemma read_only_after_call (w : World) : read_only w (after_call w).
Proof. done. Qed.

Lemma read_only_add_log (r : level * message) (w : World) :
  read_only w (add_log r w).
Proof. done. Qed.

Lemma read_only_trans (w1 w2 w3 : World) :
  read_only w1 w2 → read_only w2 w3 → read_only w1 w3.
Proof.
  intros (H1 & H2 & H3) (H4 & H5 & H6). unfold read_only.
  rewrite H4, H5, H6. done.
Qed.

Lemma head_false_default (w : World) :
  head (outcomes w) = Some false → default true (head (outcomes w)) = false.
Proof. by intros ->. Qed.

(** X1.  The equipment handler returns, under the one key
    ['status_records'], exactly the samples of the half-open window
    [(start_time, end_time]] in ascending order of their timestamp; when
    the query fails it returns the empty list under that key; it never
    raises and changes no table, cursor or set. *)
Theorem equipment_window_half_open (start_time end_time : datetime)
    (w : World) :
  ∃ rows w',
    get_equipment_data_by_time_range start_time end_time w
    = (Ok {[ "status_records" := equipment_record <$> rows ]}, w')
    ∧ read_only w w'
    ∧ StronglySorted
        (λ a b, dt_le (equipment_timestamp a) (equipment_timestamp b)) rows
    ∧ (∀ r, r ∈ rows →
         r ∈ tb_equipment_records (database w)
         ∧ dt_lt start_time (equipment_timestamp r)
         ∧ dt_le (equipment_timestamp r) end_time)
    ∧ (next_up w →
         rows ≡ₚ filter (λ r, dt_lt start_time (equipment_timestamp r)
                              ∧ dt_le (equipment_timestamp r) end_time)
                   (tb_equipment_records (database w)))
    ∧ (head (outcomes w) = Some false → rows = []).
Proof.
  unfold get_equipment_data_by_time_range, bind.
  rewrite execute_query_cases.
  destruct (default true (head (outcomes w))) eqn:Hup.
  - pose proof (sorted_selection equipment_timestamp
                  (λ r, dt_lt start_time (equipment_timestamp r)
                        ∧ dt_le (equipment_timestamp r) end_time)
                  (tb_equipment_records (database w))) as (Hsorted & Hperm & Hin).
    eexists _, _. split; [reflexivity|].
    split; [apply read_only_after_call|].
    split; [exact Hsorted|]. split; [|split].
    + intros r Hr. apply Hin in Hr. tauto.
    + intros _. exact Hperm.
    + intros Hdown. rewrite (head_false_default _ Hdown) in Hup. done.
  - exists [], (add_log (ERROR, ExecutorError "equipment") (after_call w)).
    split; [reflexivity|]. split; [done|].
    split; [constructor|]. split; [|split].
    + intros r Hr. by apply elem_of_nil in Hr.
    + intros Hnext. apply next_up_head in Hnext. congruence.
    + done.
Qed.

Lemma StronglySorted_head_le {A} (R : relation A) (x : A) (l : list A) (y : A) :
  Reflexive R → StronglySorted R (x :: l) → y ∈ x :: l → R x y.
Proof.
  intros Hrefl Hsorted Hy. apply StronglySorted_inv in Hsorted as [_ Hall].
  apply elem_of_cons in Hy as [->|Hy]; [done|].
  rewrite Forall_forall in Hall. by apply Hall.
Qed.

Lemma dt_le_refl : Reflexive dt_le.
Proof. intros a. right. split; [done|lia]. Qed.

(** X2.  With its database type ['scanner'] configured, the code search
    returns the earliest code of the half-open window [(conveyor_time, end]],
    where [end] is the next trigger or, without one, ten minutes after the
    trigger; it returns [None] when the window has no code or the query
    fails; it changes no table, cursor or set and never raises.  With that
    type not configured, as in credentials.py, it raises [ValueError] and
    changes nothing at all. *)
Theorem search_finds_earliest_code (conveyor_time : datetime)
    (next_conveyor_time : option datetime) (w : World) :
  let search_end_time :=
    default (add_minutes conveyor_time 10) next_conveyor_time in
  let in_window r :=
    dt_lt conveyor_time (scanner_timestamp r)
    ∧ dt_le (scanner_timestamp r) search_end_time in
  if configured "scanner" then
    ∃ found w',
      _search_corresponding_code conveyor_time next_conveyor_time w
      = (Ok found, w')
      ∧ read_only w w'
      ∧ (∀ code, found = Some code →
           ∃ r, code = code_record r
                ∧ r ∈ tb_product_scanner (database w)
                ∧ in_window r
                ∧ ∀ r', r' ∈ tb_product_scanner (database w) → in_window r' →
                        dt_le (scanner_timestamp r) (scanner_timestamp r'))
      ∧ (next_up w → found = None →
           ∀ r, r ∈ tb_product_scanner (database w) → ¬ in_window r)
      ∧ (head (outcomes w) = Some false → found = None)
  else
    _search_corresponding_code conveyor_time next_conveyor_time w
    = (Raise ValueError, w).
Proof.
  intros search_end_time in_window.
  rewrite search_corresponding_code_cases.
  fold search_end_time.
  destruct (configured "scanner"); [|done].
  destruct (default true (head (outcomes w))) eqn:Hup.
  - unfold select_code.
    pose proof (sorted_selection scanner_timestamp in_window
                  (tb_product_scanner (database w))) as (Hsorted & _ & Hin).
    cbv zeta in Hsorted, Hin. unfold in_window in Hsorted, Hin at 1 2.
    destruct (merge_sort _ _) as [|r rows] eqn:Hrows; cbn.
    + exists None, (after_call w). split; [done|]. split; [done|].
      split; [done|]. split; [|done].
      intros _ _ r Hr Hwin.
      assert (Hnil : r ∈ @nil scanner_row) by (apply Hin; done).
      by apply elem_of_nil in Hnil.
    + exists (Some (code_record r)),
        (add_log (INFO, CodeFound conveyor_time) (after_call w)).
      split; [done|]. split; [done|]. split; [|split; [done|]].
      * intros code [= <-]. exists r. split; [done|].
        assert (Hr : r ∈ tb_product_scanner (database w) ∧ in_window r)
          by (apply Hin; left).
        split; [tauto|]. split; [tauto|].
        intros r' Hr' Hwin'.
        apply (StronglySorted_head_le
                 (λ a b, dt_le (scanner_timestamp a) (scanner_timestamp b))
                 r rows r'); [intros a; apply dt_le_refl|done|].
        apply Hin. done.
      * intros Hdown. rewrite (head_false_default _ Hdown) in Hup. done.
  - exists None, (add_log (ERROR, ExecutorError "scanner") (after_call w)).
    split; [done|]. split; [done|]. split; [done|]. split; [|done].
    intros Hnext. apply next_up_head in Hnext. congruence.
Qed.

(* ===================================================================== *)
(** * Further properties: the cycle check *)
(* ===================================================================== *)

(** The verdict over the fetched rows does not depend on their order: it is
    the verdict of some single row. *)
Lemma cycle_rows_complete_exists (rows : list (string * string)) :
  cycle_rows_complete rows = true
  ↔ ∃ row, row ∈ rows ∧ cycle_rows_complete [row] = true.
Proof.
  induction rows as [|[status complete_status] rest IH].
  - split; [done|]. intros (row & Hrow & _). by apply elem_of_nil in Hrow.
  - cbn [cycle_rows_complete].
    destruct (contains "complete_phase_2" status
              || contains "process_complete" status) eqn:Hstatus.
    { split; [|done]. intros _. exists (status, complete_status).
      split; [left|]. cbn [cycle_rows_complete]. by rewrite Hstatus. }
    destruct (negb (bool_decide (complete_status = ""))
              && (contains "complete_phase_2" complete_status
                  || contains "process_complete" complete_status))
      eqn:Hcomplete.
    { split; [|done]. intros _. exists (status, complete_status).
      split; [left|]. cbn [cycle_rows_complete].
      by rewrite Hstatus, Hcomplete. }
    rewrite IH. split.
    + intros (row & Hrow & Hverdict). exists row. split; [by right|done].
    + intros (row & Hrow & Hverdict).
      apply elem_of_cons in Hrow as [->|Hrow].
      * cbn [cycle_rows_complete] in Hverdict.
        by rewrite Hstatus, Hcomplete in Hverdict.
      * by exists row.
Qed.


(** Neither decoder gives a text with a completion marker. *)
Lemma decoder_outputs_carry_no_marker (status_value : pyval) :
  cycle_rows_complete
    [(process_decoder.decode_status_current int_of_str status_value,
      process_decoder.decode_status_complete int_of_str status_value)]
  = false.
Proof.
  unfold process_decoder.decode_status_current,
    process_decoder.decode_status_complete.
  destruct (is_None status_value || py_eq_zero status_value);
    [vm_compute; reflexivity|].
  destruct (process_decoder.py_int int_of_str status_value) as [n|];
    [|vm_compute; reflexivity].
  unfold process_decoder.first_active, process_decoder.collect_active.
  destruct (process_decoder.bit_active n 6), (process_decoder.bit_active n 5),
    (process_decoder.bit_active n 4), (process_decoder.bit_active n 3),
    (process_decoder.bit_active n 2), (process_decoder.bit_active n 1);
    vm_compute; reflexivity.
Qed.

(** X4.  Over a table whose rows carry the decoders' texts, as every row
    the writer inserts does, the cycle check answers [False] for every
    trigger: the decoders never give a text with a completion marker. *)
Theorem decoded_rows_never_complete (conveyor_time : datetime)
    (next_conveyor_time : option datetime) (w : World)
    (Hdecoded : Forall decoded_row (tb_combined_data (database w))) :
  result_of (_verify_complete_cycle conveyor_time next_conveyor_time w)
  = Ok false.
Proof.
  rewrite verify_complete_cycle_cases.
  destruct (configured "analytics"); [|done].
  destruct (default true (head (outcomes w))); [|done].
  cbn. f_equal. apply not_true_is_false.
  rewrite cycle_rows_complete_exists. intros (row & Hrow & Hverdict).
  unfold select_cycle in Hrow.
  apply list_elem_of_fmap in Hrow as (r & -> & Hr).
  rewrite merge_sort_Permutation in Hr.
  apply list_elem_of_filter in Hr as [_ Hr].
  rewrite Forall_forall in Hdecoded. destruct (Hdecoded r Hr) as [Hcur Hcom].
  rewrite Hcur, Hcom, decoder_outputs_carry_no_marker in Hverdict. done.
Qed.

(* ===================================================================== *)
(** * Further properties: the writer of combined records *)
(* ===================================================================== *)

(** What one batch of [INSERT IGNORE] statements does to the database: rows
    are appended to [tb_combined_data], each the row of a parameter tuple,
    and nothing else changes; a table without two rows of one unique key
    stays so. *)
Lemma executemany_insert_ignore_appends (params : list insert_params) :
  ∀ db db', executemany insert_ignore params db = Some db' →
  ∃ added,
    tb_combined_data db' = (tb_combined_data db ++ added)%list
    ∧ tb_conveyor_requests db' = tb_conveyor_requests db
    ∧ tb_product_scanner db' = tb_product_scanner db
    ∧ tb_equipment_records db' = tb_equipment_records db
    ∧ CURDATE db' = CURDATE db
    ∧ Forall (λ row, ∃ p, p ∈ params ∧ row_of_params p = Some row) added
    ∧ (length added ≤ length params)%nat
    ∧ (NoDup (unique_key <$> tb_combined_data db) →
       NoDup (unique_key <$> tb_combined_data db')).
Proof.
  induction params as [|p rest IH]; intros db db' Hrun; cbn in Hrun.
  - injection Hrun as <-. exists []. rewrite app_nil_r.
    repeat split; try done.
  - destruct (insert_ignore p db) as [db1|] eqn:Hp; [|done].
    destruct (IH _ _ Hrun)
      as (added & Htable & Hreq & Hscan & Hequip & Hdate & Hrows & Hlen & Hkeys).
    unfold insert_ignore in Hp.
    destruct (row_of_params p) as [row|] eqn:Hrow; [|done].
    injection Hp as <-. cbn in *.
    destruct (key_present (unique_key row) (tb_combined_data db)) eqn:Hpresent;
      cbn in Htable, Hkeys.
    + exists added. repeat split; try done.
      * eapply Forall_impl; [exact Hrows|]. intros r (q & Hq & Hr).
        exists q. split; [by right|done].
      * lia.
    + exists (row :: added). rewrite Htable, <- app_assoc.
      repeat split; try done.
      * constructor.
        -- exists p. split; [left|done].
        -- eapply Forall_impl; [exact Hrows|]. intros r (q & Hq & Hr).
           exists q. split; [by right|done].
      * cbn. lia.
      * intros Hnodup. rewrite app_assoc, <- Htable. apply Hkeys.
        rewrite fmap_app. apply NoDup_app. split; [done|]. split.
        -- intros k Hk Hk'. apply list_elem_of_singleton in Hk' as ->.
           unfold key_present in Hpresent.
           by apply bool_decide_eq_false in Hpresent.
        -- apply NoDup_singleton.
Qed.

(** The row of a parameter tuple of the writer's batch. *)
Lemma build_params_row (conveyor_time : datetime) (code_data : code_tuple)
    (status_records : list (pyval * time_value)) (p : insert_params)
    (row : combined_row) :
  p ∈ build_params conveyor_time code_data status_records →
  row_of_params p = Some row →
  decoded_row row
  ∧ cd_conveyor_timestamp row = Some (to_DATETIME conveyor_time)
  ∧ cd_product_code row = code_data.1.1.2
  ∧ cd_operator_id row = code_data.1.2
  ∧ cd_work_order row = code_data.2
  ∧ cd_code_description row = get_code_description code_data.1.1.2
  ∧ ∃ record, record ∈ status_records ∧ cd_status_field row = record.1.
Proof.
  destruct code_data as [[[scanner_timestamp product_code] operator_id]
                           work_order].
  unfold build_params. intros Hp Hrow.
  apply list_elem_of_fmap in Hp as (record & -> & Hrecord).
  unfold row_of_params in Hrow. cbn in Hrow.
  destruct (sql_time_param scanner_timestamp); [|done].
  destruct (sql_time_param record.2); [|done].
  injection Hrow as <-. unfold decoded_row. cbn.
  repeat split. by exists record.
Qed.

(** X5.  Whatever it returns, the writer only appends rows to
    [tb_combined_data]: no other table and neither copy of the cursor
    changes, no row is altered or removed, and nothing at all is appended
    unless it returns [True].  Every appended row carries the trigger
    time, the fields of the code row, the catalogue description of its
    product code and the two decoded texts of its own [status_field].
    A table without two rows of one unique key stays so, and a table of
    decoded rows stays one.  (With the database type ['analytics'] of the
    batch not configured, as in credentials.py, a non-empty batch ends in
    the [ValueError] of [connect] and nothing is appended.) *)
Theorem writer_appends_decoded_rows (combined_data : combined_data_dict)
    (w : World) :
  let r := save_combined_data_centered_conveyor combined_data w in
  let db := database w in
  let db' := database (world_of r) in
  ∃ added,
    tb_combined_data db' = (tb_combined_data db ++ added)%list
    ∧ tb_conveyor_requests db' = tb_conveyor_requests db
    ∧ tb_product_scanner db' = tb_product_scanner db
    ∧ tb_equipment_records db' = tb_equipment_records db
    ∧ tb_processing_state db' = tb_processing_state db
    ∧ last_processed_time (world_of r) = last_processed_time w
    ∧ (result_of r ≠ Ok true → added = [])
    ∧ Forall (λ row,
                decoded_row row
                ∧ cd_conveyor_timestamp row
                  = Some (to_DATETIME (conveyor_time combined_data))
                ∧ cd_product_code row = (code_data combined_data).1.1.2
                ∧ cd_operator_id row = (code_data combined_data).1.2
                ∧ cd_work_order row = (code_data combined_data).2
                ∧ cd_code_description row
                  = get_code_description (code_data combined_data).1.1.2)
             added
    ∧ (NoDup (unique_key <$> tb_combined_data db) →
       NoDup (unique_key <$> tb_combined_data db'))
    ∧ (Forall decoded_row (tb_combined_data db) →
       Forall decoded_row (tb_combined_data db')).
Proof.
  cbv zeta.
  assert (Hnothing : ∀ o w',
            database w' = database w →
            last_processed_time w' = last_processed_time w →
            let db := database w in
            let db' := database (world_of (o, w')) in
            ∃ added : list combined_row,
              tb_combined_data db' = (tb_combined_data db ++ added)%list
              ∧ tb_conveyor_requests db' = tb_conveyor_requests db
              ∧ tb_product_scanner db' = tb_product_scanner db
              ∧ tb_equipment_records db' = tb_equipment_records db
              ∧ tb_processing_state db' = tb_processing_state db
              ∧ last_processed_time (world_of (o, w')) = last_processed_time w
              ∧ (result_of (o, w') ≠ Ok true → added = [])
              ∧ Forall (λ row,
                  decoded_row row
                  ∧ cd_conveyor_timestamp row
                    = Some (to_DATETIME (conveyor_time combined_data))
                  ∧ cd_product_code row = (code_data combined_data).1.1.2
                  ∧ cd_operator_id row = (code_data combined_data).1.2
                  ∧ cd_work_order row = (code_data combined_data).2
                  ∧ cd_code_description row
                    = get_code_description (code_data combined_data).1.1.2)
                  added
              ∧ (NoDup (unique_key <$> tb_combined_data db) →
                 NoDup (unique_key <$> tb_combined_data db'))
              ∧ (Forall decoded_row (tb_combined_data db) →
                 Forall decoded_row (tb_combined_data db'))).
  { intros o w' Hdb Hcur. cbn. rewrite Hdb. exists [].
    rewrite app_nil_r. repeat split; try done. }
  rewrite save_combined_data_cases.
  destruct (equipment_data combined_data !! "status_records")
    as [[|record records]|]; [by apply Hnothing| |by apply Hnothing].
  cbv zeta. destruct (configured "analytics"); [|by apply Hnothing].
  destruct (default true (head (outcomes w))); [|by apply Hnothing].
  destruct (executemany insert_ignore _ (database w)) as [db'|] eqn:Hrun;
    [|by apply Hnothing].
  destruct (executemany_insert_ignore_appends _ _ _ Hrun)
    as (added & Htable & Hreq & Hscan & Hequip & Hdate & Hrows & Hlen & Hkeys).
  assert (Hadded : Forall (λ row,
            decoded_row row
            ∧ cd_conveyor_timestamp row
              = Some (to_DATETIME (conveyor_time combined_data))
            ∧ cd_product_code row = (code_data combined_data).1.1.2
            ∧ cd_operator_id row = (code_data combined_data).1.2
            ∧ cd_work_order row = (code_data combined_data).2
            ∧ cd_code_description row
              = get_code_description (code_data combined_data).1.1.2) added).
  { eapply Forall_impl; [exact Hrows|]. intros row (p & Hp & Hrow).
    destruct (build_params_row _ _ _ _ _ Hp Hrow)
      as (H1 & H2 & H3 & H4 & H5 & H6 & _). done. }
  exists added. cbn.
  split; [done|]. split; [done|]. split; [done|]. split; [done|].
  split; [exact (executemany_insert_ignore_state _ _ _ Hrun)|].
  split; [done|]. split; [done|]. split; [done|]. split; [done|].
  intros Hold. rewrite Htable. apply Forall_app. split; [done|].
  eapply Forall_impl; [exact Hadded|]. by intros row [Hrow _].
Qed.

(* ===================================================================== *)
(** * Further properties: the poll for new triggers *)
(* ===================================================================== *)

Lemma build_conveyor_query_cases (w : World) :
  _build_conveyor_query w =
    match last_processed_time w with
    | None =>
        (Ok select_conveyor_today,
         add_log (INFO, SearchingFromStartOfDay) w)
    | Some last =>
        (Ok (select_conveyor_after (add_minutes last (-5))),
         add_log (INFO, SearchingAfter (add_minutes last (-5))) w)
    end.
Proof.
  unfold _build_conveyor_query, bind, get_world.
  by destruct (last_processed_time w).
Qed.

(** The comprehension that filters the fetched rows by the cursor is pure;
    it raises when some row does not convert, and otherwise keeps the rows
    that are not before the cursor. *)
Lemma filter_by_cursor_cases (last_dt : datetime) (rows : list time_value)
    (w : World) :
  ∃ r,
    filter_M (λ row, t <- lift (_convert_to_datetime row) ;;;
                     ret (bool_decide (dt_le last_dt t)))
             rows w = (r, w)
    ∧ (∀ x e, x ∈ rows → _convert_to_datetime x = Raise e → ∃ e', r = Raise e')
    ∧ (∀ kept x, r = Ok kept →
         (x ∈ kept ↔ x ∈ rows ∧ ∃ t, _convert_to_datetime x = Ok t
                                      ∧ dt_le last_dt t)).
Proof.
  induction rows as [|row rows IH]; cbn [filter_M].
  - exists (Ok []). split; [done|]. split.
    + intros x e Hx. by apply elem_of_nil in Hx.
    + intros kept x [= <-]. split.
      * intros Hx. by apply elem_of_nil in Hx.
      * intros [Hx _]. by apply elem_of_nil in Hx.
  - destruct IH as (r & Hrun & Hraise & Hkept).
    unfold bind at 1. unfold bind at 1. unfold lift at 1.
    destruct (_convert_to_datetime row) as [t|e] eqn:Hconv.
    2: { exists (Raise e). split; [done|]. split; [by eauto|].
         intros kept x [=]. }
    unfold ret at 1. unfold bind at 1. rewrite Hrun.
    destruct r as [kept0|e].
    2: { exists (Raise e). split; [done|]. split; [by eauto|].
         intros kept x [=]. }
    eexists. split; [reflexivity|]. split.
    + intros x e [->|Hx]%elem_of_cons Hx'; [congruence|].
      destruct (Hraise x e Hx Hx') as (e' & [=]).
    + intros kept x [= <-].
      destruct (bool_decide (dt_le last_dt t)) eqn:Hle.
      * apply bool_decide_eq_true in Hle.
        rewrite !elem_of_cons, (Hkept kept0 x eq_refl). split.
        -- intros [->|[Hx Ht]]; [|by auto].
           split; [by left|]. by exists t.
        -- intros [[->|Hx] Ht]; [by left|by right].
      * apply bool_decide_eq_false in Hle.
        rewrite elem_of_cons, (Hkept kept0 x eq_refl). split.
        -- intros [Hx Ht]. by auto.
        -- intros [[->|Hx] (t' & Ht' & Hle')]; [|by eauto].
           rewrite Hconv in Ht'. injection Ht' as <-. done.
Qed.

(** With rows that the connector renders readably, the comprehension is the
    filter by the cursor. *)
Lemma filter_by_cursor_readable (last_dt : datetime) (ds : list datetime)
    (w : World) :
  (∀ d, d ∈ ds → _convert_to_datetime (connector_time d) = Ok d) →
  filter_M (λ row, t <- lift (_convert_to_datetime row) ;;;
                   ret (bool_decide (dt_le last_dt t)))
           (connector_time <$> ds) w
  = (Ok (connector_time <$> filter (λ t, dt_le last_dt t) ds), w).
Proof.
  induction ds as [|d ds IH]; intros Hconn; [done|].
  cbn [fmap list_fmap filter_M].
  unfold bind at 1. unfold bind at 1. unfold lift at 1.
  rewrite (Hconn d) by left. unfold ret at 1. unfold bind at 1.
  change (list_fmap datetime time_value connector_time ds)
    with (connector_time <$> ds).
  rewrite IH by (intros d' Hd'; apply Hconn; by right).
  rewrite filter_cons. unfold ret.
  destruct (decide (dt_le last_dt d)) as [Hle|Hle].
  - by rewrite bool_decide_eq_true_2.
  - by rewrite bool_decide_eq_false_2.
Qed.

(** The poll, case by case. *)
Lemma get_new_conveyor_requests_cases (w : World) :
  get_new_conveyor_requests w =
    let failed w1 :=
      (Ok [],
       add_log (INFO, FoundRequests 0 0)
         (add_log (ERROR, ExecutorError "equipment") (after_call w1))) in
    match last_processed_time w with
    | None =>
        let w1 := add_log (INFO, SearchingFromStartOfDay) w in
        if default true (head (outcomes w)) then
          let rows := select_conveyor_today (database w) in
          (Ok rows,
           add_log (INFO, FoundRequests (length rows) (length rows))
             (after_call w1))
        else failed w1
    | Some last =>
        let search_time := add_minutes last (-5) in
        let w1 := add_log (INFO, SearchingAfter search_time) w in
        if default true (head (outcomes w)) then
          let rows := select_conveyor_after search_time (database w) in
          match
            filter_M (λ row, t <- lift (_convert_to_datetime row) ;;;
                             ret (bool_decide (dt_le last t)))
                     rows (after_call w1)
          with
          | (Ok filtered, _) =>
              (Ok filtered,
               add_log (INFO, FoundRequests (length rows) (length filtered))
                 (after_call w1))
          | (Raise e, _) =>
              (Ok [], add_log (ERROR, ErrorGettingRequests) (after_call w1))
          end
        else failed w1
    end.
Proof.
  unfold get_new_conveyor_requests.
  unfold bind at 1. unfold get_world at 1. cbv zeta.
  destruct (last_processed_time w) as [last|] eqn:Hlast.
  - erewrite bind_Ok by reflexivity.
    erewrite bind_Ok by (rewrite build_conveyor_query_cases, Hlast; reflexivity).
    unfold try_except. unfold bind at 1. rewrite execute_query_cases.
    change (outcomes (add_log _ w)) with (outcomes w).
    destruct (default true (head (outcomes w))); [|done].
    cbn [default].
    destruct (filter_by_cursor_cases last
                (select_conveyor_after (add_minutes last (-5))
                   (database (add_log (INFO, SearchingAfter
                                               (add_minutes last (-5))) w)))
                (after_call (add_log (INFO, SearchingAfter
                                              (add_minutes last (-5))) w)))
      as (r & Hrun & _).
    change (database (add_log _ w)) with (database w) in Hrun.
    change (database (add_log _ w)) with (database w).
    unfold id. unfold bind at 1. rewrite Hrun. by destruct r.
  - erewrite bind_Ok by reflexivity.
    erewrite bind_Ok by (rewrite build_conveyor_query_cases, Hlast; reflexivity).
    unfold try_except. unfold bind at 1. rewrite execute_query_cases.
    change (outcomes (add_log _ w)) with (outcomes w).
    by destruct (default true (head (outcomes w))).
Qed.

(** X6.  The poll for new triggers never raises and changes no table,
    cursor or set.  It returns the empty list when the query fails, and,
    with a cursor, also when one fetched trigger time (any stored trigger
    later than five minutes before the cursor) cannot be read: the error
    is logged and every row of the poll is dropped. *)
Theorem poll_never_raises (w : World) :
  ∃ reqs w',
    get_new_conveyor_requests w = (Ok reqs, w')
    ∧ read_only w w'
    ∧ (head (outcomes w) = Some false → reqs = [])
    ∧ (∀ last d e,
         last_processed_time w = Some last → next_up w →
         d ∈ tb_conveyor_requests (database w) →
         dt_lt (add_minutes last (-5)) d →
         _convert_to_datetime (connector_time d) = Raise e →
         reqs = [] ∧ (ERROR, ErrorGettingRequests) ∈ log w').
Proof.
  rewrite get_new_conveyor_requests_cases. cbv zeta.
  destruct (last_processed_time w) as [last|] eqn:Hlast.
  - destruct (default true (head (outcomes w))) eqn:Hup.
    + destruct (filter_by_cursor_cases last
                  (select_conveyor_after (add_minutes last (-5)) (database w))
                  (after_call (add_log (INFO, SearchingAfter
                                                (add_minutes last (-5))) w)))
        as (r & Hrun & Hraise & _).
      rewrite Hrun. destruct r as [filtered|e0].
      * eexists _, _. split; [reflexivity|]. split; [done|]. split.
        { intros Hdown. rewrite (head_false_default _ Hdown) in Hup. done. }
        intros last' d e [= <-] _ Hd Hafter Hconv.
        destruct (Hraise (connector_time d) e) as (e' & [=]); [|done].
        unfold select_conveyor_after. apply list_elem_of_fmap.
        exists d. split; [done|]. rewrite merge_sort_Permutation.
        by apply list_elem_of_filter.
      * eexists _, _. split; [reflexivity|]. split; [done|]. split; [done|].
        intros last' d e _ _ _ _ _. split; [done|]. cbn.
        apply elem_of_app. right. left.
    + eexists _, _. split; [reflexivity|]. split; [done|]. split; [done|].
      intros last' d e _ Hnext. apply next_up_head in Hnext. congruence.
  - destruct (default true (head (outcomes w))) eqn:Hup.
    + eexists _, _. split; [reflexivity|]. split; [done|]. split.
      { intros Hdown. rewrite (head_false_default _ Hdown) in Hup. done. }
      intros last d e [=].
    + eexists _, _. split; [reflexivity|]. split; [done|]. split; [done|].
      intros last d e [=].
Qed.

Lemma StronglySorted_filter {A} (R : relation A) (P : A → Prop)
    `{∀ x, Decision (P x)} (l : list A) :
  StronglySorted R l → StronglySorted R (filter P l).
Proof.
  induction 1 as [|x l Hsorted IH Hx]; [constructor|].
  rewrite filter_cons. destruct (decide (P x)); [|done].
  constructor; [done|]. apply Forall_forall. intros y Hy.
  apply list_elem_of_filter in Hy as [_ Hy].
  rewrite Forall_forall in Hx. by apply Hx.
Qed.

(** X7.  When the query succeeds, the poll returns, in ascending order,
    exactly the stored triggers that are not before the cursor (the
    trigger at the cursor itself is returned again by every poll); the
    five minutes the query looks back before the cursor do not show in the
    result.  Without a cursor it returns the triggers of the server's
    current day. *)
Theorem poll_returns_triggers_from_cursor (w : World) (Hup : next_up w) :
  (∀ last,
     last_processed_time w = Some last →
     (∀ d, d ∈ tb_conveyor_requests (database w) →
           _convert_to_datetime (connector_time d) = Ok d) →
     ∃ ds w',
       get_new_conveyor_requests w = (Ok (connector_time <$> ds), w')
       ∧ StronglySorted dt_le ds
       ∧ ds ≡ₚ filter (λ t, dt_le last t) (tb_conveyor_requests (database w)))
  ∧ (last_processed_time w = None →
     ∃ ds w',
       get_new_conveyor_requests w = (Ok (connector_time <$> ds), w')
       ∧ StronglySorted dt_le ds
       ∧ ds ≡ₚ filter (λ t, DATE t = CURDATE (database w))
                 (tb_conveyor_requests (database w))).
Proof.
  apply next_up_head in Hup. split.
  - intros last Hlast Hconn.
    rewrite get_new_conveyor_requests_cases, Hlast. cbv zeta. rewrite Hup.
    unfold select_conveyor_after.
    pose proof (conveyor_query_sorted (λ t, dt_lt (add_minutes last (-5)) t)
                  (database w)) as [Hsorted Hsub].
    rewrite filter_by_cursor_readable by (intros d Hd; by apply Hconn, Hsub).
    eexists _, _. split; [reflexivity|].
    split; [by apply StronglySorted_filter|].
    rewrite merge_sort_Permutation, list_filter_filter.
    apply reflexive_eq, list_filter_iff. intros t. split; [tauto|].
    intros Hle. split; [done|].
    unfold dt_lt, dt_le, add_minutes in *. cbn. lia.
  - intros Hlast.
    rewrite get_new_conveyor_requests_cases, Hlast. cbv zeta. rewrite Hup.
    unfold select_conveyor_today.
    eexists _, _. split; [reflexivity|]. split.
    + apply (conveyor_query_sorted (λ t, DATE t = CURDATE (database w))).
    + apply merge_sort_Permutation.
Qed.

(* ===================================================================== *)
(** * Further properties: the window of a trigger *)
(* ===================================================================== *)

(** X8.  The two window helpers agree and are pure: the end of the
    equipment window is the next trigger of the batch when there is one
    and ten minutes after the trigger otherwise, which is the end that the
    code search derives from [_get_next_conveyor_time]; both raise exactly
    when the next trigger time cannot be read, and never an [IndexError]:
    the index test keeps the lookup inside the list. *)
Theorem window_end_is_next_trigger (all_requests : list time_value)
    (index : nat) (conveyor_time : datetime) (w : World) :
  let next := _get_next_conveyor_time all_requests index w in
  world_of next = w
  ∧ result_of next ≠ Raise IndexError
  ∧ _calculate_end_time all_requests index conveyor_time w
    = (match result_of next with
       | Ok next_conveyor_time =>
           Ok (default (add_minutes conveyor_time 10) next_conveyor_time)
       | Raise e => Raise e
       end, w)
  ∧ (all_requests !! S index = None → result_of next = Ok None)
  ∧ (∀ x, all_requests !! S index = Some x →
          result_of next
          = match _convert_to_datetime x with
            | Ok t => Ok (Some t)
            | Raise e => Raise e
            end).
Proof.
  unfold _calculate_end_time, _get_next_conveyor_time, has_next. cbv zeta.
  replace (index + 1)%nat with (S index) by lia.
  destruct (all_requests !! S index) as [x|] eqn:Hx.
  - apply lookup_lt_Some in Hx as Hlt.
    rewrite bool_decide_eq_true_2 by lia.
    unfold list_get. rewrite Hx. unfold bind, ret, lift. cbn.
    assert (Hvalue : _convert_to_datetime x ≠ Raise IndexError).
    { unfold _convert_to_datetime, parse_time.
      destruct x as [s|d]; [|done].
      destruct (strptime s FMT_SECONDS); [done|].
      by destruct (strptime s FMT_FRACTION). }
    destruct (_convert_to_datetime x) as [t|e] eqn:Hconv; cbn.
    + repeat split; try done. intros x' [= <-]. by rewrite Hconv.
    + split; [done|]. split; [intros [= ->]; by apply Hvalue|]. split; [done|].
      split; [done|]. intros x' [= <-]. by rewrite Hconv.
  - apply lookup_ge_None in Hx.
    rewrite bool_decide_eq_false_2 by lia. cbn. repeat split; done.
Qed.

(* ===================================================================== *)
(** * Further properties: what a poll cycle of the wired system leaves
      unchanged *)
(* ===================================================================== *)

(** The three getters of the state manager leave the in-memory cursor as it
    is. *)
Lemma getter_keeps_memory (query : Database → option (option time_value))
    (w : World) :
  ∃ r w1,
    (result <- execute_query_one "Combined" query ;;; read_time_cell result) w
    = (r, w1)
    ∧ last_processed_time w1 = last_processed_time w.
Proof.
  unfold bind. rewrite execute_query_one_cases.
  assert (Hpure : ∀ result w', ∃ r, read_time_cell result w' = (r, w')).
  { intros [[cell|]|] w'; cbn; try by eexists.
    destruct (truthy cell); [|by eexists].
    destruct cell as [s|d]; [|by eexists].
    unfold bind, lift. destruct (parse_time s); by eexists. }
  destruct (default true (head (outcomes w))).
  - destruct (Hpure (query (database w)) (after_call w)) as [r Hr].
    rewrite Hr. by eexists _, _.
  - destruct (Hpure None
                (add_log (ERROR, ExecutorError "Combined") (after_call w)))
      as [r Hr].
    rewrite Hr. by eexists _, _.
Qed.

Section Frames.

(** A relation between the world before and the world after that holds
    across every log line other than the warning of an inconsistent state,
    across the consumption of outcomes and across a change of the no-code
    set. *)
Variable R : relation World.
Hypothesis R_refl : ∀ w, R w w.
Hypothesis R_trans : ∀ w1 w2 w3, R w1 w2 → R w2 w3 → R w1 w3.
Hypothesis R_log :
  ∀ l m w, (∀ t, m ≠ InconsistentState t) → R w (add_log (l, m) w).
Hypothesis R_outcomes : ∀ o w, R w (set_outcomes o w).
Hypothesis R_requests : ∀ s w, R w (set_requests_without_code s w).

Lemma preserves_ret {A} (a : A) : preserves R (ret a).
Proof. intros w. apply R_refl. Qed.

Lemma preserves_raise {A} (e : exn) : preserves R (raise (A:=A) e).
Proof. intros w. apply R_refl. Qed.

Lemma preserves_lift {A} (r : outcome A) : preserves R (lift r).
Proof. intros w. apply R_refl. Qed.

Lemma preserves_get_world : preserves R get_world.
Proof. intros w. apply R_refl. Qed.

Lemma preserves_bind {A B} (c : M A) (k : A → M B) :
  preserves R c → (∀ a, preserves R (k a)) → preserves R (bind c k).
Proof.
  intros Hc Hk w. unfold bind. specialize (Hc w).
  destruct (c w) as [[a|e] w1]; [|done].
  eapply R_trans; [exact Hc|apply Hk].
Qed.

Lemma preserves_try_except {A} (c : M A) (h : exn → M A) :
  preserves R c → (∀ e, preserves R (h e)) → preserves R (try_except c h).
Proof.
  intros Hc Hh w. unfold try_except. specialize (Hc w).
  destruct (c w) as [[a|e] w1]; [done|].
  eapply R_trans; [exact Hc|apply Hh].
Qed.

Lemma preserves_logger (l : level) (m : message) :
  (∀ t, m ≠ InconsistentState t) → preserves R (logger l m).
Proof. intros Hm w. by apply R_log. Qed.

Lemma preserves_requests_without_code (f : World → gset DATETIME) :
  preserves R (modify (λ w, set_requests_without_code (f w) w)).
Proof. intros w. apply R_requests. Qed.

Lemma preserves_next_outcome : preserves R next_outcome.
Proof.
  intros w. unfold next_outcome.
  destruct (outcomes w); [apply R_refl|apply R_outcomes].
Qed.

Lemma preserves_connect (db_type : string) : preserves R (connect db_type).
Proof.
  unfold connect.
  destruct (configured db_type);
    [apply preserves_next_outcome|apply preserves_raise].
Qed.

Lemma preserves_list_get {A} (l : list A) (i : nat) :
  preserves R (list_get l i).
Proof. intros w. unfold list_get. destruct (l !! i); apply R_refl. Qed.

Lemma preserves_dict_get {A} (d : gmap string A) (key : string) :
  preserves R (dict_get d key).
Proof. intros w. unfold dict_get. destruct (d !! key); apply R_refl. Qed.

Lemma preserves_for_each {A} (body : A → M unit) (l : list A) :
  (∀ x, preserves R (body x)) → preserves R (for_each body l).
Proof.
  intros Hbody. induction l as [|x l IH]; cbn [for_each].
  - apply preserves_ret.
  - apply preserves_bind; [apply Hbody|]. intros _. exact IH.
Qed.

Lemma preserves_filter_M {A} (test : A → M bool) (l : list A) :
  (∀ x, preserves R (test x)) → preserves R (filter_M test l).
Proof.
  intros Htest. induction l as [|x l IH]; cbn [filter_M].
  - apply preserves_ret.
  - apply preserves_bind; [apply Htest|]. intros keep.
    apply preserves_bind; [exact IH|]. intros kept. apply preserves_ret.
Qed.

Ltac preserve_steps :=
  repeat first
    [ apply preserves_ret
    | apply preserves_raise
    | apply preserves_lift
    | apply preserves_get_world
    | apply preserves_logger; intros ?; discriminate
    | apply preserves_requests_without_code
    | apply preserves_next_outcome
    | apply preserves_connect
    | apply preserves_list_get
    | apply preserves_dict_get
    | apply preserves_bind; [|intros ?]
    | apply preserves_try_except; [|intros ?]
    | apply preserves_filter_M; intros ?
    | match goal with
      | |- preserves _ (match ?x with _ => _ end) => destruct x
      | |- preserves _ (if ?x then _ else _) => destruct x
      | |- preserves _ (let _ := _ in _) => cbv zeta
      end ].

Lemma preserves_execute_query {Q} (db_type : string)
    (query : Database → list Q) :
  preserves R (execute_query db_type query).
Proof. unfold execute_query. preserve_steps. Qed.

Lemma preserves_execute_query_one {Q} (db_type : string)
    (query : Database → option Q) :
  preserves R (execute_query_one db_type query).
Proof. unfold execute_query_one. preserve_steps. Qed.

Lemma preserves_get_new_conveyor_requests :
  preserves R get_new_conveyor_requests.
Proof.
  unfold get_new_conveyor_requests, _build_conveyor_query.
  preserve_steps; apply preserves_execute_query.
Qed.

Lemma preserves_verify_complete_cycle (conveyor_time : datetime)
    (next_conveyor_time : option datetime) :
  preserves R (_verify_complete_cycle conveyor_time next_conveyor_time).
Proof.
  unfold _verify_complete_cycle. preserve_steps; apply preserves_execute_query.
Qed.

Lemma preserves_search_corresponding_code (conveyor_time : datetime)
    (next_conveyor_time : option datetime) :
  preserves R (_search_corresponding_code conveyor_time next_conveyor_time).
Proof.
  unfold _search_corresponding_code. cbv zeta.
  apply preserves_bind; [apply preserves_execute_query|].
  intros result. preserve_steps.
Qed.

Lemma preserves_get_equipment_data (start_time end_time : datetime) :
  preserves R (get_equipment_data_by_time_range start_time end_time).
Proof.
  unfold get_equipment_data_by_time_range.
  apply preserves_bind; [apply preserves_execute_query|].
  intros status_records. preserve_steps.
Qed.

(** A trigger of the wired system ends in the [ValueError] of the code
    search or, with a code matched, in the [KeyError] of the missing key,
    before anything is written. *)
Lemma preserves_wired_process_individual (conveyor_request : time_value)
    (all_requests : list time_value) (index : nat) :
  preserves R
    (_process_individual_conveyor_request get_equipment_data_by_time_range
       save_combined_data_centered_conveyor conveyor_request all_requests index).
Proof.
  unfold _process_individual_conveyor_request.
  apply preserves_bind; [preserve_steps|]. intros conveyor_time.
  apply preserves_bind.
  { destruct (bool_decide (0 < index)%nat); [|preserve_steps].
    apply preserves_bind; [preserve_steps|]. intros prev.
    apply preserves_bind; [preserve_steps|]. intros prev_conveyor_time.
    apply preserves_bind; [preserve_steps|]. intros current_conveyor_time.
    apply preserves_bind; [apply preserves_verify_complete_cycle|].
    intros complete. preserve_steps. }
  intros _.
  apply preserves_bind.
  { unfold _calculate_end_time. preserve_steps. }
  intros end_time.
  apply preserves_bind.
  { unfold _get_next_conveyor_time. preserve_steps. }
  intros next_conveyor_time.
  apply preserves_bind; [apply preserves_search_corresponding_code|].
  intros [code_data|]; [|preserve_steps].
  cbv zeta.
  apply preserves_bind; [preserve_steps|]. intros w0.
  apply preserves_bind; [preserve_steps|]. intros _.
  intros w.
  destruct (get_equipment_data_keys conveyor_time end_time w)
    as (status_records & w1 & Hget).
  erewrite bind_Ok by exact Hget.
  pose proof (preserves_get_equipment_data conveyor_time end_time w) as Hkeep.
  rewrite Hget in Hkeep. exact Hkeep.
Qed.

Lemma preserves_execute_processing_cycle : preserves R execute_processing_cycle.
Proof.
  unfold execute_processing_cycle, process_conveyor_requests.
  apply preserves_try_except; [|intros e; preserve_steps].
  apply preserves_bind; [|intros ?; preserve_steps].
  apply preserves_try_except; [|intros e; preserve_steps].
  apply preserves_bind; [apply preserves_get_new_conveyor_requests|].
  intros reqs. destruct reqs as [|x rest] eqn:Hreqs; [preserve_steps|].
  rewrite <- Hreqs. unfold process_new_conveyor_requests.
  destruct reqs; [preserve_steps|].
  apply preserves_bind; [preserve_steps|]. intros _.
  apply preserves_for_each. intros [i y].
  apply preserves_wired_process_individual.
Qed.

Lemma preserves_run_cycles (cycles : nat) : preserves R (run_cycles cycles).
Proof.
  induction cycles as [|n IH]; cbn [run_cycles]; [apply preserves_ret|].
  apply preserves_bind; [apply preserves_execute_processing_cycle|].
  intros _. exact IH.
Qed.

(** The same across the writes of the state manager: for a relation that
    also holds across a change of the database and of the in-memory
    cursor. *)
Hypothesis R_database : ∀ db w, R w (set_database db w).
Hypothesis R_cursor : ∀ t w, R w (set_last_processed_time t w).

Lemma preserves_set_database (db : Database) :
  preserves R (modify (set_database db)).
Proof. intros w. apply R_database. Qed.

Lemma preserves_set_last_processed_time (t : option datetime) :
  preserves R (modify (set_last_processed_time t)).
Proof. intros w. apply R_cursor. Qed.

Lemma preserves_execute_update (db_type : string)
    (statement : Database → option Database) :
  preserves R (execute_update db_type statement).
Proof.
  unfold execute_update. preserve_steps; apply preserves_set_database.
Qed.

Lemma preserves_persist_last_processed_time (last_time : option time_value) :
  preserves R (persist_last_processed_time last_time).
Proof.
  unfold persist_last_processed_time.
  destruct last_time as [t|]; [|apply preserves_ret].
  destruct (truthy t); [apply preserves_execute_update|apply preserves_ret].
Qed.

Lemma preserves_read_time_cell (result : option (option time_value)) :
  preserves R (read_time_cell result).
Proof. unfold read_time_cell. preserve_steps. Qed.

Lemma preserves_get_last_processed_time : preserves R get_last_processed_time.
Proof.
  unfold get_last_processed_time.
  apply preserves_bind; [apply preserves_execute_query_one|].
  intros result. apply preserves_read_time_cell.
Qed.

Lemma preserves_get_last_processed_time_from_conveyor_data :
  preserves R get_last_processed_time_from_conveyor_data.
Proof.
  unfold get_last_processed_time_from_conveyor_data.
  apply preserves_bind; [apply preserves_execute_query_one|].
  intros result. apply preserves_read_time_cell.
Qed.

Lemma preserves_get_last_processed_time_from_code_data :
  preserves R get_last_processed_time_from_code_data.
Proof.
  unfold get_last_processed_time_from_code_data.
  apply preserves_bind; [apply preserves_execute_query_one|].
  intros result. apply preserves_read_time_cell.
Qed.

(** [initialize_from_existing_data] as [initialize_system_state] calls it,
    with no cursor in memory: the branch that repairs an inconsistent
    state is not taken. *)
Lemma preserves_initialize_without_cursor (w : World) :
  last_processed_time w = None →
  R w (world_of (initialize_from_existing_data w)).
Proof.
  intros Hnone. unfold initialize_from_existing_data.
  pose proof (preserves_get_last_processed_time_from_conveyor_data w) as Hfirst.
  destruct (getter_keeps_memory select_max_conveyor w) as (r & w1 & Hrun & Hmem).
  fold get_last_processed_time_from_conveyor_data in Hrun.
  rewrite Hrun in Hfirst. unfold bind at 1. rewrite Hrun.
  destruct r as [last_conveyor_time|e]; [|exact Hfirst].
  unfold bind at 1. unfold get_world at 1. cbv zeta.
  rewrite Hmem, Hnone.
  eapply R_trans; [exact Hfirst|].
  generalize w1. change (preserves R
    (last_conveyor_time0 <- get_last_processed_time_from_conveyor_data ;;;
     match last_conveyor_time0 with
     | Some last =>
         logger INFO (InitializingFromConveyor last) ;;;
         persist_last_processed_time (Some (TDatetime last)) ;;;
         modify (set_last_processed_time (Some last)) ;;;
         ret (Some last)
     | None =>
         last_code_time <- get_last_processed_time_from_code_data ;;;
         match last_code_time with
         | Some last =>
             logger INFO (InitializingFromCode last) ;;;
             persist_last_processed_time (Some (TDatetime last)) ;;;
             modify (set_last_processed_time (Some last)) ;;;
             ret (Some last)
         | None =>
             logger INFO NoExistingData ;;;
             ret None
         end
     end)).
  apply preserves_bind;
    [apply preserves_get_last_processed_time_from_conveyor_data|].
  intros [last|].
  - apply preserves_bind; [preserve_steps|]. intros _.
    apply preserves_bind; [apply preserves_persist_last_processed_time|].
    intros _.
    apply preserves_bind; [apply preserves_set_last_processed_time|].
    intros _. apply preserves_ret.
  - apply preserves_bind;
      [apply preserves_get_last_processed_time_from_code_data|].
    intros [last|]; [|preserve_steps].
    apply preserves_bind; [preserve_steps|]. intros _.
    apply preserves_bind; [apply preserves_persist_last_processed_time|].
    intros _.
    apply preserves_bind; [apply preserves_set_last_processed_time|].
    intros _. apply preserves_ret.
Qed.

Lemma preserves_initialize_system_state : preserves R initialize_system_state.
Proof.
  intros w. unfold initialize_system_state.
  unfold bind at 1. unfold get_world at 1.
  destruct (last_processed_time w) as [t|] eqn:Hmem; [apply R_refl|].
  unfold bind.
  pose proof (preserves_initialize_without_cursor w Hmem) as Hinit.
  by destruct (initialize_from_existing_data w) as [[r|e] w1].
Qed.

Lemma preserves_main (cycles : nat) : preserves R (main cycles).
Proof.
  unfold main, ProcessingSystem__init__, StateManager__init__, run,
    initialize_system, show_initial_statistics, get_processing_statistics.
  apply preserves_bind.
  { apply preserves_bind; [apply preserves_get_last_processed_time|].
    intros t.
    apply preserves_bind; [apply preserves_set_last_processed_time|].
    intros _. preserve_steps. }
  intros _. apply preserves_bind.
  { apply preserves_try_except; [|intros e; preserve_steps].
    apply preserves_bind.
    { apply preserves_try_except; [|intros e; preserve_steps].
      apply preserves_bind; [apply preserves_execute_query_one|]. intros _.
      apply preserves_bind; [apply preserves_execute_query_one|]. intros _.
      apply preserves_ret. }
    intros _.
    apply preserves_bind; [apply preserves_initialize_system_state|].
    intros _. apply preserves_ret. }
  intros [|]; [|preserve_steps].
  apply preserves_bind; [apply preserves_run_cycles|].
  intros _. apply preserves_ret.
Qed.

End Frames.

Lemma untouched_refl (w : World) : untouched w w.
Proof. done. Qed.

Lemma untouched_trans (w1 w2 w3 : World) :
  untouched w1 w2 → untouched w2 w3 → untouched w1 w3.
Proof. intros [H1 H2] [H3 H4]. unfold untouched. by rewrite H3, H4. Qed.

Lemma try_except_returns {A} (c : M A) (h : exn → M A) :
  (∀ e, never_raises (h e)) → never_raises (try_except c h).
Proof.
  intros Hh w. unfold try_except.
  destruct (c w) as [[a|e] w1]; [by exists a|apply Hh].
Qed.

Lemma execute_processing_cycle_returns : never_raises execute_processing_cycle.
Proof. apply try_except_returns. intros e w. by exists false. Qed.

Lemma run_cycles_returns (cycles : nat) (w : World) :
  result_of (run_cycles cycles w) = Ok tt.
Proof.
  revert w. induction cycles as [|n IH]; intros w; [done|].
  cbn [run_cycles]. unfold bind.
  destruct (execute_processing_cycle_returns w) as [b Hb].
  destruct (execute_processing_cycle w) as [[b'|e] w1]; [apply IH|done].
Qed.

(** X9.  The poll cycles of the system as [ProcessingSystem.__init__] wires
    it (the data processor over the equipment data handler) never write to
    the tables of the reconciliation: after any number of cycles the
    triggers, the codes, the equipment samples, the combined records and
    the stored cursor, and the in-memory cursor, are as before.  As
    credentials.py configures the system, a trigger ends in the
    [ValueError] of the code search; with the type of the code search
    configured, a trigger without a code is skipped and a trigger with a
    code ends in the [KeyError] of the missing ['v24_records'] key before
    the writer is reached.  The cycle logs the error and returns. *)
Theorem wired_cycles_write_nothing (cycles : nat) (w : World) :
  let r := run_cycles cycles w in
  result_of r = Ok tt
  ∧ database (world_of r) = database w
  ∧ last_processed_time (world_of r) = last_processed_time w.
Proof.
  cbv zeta. split; [apply run_cycles_returns|].
  apply (preserves_run_cycles untouched untouched_refl untouched_trans);
    done.
Qed.

(* ===================================================================== *)
(** * Further properties: the cursor and the outcome of the save *)
(* ===================================================================== *)

Lemma advances_bind_result {A B} (T : datetime → Prop) (c : M A)
    (k : A → M B) :
  advances T c →
  (∀ a, (∃ w, result_of (c w) = Ok a) → advances T (k a)) →
  advances T (bind c k).
Proof.
  intros Hc Hk w. unfold bind. specialize (Hc w).
  destruct (c w) as [[a|e] w1] eqn:Hrun; [|exact Hc].
  eapply moved_trans; [exact Hc|]. apply Hk. exists w. by rewrite Hrun.
Qed.

(** X11.  For every equipment handler whose two methods leave the cursor
    alone: when the save never reports success and the fetched batch is
    never empty, processing a trigger moves neither copy of the cursor.
    The cursor is updated only after a save that returned [True] or for an
    empty batch. *)
Theorem failed_save_keeps_cursor
    (handler_get : datetime → datetime → M (gmap string (list (pyval * time_value))))
    (handler_save : combined_data_dict → M bool)
    (Hget : ∀ start_time end_time, keeps_cursor (handler_get start_time end_time))
    (Hsave : ∀ combined_data, keeps_cursor (handler_save combined_data))
    (Hfail : ∀ combined_data w,
               result_of (handler_save combined_data w) ≠ Ok true)
    (Hrows : ∀ start_time end_time w equipment_data,
               result_of (handler_get start_time end_time w) = Ok equipment_data →
               equipment_data !! "v24_records" ≠ Some [])
    (conveyor_request : time_value) (all_requests : list time_value)
    (index : nat) (w : World) :
  cursor_state
    (world_of (_process_individual_conveyor_request handler_get handler_save
                 conveyor_request all_requests index w))
  = cursor_state w.
Proof.
  enough (Hkeep : keeps_cursor
            (_process_individual_conveyor_request handler_get handler_save
               conveyor_request all_requests index)).
  { destruct (Hkeep w) as [Hsame|(t & [] & _)]. exact Hsame. }
  unfold keeps_cursor, _process_individual_conveyor_request.
  apply advances_bind; [frame_steps|]. intros conveyor_time.
  apply advances_bind; [frame_steps|]. intros _.
  apply advances_bind; [frame_steps|]. intros end_time.
  apply advances_bind; [frame_steps|]. intros next_conveyor_time.
  apply advances_bind; [frame_steps|]. intros [code_data|]; [|frame_steps].
  cbv zeta.
  apply advances_bind; [frame_steps|]. intros w0.
  apply advances_bind; [frame_steps|]. intros _.
  apply advances_bind_result; [apply Hget|].
  intros equipment_data [w1 Hdata]. apply Hrows in Hdata.
  apply advances_bind; [unfold _log_processing_info; frame_steps|]. intros _.
  unfold dict_get.
  destruct (equipment_data !! "v24_records") as [[|record records]|];
    [done| |apply advances_bind_result;
              [apply advances_raise|by intros a [w' [=]]]].
  apply advances_bind_result; [apply advances_ret|].
  intros v24_records [w' [= <-]].
  apply advances_bind_result.
  { apply advances_bind; [|intros saved; frame_steps].
    unfold _save_combined_data.
    apply advances_bind; [apply Hsave|intros saved; frame_steps]. }
  intros saved [w2 Hsaved].
  assert (saved = false) as ->; [|frame_steps].
  unfold _save_combined_data, bind in Hsaved.
  pose proof (Hfail {| conveyor_time := conveyor_time;
                       code_data := code_data;
                       equipment_data := equipment_data |} w2) as Hno.
  destruct (handler_save _ w2) as [[[|]|e] w3]; [done| |done].
  cbn in Hsaved. by injection Hsaved as <-.
Qed.

(* ===================================================================== *)
(** * Further properties: the cursor across a restart *)
(* ===================================================================== *)

(** X12.  What a restart resumes from.  After a successful
    [update_last_processed_time] with a [datetime], the constructor of a
    state manager reads back the second of that time: the in-memory cursor
    of the restarted system is the updated one cut to its whole second,
    and equals it exactly when the time had no microseconds. *)
Theorem restart_reads_persisted_second (d : datetime) (w : World)
    (Hup : all_up w)
    (Hconn : ∀ c w',
       read_time_cell (Some (Some (connector_time (of_DATETIME c)))) w'
       = (Ok (Some (of_DATETIME c)), w')) :
  let updated := update_last_processed_time (Some (TDatetime d)) w in
  let restarted := StateManager__init__ (world_of updated) in
  result_of updated = Ok true
  ∧ last_processed_time (world_of updated) = Some d
  ∧ result_of restarted = Ok tt
  ∧ last_processed_time (world_of restarted)
    = Some (of_DATETIME (dt_seconds d))
  ∧ (last_processed_time (world_of restarted)
     = last_processed_time (world_of updated)
     ↔ dt_microsecond d = 0).
Proof.
  cbv zeta. rewrite update_cases.
  destruct (persist_datetime_up d w Hup)
    as (w1 & Hpersist & Hrow & _ & _ & _ & Hup1).
  rewrite Hpersist. cbn [result_of world_of fst snd].
  set (w2 := add_log (INFO, TimeUpdated d)
               (set_last_processed_time (Some d) w1)).
  assert (Hget : get_last_processed_time w2
                 = (Ok (Some (of_DATETIME (dt_seconds d))), after_call w2)).
  { unfold get_last_processed_time. erewrite bind_Ok.
    2: { rewrite execute_query_one_cases.
         change (outcomes w2) with (outcomes w1).
         rewrite (all_up_head _ Hup1). reflexivity. }
    unfold select_last_processed_time.
    change (tb_processing_state (database w2)) with (durable_cursor w1).
    rewrite Hrow. apply Hconn. }
  unfold StateManager__init__. erewrite bind_Ok by exact Hget. cbn.
  split; [done|]. split; [done|]. split; [done|]. split; [done|].
  destruct d as [s us]. unfold of_DATETIME. cbn. split.
  - by intros [= ->].
  - by intros ->.
Qed.

Lemma no_new_inconsistency_refl (w : World) : no_new_inconsistency w w.
Proof. exists []. by rewrite app_nil_r. Qed.

Lemma no_new_inconsistency_trans (w1 w2 w3 : World) :
  no_new_inconsistency w1 w2 → no_new_inconsistency w2 w3 →
  no_new_inconsistency w1 w3.
Proof.
  intros (a1 & H1 & Hall1) (a2 & H2 & Hall2). exists (a1 ++ a2)%list.
  rewrite H2, H1, app_assoc. split; [done|]. by apply Forall_app.
Qed.

Lemma no_new_inconsistency_log (l : level) (m : message) (w : World) :
  (∀ t, m ≠ InconsistentState t) → no_new_inconsistency w (add_log (l, m) w).
Proof.
  intros Hm. exists [(l, m)]. split; [done|].
  constructor; [|done]. intros t [= _ ->]. by apply (Hm t).
Qed.

(** X10.  Whatever the database holds and whichever calls fail, a run of
    [main] only appends to the log and never logs the warning of an
    inconsistent state: [initialize_from_existing_data] is reached only
    with no cursor in memory, where its repairing branch is not taken,
    and the poll cycles do not call it. *)
Theorem main_never_repairs_cursor (cycles : nat) (w : World) :
  ∃ added,
    log (world_of (main cycles w)) = (log w ++ added)%list
    ∧ Forall (λ r, ∀ t, r ≠ (WARNING, InconsistentState t)) added.
Proof.
  apply (preserves_main no_new_inconsistency no_new_inconsistency_refl
           no_new_inconsistency_trans no_new_inconsistency_log);
    intros; exists []; cbn; by rewrite app_nil_r.
Qed.

(* ===================================================================== *)
(** * Further properties: what start-up and the run survive *)
(* ===================================================================== *)

Lemma never_raises_ret {A} (a : A) : never_raises (ret a).
Proof. intros w. by exists a. Qed.

Lemma never_raises_bind {A B} (c : M A) (k : A → M B) :
  never_raises c → (∀ a, never_raises (k a)) → never_raises (bind c k).
Proof.
  intros Hc Hk w. unfold bind. destruct (Hc w) as [a Ha].
  destruct (c w) as [[a'|e] w1]; [apply Hk|done].
Qed.

Lemma never_raises_logger (l : level) (m : message) : never_raises (logger l m).
Proof. intros w. by exists tt. Qed.

Lemma never_raises_modify (f : World → World) : never_raises (modify f).
Proof. intros w. by exists tt. Qed.

Lemma never_raises_get_world : never_raises get_world.
Proof. intros w. by exists w. Qed.

Lemma never_raises_execute_query_one {Q} (query : Database → option Q) :
  never_raises (execute_query_one "Combined" query).
Proof.
  intros w. rewrite execute_query_one_cases.
  destruct (default true (head (outcomes w))); by eexists.
Qed.

Lemma never_raises_persist (last_time : option time_value) :
  never_raises (persist_last_processed_time last_time).
Proof.
  intros w. destruct last_time as [t|]; [|by exists false].
  rewrite persist_cases. destruct (truthy t); [|by eexists].
  destruct (default true (head (outcomes w))); [|by eexists].
  destruct (upsert_state t (database w)); by eexists.
Qed.

Lemma then_ret {A B} (c : M A) (b : B) (w : World) :
  never_raises c → result_of ((c ;;; ret b) w) = Ok b.
Proof.
  intros Hc. unfold bind. destruct (Hc w) as [a Ha].
  by destruct (c w) as [[a'|e] w1].
Qed.

Section DatetimeConnector.

(** The connector hands every temporal cell over as a [datetime] object,
    as the MariaDB connector does for [DATETIME] and [TIMESTAMP]
    columns. *)
Hypothesis connector_datetime : ∀ d, ∃ d', connector_time d = TDatetime d'.

Lemma never_raises_read_time_cell (cell : option datetime) :
  never_raises (read_time_cell (Some (connector_time <$> cell))).
Proof.
  intros w. destruct cell as [d|]; [|by exists None].
  cbn. destruct (connector_datetime d) as [d' ->]. by exists (Some d').
Qed.

Lemma never_raises_get_last_processed_time :
  never_raises get_last_processed_time.
Proof.
  intros w. unfold get_last_processed_time, bind.
  rewrite execute_query_one_cases.
  destruct (default true (head (outcomes w))); [|by exists None].
  unfold select_last_processed_time.
  destruct (tb_processing_state (database w)) as [c|]; [|by exists None].
  apply (never_raises_read_time_cell (Some (of_DATETIME c))).
Qed.

Lemma never_raises_get_from_conveyor_data :
  never_raises get_last_processed_time_from_conveyor_data.
Proof.
  intros w. unfold get_last_processed_time_from_conveyor_data, bind.
  rewrite execute_query_one_cases.
  destruct (default true (head (outcomes w))); [|by exists None].
  unfold select_max_conveyor. rewrite option_fmap_compose.
  apply never_raises_read_time_cell.
Qed.

Lemma never_raises_get_from_code_data :
  never_raises get_last_processed_time_from_code_data.
Proof.
  intros w. unfold get_last_processed_time_from_code_data, bind.
  rewrite execute_query_one_cases.
  destruct (default true (head (outcomes w))); [|by exists None].
  unfold select_max_code. rewrite option_fmap_compose.
  apply never_raises_read_time_cell.
Qed.

Lemma never_raises_initialize_from_existing_data :
  never_raises initialize_from_existing_data.
Proof.
  assert (Hset : ∀ l m last,
            never_raises
              (logger l m ;;;
               persist_last_processed_time (Some (TDatetime last)) ;;;
               modify (set_last_processed_time (Some last)) ;;;
               ret (Some last))).
  { intros l m last.
    apply never_raises_bind; [apply never_raises_logger|]. intros _.
    apply never_raises_bind; [apply never_raises_persist|]. intros _.
    apply never_raises_bind; [apply never_raises_modify|]. intros _.
    apply never_raises_ret. }
  unfold initialize_from_existing_data.
  apply never_raises_bind; [apply never_raises_get_from_conveyor_data|].
  intros last_conveyor_time.
  apply never_raises_bind; [apply never_raises_get_world|]. intros w0.
  cbv zeta.
  assert (Hotherwise : never_raises
    (last_conveyor_time0 <- get_last_processed_time_from_conveyor_data ;;;
     match last_conveyor_time0 with
     | Some last =>
         logger INFO (InitializingFromConveyor last) ;;;
         persist_last_processed_time (Some (TDatetime last)) ;;;
         modify (set_last_processed_time (Some last)) ;;;
         ret (Some last)
     | None =>
         last_code_time <- get_last_processed_time_from_code_data ;;;
         match last_code_time with
         | Some last =>
             logger INFO (InitializingFromCode last) ;;;
             persist_last_processed_time (Some (TDatetime last)) ;;;
             modify (set_last_processed_time (Some last)) ;;;
             ret (Some last)
         | None =>
             logger INFO NoExistingData ;;;
             ret None
         end
     end)).
  { apply never_raises_bind; [apply never_raises_get_from_conveyor_data|].
    intros [last|]; [apply Hset|].
    apply never_raises_bind; [apply never_raises_get_from_code_data|].
    intros [last|]; [apply Hset|].
    apply never_raises_bind; [apply never_raises_logger|]. intros _.
    apply never_raises_ret. }
  destruct (last_processed_time w0) as [cur|]; [|exact Hotherwise].
  destruct last_conveyor_time as [last|]; [|exact Hotherwise].
  destruct (bool_decide (dt_lt last cur)); [apply Hset|exact Hotherwise].
Qed.

Lemma initialize_system_returns_True (w : World) :
  result_of (initialize_system w) = Ok true.
Proof.
  unfold initialize_system, try_except.
  assert (Hinner : result_of
            ((show_initial_statistics ;;; initialize_system_state ;;; ret true)
               w) = Ok true).
  { unfold bind at 1.
    assert (Hshow : never_raises show_initial_statistics).
    { apply try_except_returns. intros e. apply never_raises_ret. }
    destruct (Hshow w) as [u Hu].
    destruct (show_initial_statistics w) as [[u'|e] w1]; [|done].
    apply then_ret. unfold initialize_system_state.
    apply never_raises_bind; [apply never_raises_get_world|]. intros w0.
    destruct (last_processed_time w0); [apply never_raises_ret|].
    apply never_raises_bind;
      [apply never_raises_initialize_from_existing_data|].
    intros _. apply never_raises_ret. }
  destruct ((show_initial_statistics ;;; initialize_system_state ;;; ret true) w)
    as [[b|e] w1]; [|done].
  cbn in Hinner. by injection Hinner as ->.
Qed.

(** X13.  With a connector that hands over [datetime] objects, [main]
    returns [True] whatever the database holds and whichever connections
    and statements fail: the state manager is built, the initialisation
    succeeds and every poll cycle returns.  Only a stored timestamp that
    arrives as unreadable text can stop the system. *)
Theorem datetime_connector_never_fatal (cycles : nat) (w : World) :
  result_of (main cycles w) = Ok true.
Proof.
  unfold main, ProcessingSystem__init__, StateManager__init__.
  unfold bind at 1.
  assert (Hinit : never_raises
            (t <- get_last_processed_time ;;;
             modify (set_last_processed_time t) ;;;
             logger INFO (LastProcessedTime t))).
  { apply never_raises_bind; [apply never_raises_get_last_processed_time|].
    intros t.
    apply never_raises_bind; [apply never_raises_modify|]. intros _.
    apply never_raises_logger. }
  destruct (Hinit w) as [u Hu].
  destruct ((t <- get_last_processed_time ;;;
             modify (set_last_processed_time t) ;;;
             logger INFO (LastProcessedTime t)) w) as [[u'|e] w1]; [|done].
  unfold run, bind at 1.
  pose proof (initialize_system_returns_True w1) as Htrue.
  destruct (initialize_system w1) as [[b|e] w2]; [|done].
  cbn in Htrue. injection Htrue as ->.
  apply then_ret. intros w3. exists tt. apply run_cycles_returns.
Qed.

End DatetimeConnector.

(* ===================================================================== *)
(** * Further properties: the timestamps an initialisation starts from *)
(* ===================================================================== *)

(** [MAX] is [NULL] over no cell, and otherwise a greatest cell. *)
Lemma MAX_spec (cells : list DATETIME) :
  match MAX cells with
  | Some m => m ∈ cells ∧ ∀ c, c ∈ cells → c <= m
  | None => cells = []
  end.
Proof.
  induction cells as [|c cells IH]; [done|].
  change (MAX (c :: cells))
    with (Some (from_option (Z.max c) c (MAX cells))).
  destruct (MAX cells) as [m|]; cbn.
  - destruct IH as [Hin Hmax]. split.
    + destruct (Z.max_spec c m) as [[_ ->]|[_ ->]]; [by right|by left].
    + intros c' [->|Hc']%elem_of_cons; [lia|]. specialize (Hmax c' Hc'). lia.
  - subst cells. split; [by left|]. intros c' [->|Hc']%elem_of_cons; [lia|].
    by apply elem_of_nil in Hc'.
Qed.

(** X14.  With a reachable database and a connector that renders a stored
    second faithfully, the two getters that an initialisation starts from
    return the latest timestamp of the combined records: the greatest
    trigger timestamp among the rows that have one, and the greatest code
    timestamp of all rows; [None] exactly when no row has a trigger
    timestamp, and when the table is empty. *)
Theorem getters_return_latest_timestamp (w : World)
    (Hup : next_up w)
    (Hconn : ∀ c w',
       read_time_cell (Some (Some (connector_time (of_DATETIME c)))) w'
       = (Ok (Some (of_DATETIME c)), w')) :
  let table := tb_combined_data (database w) in
  (∃ r,
     get_last_processed_time_from_conveyor_data w = (Ok r, after_call w)
     ∧ match r with
       | Some t =>
           dt_microsecond t = 0
           ∧ (∃ row, row ∈ table
                     ∧ cd_conveyor_timestamp row = Some (dt_seconds t))
           ∧ (∀ row c, row ∈ table → cd_conveyor_timestamp row = Some c →
                       c <= dt_seconds t)
       | None => ∀ row, row ∈ table → cd_conveyor_timestamp row = None
       end)
  ∧ (∃ r,
       get_last_processed_time_from_code_data w = (Ok r, after_call w)
       ∧ match r with
         | Some t =>
             dt_microsecond t = 0
             ∧ (∃ row, row ∈ table ∧ cd_scanner_timestamp row = dt_seconds t)
             ∧ (∀ row, row ∈ table → cd_scanner_timestamp row <= dt_seconds t)
         | None => table = []
         end).
Proof.
  cbv zeta. apply next_up_head in Hup. split.
  - unfold get_last_processed_time_from_conveyor_data.
    erewrite bind_Ok by (rewrite execute_query_one_cases, Hup; reflexivity).
    unfold select_max_conveyor. rewrite read_max_cell by exact Hconn.
    eexists. split; [reflexivity|].
    pose proof (MAX_spec (omap cd_conveyor_timestamp
                            (tb_combined_data (database w)))) as Hmax.
    destruct (MAX _) as [m|]; cbn.
    + destruct Hmax as [Hin Hle]. split; [done|]. split.
      * apply list_elem_of_omap in Hin as (row & Hrow & Hm). by exists row.
      * intros row c Hrow Hc. apply Hle.
        apply list_elem_of_omap. by exists row.
    + intros row Hrow.
      destruct (cd_conveyor_timestamp row) as [c|] eqn:Hc; [|done].
      assert (Hin : c ∈ omap cd_conveyor_timestamp
                          (tb_combined_data (database w)))
        by (apply list_elem_of_omap; by exists row).
      rewrite Hmax in Hin. by apply elem_of_nil in Hin.
  - unfold get_last_processed_time_from_code_data.
    erewrite bind_Ok by (rewrite execute_query_one_cases, Hup; reflexivity).
    unfold select_max_code. rewrite read_max_cell by exact Hconn.
    eexists. split; [reflexivity|].
    pose proof (MAX_spec (cd_scanner_timestamp
                            <$> tb_combined_data (database w))) as Hmax.
    destruct (MAX _) as [m|]; cbn.
    + destruct Hmax as [Hin Hle]. split; [done|]. split.
      * apply list_elem_of_fmap in Hin as (row & Hm & Hrow). by exists row.
      * intros row Hrow. apply Hle. apply list_elem_of_fmap. by exists row.
    + by apply fmap_nil_inv in Hmax.
Qed.

End System.

(* ===================================================================== *)
(** * Properties of the status decoder *)
(* ===================================================================== *)

Section DecoderProperties.

Import process_decoder.

Lemma bit_active_testbit n p : 1 <= p -> bit_active n p = Z.testbit n (p - 1).
Proof.
  intros Hp. unfold bit_active.
  assert (Hland : Z.land n (Z.shiftl 1 (p - 1))
                  = if Z.testbit n (p - 1) then 2 ^ (p - 1) else 0).
  { apply Z.bits_inj'. intros i Hi.
    rewrite Z.land_spec, Z.shiftl_spec by lia.
    destruct (decide (i = p - 1)) as [->|Hne].
    - rewrite Z.sub_diag. change (Z.testbit 1 0) with true. rewrite andb_true_r.
      destruct (Z.testbit n (p - 1)) eqn:E.
      + rewrite Z.pow2_bits_true by lia. done.
      + rewrite Z.bits_0. done.
    - assert (Z.testbit 1 (i - (p - 1)) = false) as ->.
      { destruct (Z.ltb_spec i (p - 1)).
        - apply Z.testbit_neg_r. lia.
        - replace 1 with (2 ^ 0) by reflexivity. apply Z.pow2_bits_false. lia. }
      rewrite andb_false_r.
      destruct (Z.testbit n (p - 1)).
      + rewrite Z.pow2_bits_false by lia. done.
      + rewrite Z.bits_0. done. }
  rewrite Hland. destruct (Z.testbit n (p - 1)); [|done].
  assert (0 < 2 ^ (p - 1)) by (apply Z.pow_pos_nonneg; lia).
  destruct (Z.eqb_spec (2 ^ (p - 1)) 0); [lia|done].
Qed.

Lemma first_active_testbit n :
  first_active n [6; 5; 4; 3; 2; 1] =
    if Z.testbit n 5 then Some (status_name 6)
    else if Z.testbit n 4 then Some (status_name 5)
    else if Z.testbit n 3 then Some (status_name 4)
    else if Z.testbit n 2 then Some (status_name 3)
    else if Z.testbit n 1 then Some (status_name 2)
    else if Z.testbit n 0 then Some (status_name 1)
    else None.
Proof.
  unfold first_active. rewrite !bit_active_testbit by lia. reflexivity.
Qed.

Lemma collect_active_filter n positions :
  Forall (λ p, 1 <= p) positions →
  collect_active n positions =
    status_name <$> filter (λ p, Z.testbit n (p - 1) = true) positions.
Proof.
  induction 1 as [|p ps Hp _ IH]; [done|].
  cbn [collect_active]. rewrite bit_active_testbit by done.
  rewrite filter_cons. destruct (Z.testbit n (p - 1)) eqn:E.
  - rewrite decide_True by done. cbn. by rewrite IH.
  - rewrite decide_False by done. done.
Qed.

(** C5. [decode_status_current] is a function of its input (it always
    returns): ['no_status'] for [None] and for a value equal to [0];
    ['invalid_value'] for any other value that [int()] rejects; for an
    integer [n] the name that [STATUS_BITS] gives the highest position [p]
    of 1..6 whose bit [p - 1] is set in [n], and ['no_status'] when none of
    these six bits is set, as for 64. *)
Theorem decode_status_current_highest_bit (int_of_str : string → option Z)
    (v : pyval) :
  let r := decode_status_current int_of_str v in
  (is_None v = true ∨ py_eq_zero v = true → r = "no_status")
  ∧ (is_None v = false → py_eq_zero v = false →
     py_int int_of_str v = None → r = "invalid_value")
  ∧ (∀ n, is_None v = false → py_eq_zero v = false →
     py_int int_of_str v = Some n →
       (∀ p, 1 <= p <= 6 → Z.testbit n (p - 1) = true →
             (∀ q, p < q <= 6 → Z.testbit n (q - 1) = false) →
             STATUS_BITS !! p = Some r)
       ∧ ((∀ p, 1 <= p <= 6 → Z.testbit n (p - 1) = false) → r = "no_status"))
  ∧ decode_status_current int_of_str (PyInt 64) = "no_status".
Proof.
  cbn zeta. unfold decode_status_current.
  split; [|split; [|split; [|reflexivity]]].
  - intros [-> | ->]; [done|]. by rewrite orb_true_r.
  - intros -> -> ->. done.
  - intros n Hnone_v Hzero Hint. split.
    + intros p Hp Hbit Hhigh. rewrite Hnone_v, Hzero, Hint. cbn [orb default].
    rewrite first_active_testbit.
    assert (Hh : ∀ j, p - 1 < j <= 5 → Z.testbit n j = false).
    { intros j Hj. replace j with ((j + 1) - 1) by lia. apply Hhigh. lia. }
    remember (p - 1) as k eqn:Hk.
    assert (k = 0 ∨ k = 1 ∨ k = 2 ∨ k = 3 ∨ k = 4 ∨ k = 5) as Hcases by lia.
    destruct Hcases as [-> | [-> | [-> | [-> | [-> | ->]]]]];
      rewrite ?(Hh 5), ?(Hh 4), ?(Hh 3), ?(Hh 2), ?(Hh 1) by lia;
      rewrite Hbit;
      [ replace p with 1 by lia | replace p with 2 by lia
      | replace p with 3 by lia | replace p with 4 by lia
      | replace p with 5 by lia | replace p with 6 by lia ];
      reflexivity.
    + intros Hnone. rewrite Hnone_v, Hzero, Hint. cbn [orb default].
      rewrite first_active_testbit.
    assert (Hn : ∀ j, 0 <= j <= 5 → Z.testbit n j = false).
    { intros j Hj. replace j with ((j + 1) - 1) by lia. apply Hnone. lia. }
    rewrite (Hn 5), (Hn 4), (Hn 3), (Hn 2), (Hn 1), (Hn 0) by lia.
    done.
Qed.

Lemma status_name_in_table (positions : list Z) :
  Forall (λ p, 1 <= p <= 6) positions →
  Forall2 (λ p name, STATUS_BITS !! p = Some name)
          positions (status_name <$> positions).
Proof.
  induction 1 as [|p ps Hp _ IH]; [constructor|].
  cbn [fmap list_fmap]. constructor; [|exact IH].
  assert (p = 1 ∨ p = 2 ∨ p = 3 ∨ p = 4 ∨ p = 5 ∨ p = 6) as Hcases by lia.
  destruct Hcases as [-> | [-> | [-> | [-> | [-> | ->]]]]]; reflexivity.
Qed.

(** C6. [decode_status_complete] is a function of its input (it always
    returns): ['no_states'] for [None] and for a value equal to [0];
    ['invalid_value'] for any other value that [int()] rejects; for an
    integer [n] the names that [STATUS_BITS] gives the positions of 1..6
    whose bit is set in [n], in ascending order of position and joined by
    one space, and ['no_states'] when none of these six bits is set, as for
    64: the bits beyond position 6 play no part. *)
Theorem decode_status_complete_all_bits (int_of_str : string → option Z)
    (v : pyval) :
  let r := decode_status_complete int_of_str v in
  (is_None v = true ∨ py_eq_zero v = true → r = "no_states")
  ∧ (is_None v = false → py_eq_zero v = false →
     py_int int_of_str v = None → r = "invalid_value")
  ∧ (∀ n, is_None v = false → py_eq_zero v = false →
     py_int int_of_str v = Some n →
       let set_bits := filter (λ p, Z.testbit n (p - 1) = true) [1; 2; 3; 4; 5; 6] in
       (set_bits = [] → r = "no_states")
       ∧ (set_bits ≠ [] →
            ∃ names, Forall2 (λ p name, STATUS_BITS !! p = Some name)
                             set_bits names
                     ∧ r = join_space names))
  ∧ decode_status_complete int_of_str (PyInt 64) = "no_states".
Proof.
  cbn zeta. unfold decode_status_complete.
  split; [|split; [|split; [|reflexivity]]].
  - intros [-> | ->]; [done|]. by rewrite orb_true_r.
  - intros -> -> ->. done.
  - intros n Hnone_v Hzero Hint. rewrite Hnone_v, Hzero, Hint. cbn [orb].
    rewrite collect_active_filter by (repeat constructor; lia).
    split.
    + intros ->. done.
    + intros Hne.
      exists (status_name <$> filter (λ p, Z.testbit n (p - 1) = true)
                                     [1; 2; 3; 4; 5; 6]).
      split.
      * apply status_name_in_table. apply Forall_forall.
        intros p [_ Hp]%list_elem_of_filter.
        assert (Hrange : Forall (λ p, 1 <= p <= 6) [1; 2; 3; 4; 5; 6])
          by (repeat constructor; lia).
        rewrite Forall_forall in Hrange. by apply Hrange.
      * destruct (filter _ _) eqn:E; [done|]. done.
Qed.

End DecoderProperties.

(* ===================================================================== *)
(** * The statements at concrete data *)
(* ===================================================================== *)

Abbreviation example_get deployment :=
  (get_equipment_data_by_time_range deployment object_connector).
Abbreviation example_get_v24 deployment :=
  (get_equipment_data_with_v24_records deployment object_connector).
Abbreviation example_save deployment :=
  (save_combined_data_centered_conveyor deployment no_text_int no_sql_text
     no_descriptions).
Abbreviation example_poll deployment handler_get :=
  (process_conveyor_requests deployment no_strptime object_connector
     no_sql_text handler_get (example_save deployment)).
Abbreviation example_cycle deployment :=
  (execute_processing_cycle deployment no_text_int no_strptime
     object_connector no_sql_text no_descriptions).
Abbreviation example_update :=
  (update_last_processed_time as_shipped no_strptime no_sql_text).
Abbreviation example_process_individual deployment :=
  (_process_individual_conveyor_request deployment no_strptime
     object_connector no_sql_text (example_get deployment)
     (example_save deployment)).

(** C1, at the failing input.  The trigger at 09:00:00 has its code (scanned
    at 09:00:05) in its window and no equipment sample there.  The poll of
    the system as credentials.py configures it does not get as far as the
    match: the code search asks for the database type ['scanner'], which is
    not configured, and [connect] raises [ValueError].  Nothing is written,
    neither copy of the cursor is set, and the cycle reports failure. *)
Theorem zero_samples_cycle_does_not_advance :
  let w := fresh_world db_zero_samples in
  let r := example_poll as_shipped (example_get as_shipped) w in
  select_code object_connector (at_second 32400)
    (add_minutes (at_second 32400) 10) db_zero_samples
  = [(TDatetime (at_second 32405), "P1", "operator-7", "WO-1")]
  ∧ select_equipment object_connector (at_second 32400)
      (add_minutes (at_second 32400) 10) db_zero_samples = []
  ∧ configured as_shipped "scanner" = false
  ∧ result_of r = Raise ValueError
  ∧ database (world_of r) = db_zero_samples
  ∧ cursor_state (world_of r) = (None, None)
  ∧ result_of (example_cycle as_shipped w) = Ok false
  ∧ database (world_of (example_cycle as_shipped w)) = db_zero_samples
  ∧ cursor_state (world_of (example_cycle as_shipped w)) = (None, None).
Proof. vm_compute. repeat split; reflexivity. Qed.

(** The same input in a deployment that configures ['scanner'] and
    ['analytics']: the code is matched, the handler returns its dictionary
    with the one key ['status_records'], and the processor raises
    [KeyError('v24_records')]; again neither copy of the cursor is set. *)
Example zero_samples_KeyError_when_configured :
  let w := fresh_world db_zero_samples in
  let r := example_poll with_scanner_and_analytics
             (example_get with_scanner_and_analytics) w in
  result_of r = Raise (KeyError "v24_records")
  ∧ database (world_of r) = db_zero_samples
  ∧ cursor_state (world_of r) = (None, None)
  ∧ result_of (example_cycle with_scanner_and_analytics w) = Ok false
  ∧ cursor_state (world_of (example_cycle with_scanner_and_analytics w))
    = (None, None).
Proof. vm_compute. repeat split; reflexivity. Qed.

(** In that deployment and with a handler that files the rows under
    ['v24_records'] as well, the same input goes the way the specification
    describes: nothing is written and both copies of the cursor are set to
    09:00:00. *)
Example zero_samples_advance_when_key_is_there :
  let w := fresh_world db_zero_samples in
  let r := example_poll with_scanner_and_analytics
             (example_get_v24 with_scanner_and_analytics) w in
  result_of r = Ok tt
  ∧ tb_combined_data (database (world_of r)) = []
  ∧ cursor_state (world_of r) = (Some 32400, Some (at_second 32400)).
Proof. vm_compute. repeat split; reflexivity. Qed.

(** C2, witness: a system whose stored cursor is 15:00:00 and whose
    in-memory cursor is unset, over a trigger at 09:00:00; after a cycle of
    the system as credentials.py configures it the stored cursor is not
    below 15:00:00. *)
Lemma persisted_cursor_non_decreasing_witness :
  cursor_state world_cursor_not_read = (Some 54000, None)
  ∧ cursor_le (Some 54000)
      (durable_cursor
         (world_of (example_cycle as_shipped world_cursor_not_read))).
Proof.
  split; [reflexivity|].
  exact (proj1 (proj2
    (persisted_cursor_non_decreasing as_shipped no_text_int no_strptime
       object_connector no_sql_text no_descriptions world_cursor_not_read))).
Defined.

(** From that world, in a deployment that configures ['scanner'] and
    ['analytics'] and with a handler that files the rows under
    ['v24_records'] as well, the poll works from the start of the day, and
    the cycle sets the stored cursor back from 15:00:00 to the trigger time
    09:00:00: for such a handler the order of the stored cursor rests on
    the in-memory cursor not being behind it. *)
Example stored_cursor_set_back_when_memory_is_unset :
  let r := example_poll with_scanner_and_analytics
             (example_get_v24 with_scanner_and_analytics)
             world_cursor_not_read in
  ¬ cursor_consistent world_cursor_not_read
  ∧ result_of r = Ok tt
  ∧ cursor_state (world_of r) = (Some 32400, Some (at_second 32400)).
Proof.
  cbn zeta. split; [|vm_compute; split; reflexivity].
  intros (m & Hm & _). discriminate Hm.
Qed.

(** C3, counterexample: the update with a time of half a second past
    10:00:00 succeeds; the row holds 10:00:00 and the attribute the full
    time, which is after the row. *)
Lemma update_leaves_memory_ahead_of_durable :
  let w := fresh_world (make_database [] [] [] None) in
  let t := {| dt_seconds := 36000; dt_microsecond := 500000 |} in
  let r := example_update (Some (TDatetime t)) w in
  memory_not_ahead w
  ∧ result_of r = Ok true
  ∧ durable_cursor (world_of r) = Some 36000
  ∧ last_processed_time (world_of r) = Some t
  ∧ dt_lt (of_DATETIME 36000) t
  ∧ ¬ memory_not_ahead (world_of r).
Proof.
  cbn zeta. split; [exact I|]. split; [reflexivity|]. split; [reflexivity|].
  split; [reflexivity|]. split; [right; cbn; lia|].
  intros (c & Hc & Hle). cbv in Hc. injection Hc as <-.
  unfold dt_le in Hle. cbn in Hle. lia.
Qed.

(** The writer as credentials.py configures the system: its database type
    ['analytics'] is not configured, a batch of two samples ends in the
    [ValueError] of [connect], and no row is written. *)
Example writer_batch_raises_as_shipped :
  configured as_shipped "analytics" = false
  ∧ example_save as_shipped (example_batch two_samples)
      (fresh_world db_three_samples)
    = (Raise ValueError, fresh_world db_three_samples).
Proof. split; reflexivity. Qed.

(** C4, witness: a batch of two samples written twice, in a deployment
    that configures the database type ['analytics'] of the writer. *)
Lemma writer_twice_same_rows_witness :
  result_of (example_save with_scanner_and_analytics
               (example_batch two_samples)
               (fresh_world db_three_samples)) = Ok true
  ∧ length (tb_combined_data (database (world_of
      (example_save with_scanner_and_analytics (example_batch two_samples)
         (world_of (example_save with_scanner_and_analytics
                      (example_batch two_samples)
                      (fresh_world db_three_samples)))))))
    = 2%nat.
Proof.
  split; [reflexivity|].
  rewrite (proj1 (proj2
    (writer_twice_same_rows with_scanner_and_analytics no_text_int no_sql_text
       no_descriptions (fresh_world db_three_samples)
       (example_batch two_samples) eq_refl))).
  reflexivity.
Defined.

(** C7, witness: the trigger at 09:00:00 with no code in its window, in the
    system as credentials.py configures it: the call raises, and no
    no-code warning is logged. *)
Lemma code_search_raises_before_skip_witness :
  configured as_shipped "scanner" = false
  ∧ select_code object_connector (at_second 32400)
      (add_minutes (at_second 32400) 10) db_no_code = []
  ∧ result_of (example_process_individual as_shipped
                 (TDatetime (at_second 32400))
                 [TDatetime (at_second 32400)] 0 (fresh_world db_no_code))
    = Raise ValueError
  ∧ requests_without_code
      (world_of (example_process_individual as_shipped
                   (TDatetime (at_second 32400))
                   [TDatetime (at_second 32400)] 0 (fresh_world db_no_code)))
    = ∅
  ∧ warnings_for (at_second 32400)
      (log (world_of (example_process_individual as_shipped
                        (TDatetime (at_second 32400))
                        [TDatetime (at_second 32400)] 0
                        (fresh_world db_no_code))))
    = 0%nat.
Proof.
  split; [reflexivity|]. split; [reflexivity|].
  pose proof (code_search_raises_before_skip as_shipped no_strptime
    object_connector no_sql_text (example_get as_shipped)
    (example_save as_shipped)
    (TDatetime (at_second 32400)) [TDatetime (at_second 32400)] 0
    (at_second 32400) None
    (fresh_world db_no_code)
    eq_refl eq_refl (or_introl eq_refl) (or_intror (conj eq_refl eq_refl)))
    as (Hresult & _ & _ & Hset & Hwarn).
  split; [exact Hresult|]. split; [exact Hset|exact Hwarn].
Defined.

(** Two cycles of the system as credentials.py configures it over that
    trigger: each reports failure, no warning for 09:00:00 is logged, the
    no-code set stays empty and the cursor unset. *)
Example no_code_cycles_fail_as_shipped :
  let w1 := world_of (example_cycle as_shipped (fresh_world db_no_code)) in
  let w2 := world_of (example_cycle as_shipped w1) in
  result_of (example_cycle as_shipped (fresh_world db_no_code)) = Ok false
  ∧ result_of (example_cycle as_shipped w1) = Ok false
  ∧ warnings_for (at_second 32400) (log w2) = 0%nat
  ∧ requests_without_code w2 = ∅
  ∧ cursor_state w2 = (None, None).
Proof. vm_compute. repeat split; reflexivity. Qed.

(** In a deployment that configures ['scanner'] and ['analytics'], one
    driver instance and three polls.  In the first the trigger at 09:00:00
    has no code in [(09:00:00, 09:10:00]]: the event is skipped, its time
    is put into the no-code set and the warning is logged.  In the second a
    code scanned at 09:05:00 is there and is matched: the time is taken
    out of the set.  In the third a trigger at 09:02:00 has arrived, the
    window of the first trigger is [(09:00:00, 09:02:00]], no code is in
    it, and the warning for 09:00:00 is logged a second time. *)
Example no_code_warning_twice_when_configured :
  let cycle := example_cycle with_scanner_and_analytics in
  let w1 := world_of (cycle (fresh_world db_no_code)) in
  let w2 := world_of (cycle (set_database db_code_arrived w1)) in
  let w3 := world_of (cycle (set_database db_second_trigger w2)) in
  select_code object_connector (at_second 32400)
    (add_minutes (at_second 32400) 10) db_no_code = []
  ∧ select_code object_connector (at_second 32400) (at_second 32520)
      db_second_trigger = []
  ∧ requests_without_code w1 = {[ 32400 ]}
  ∧ requests_without_code w2 = ∅
  ∧ requests_without_code w3 = {[ 32400 ]}
  ∧ warnings_for (at_second 32400) (log w1) = 1%nat
  ∧ warnings_for (at_second 32400) (log w2) = 1%nat
  ∧ warnings_for (at_second 32400) (log w3) = 2%nat.
Proof. vm_compute. repeat split; reflexivity. Qed.

(** C8, witness: a table whose only row has a code timestamp and no trigger
    timestamp; the cursor is initialised from the code timestamp. *)
Lemma initialize_from_existing_data_witness :
  all_up (fresh_world db_code_rows_only)
  ∧ result_of (initialize_from_existing_data as_shipped no_strptime object_connector
                 no_sql_text (fresh_world db_code_rows_only))
    = Ok (Some (at_second 32405)).
Proof.
  split; [constructor|].
  exact (proj1 (proj1 (proj2 (proj2
    (initialize_from_existing_data_cases as_shipped no_strptime object_connector
       no_sql_text (fresh_world db_code_rows_only)
       (Forall_nil_2 _) (λ _ _, eq_refl)))) 32405 eq_refl eq_refl)).
Defined.

(** C8 at a cursor that is ahead of the data: it is reset to the last
    trigger timestamp of the combined records, with the warning. *)
Example initialize_resets_cursor_ahead_of_data :
  let r := initialize_from_existing_data as_shipped no_strptime object_connector
             no_sql_text world_cursor_ahead_of_data in
  result_of r = Ok (Some (at_second 32400))
  ∧ cursor_state (world_of r) = (Some 32400, Some (at_second 32400))
  ∧ log (world_of r) = [(WARNING, InconsistentState (at_second 32400))].
Proof. vm_compute. repeat split; reflexivity. Qed.

(** C9 at a stored text that only the fractional format reads. *)
Example fractional_cursor_is_read :
  result_of (get_last_processed_time as_shipped fraction_only_strptime
               fraction_text_connector
               (fresh_world (make_database [] [] [] (Some 32400))))
  = Ok (Some {| dt_seconds := 32400; dt_microsecond := 250000 |}).
Proof. reflexivity. Qed.



(** C10, witness: an empty batch, with the database unreachable. *)
Lemma empty_batch_reports_success_witness :
  equipment_data (example_batch {[ "status_records" := [] ]}) !! "status_records"
  = Some []
  ∧ result_of (example_save as_shipped
                 (example_batch {[ "status_records" := [] ]})
                 (set_outcomes [false] (fresh_world db_zero_samples)))
    = Ok true.
Proof.
  assert (Hempty : equipment_data (example_batch {[ "status_records" := [] ]})
                   !! "status_records" = Some []) by reflexivity.
  split; [exact Hempty|].
  rewrite (proj1 (empty_batch_reports_success as_shipped no_text_int
    no_sql_text no_descriptions (set_outcomes [false] (fresh_world db_zero_samples))
    (example_batch {[ "status_records" := [] ]}) Hempty)).
  reflexivity.
Defined.

(** C5 and C6 at the values of the decoder's own test table and at 64. *)
Example decode_status_table :
  (λ n, (process_decoder.decode_status_current no_text_int (PyInt n),
         process_decoder.decode_status_complete no_text_int (PyInt n)))
  <$> [0; 1; 2; 3; 64]
  = [ ("no_status", "no_states");
      ("start_phase_1", "start_phase_1");
      ("start_phase_2", "start_phase_2");
      ("start_phase_2", "start_phase_1 start_phase_2");
      ("no_status", "no_states") ].
Proof. reflexivity. Qed.


(* ===================================================================== *)
(** * Further properties of the status decoder *)
(* ===================================================================== *)

Section DecoderCoverage.

Import process_decoder.

Variable int_of_str : string → option Z.

(** Both decoders on an integer, by the two loops alone: the test for [0]
    that precedes the loops gives what the loops give for [0]. *)
Lemma decoders_on_int (n : Z) :
  decode_status_current int_of_str (PyInt n)
  = default "no_status" (first_active n [6; 5; 4; 3; 2; 1])
  ∧ decode_status_complete int_of_str (PyInt n)
    = match collect_active n [1; 2; 3; 4; 5; 6] with
      | [] => "no_states"
      | active_states => join_space active_states
      end.
Proof.
  unfold decode_status_current, decode_status_complete.
  cbn [is_None py_eq_zero py_int orb].
  destruct (Z.eqb_spec n 0) as [->|Hn]; [split; vm_compute; reflexivity|].
  split; [done|]. by destruct (collect_active n [1; 2; 3; 4; 5; 6]).
Qed.

Lemma testbit_low_six (n i : Z) :
  0 <= i <= 5 → Z.testbit (Z.land n 63) i = Z.testbit n i.
Proof.
  intros Hi. rewrite Z.land_spec.
  assert (i = 0 ∨ i = 1 ∨ i = 2 ∨ i = 3 ∨ i = 4 ∨ i = 5) as Hcases by lia.
  destruct Hcases as [-> | [-> | [-> | [-> | [-> | ->]]]]];
    cbn; apply andb_true_r.
Qed.

Lemma loops_ignore_high_bits (n : Z) :
  first_active (Z.land n 63) [6; 5; 4; 3; 2; 1]
  = first_active n [6; 5; 4; 3; 2; 1]
  ∧ collect_active (Z.land n 63) [1; 2; 3; 4; 5; 6]
    = collect_active n [1; 2; 3; 4; 5; 6].
Proof.
  unfold first_active, collect_active.
  rewrite !bit_active_testbit by lia.
  rewrite !testbit_low_six by lia. done.
Qed.

(** X15.  On an integer, both decoders read the six low bits and nothing
    else: the integer and its value masked with [63] decode alike, also
    when the integer is negative or when only higher bits are set. *)
Theorem decoders_read_six_low_bits (n : Z) :
  decode_status_current int_of_str (PyInt n)
  = decode_status_current int_of_str (PyInt (Z.land n 63))
  ∧ decode_status_complete int_of_str (PyInt n)
    = decode_status_complete int_of_str (PyInt (Z.land n 63)).
Proof.
  destruct (decoders_on_int n) as [-> ->].
  destruct (decoders_on_int (Z.land n 63)) as [-> ->].
  destruct (loops_ignore_high_bits n) as [-> ->]. done.
Qed.

(** X16.  The current status is the last entry of the history: the loop of
    [decode_status_current], from position 6 down, stops at the name that
    the loop of [decode_status_complete], from position 1 up, appends
    last. *)
Theorem current_status_is_last_of_history (n : Z) :
  let active_states := collect_active n [1; 2; 3; 4; 5; 6] in
  first_active n [6; 5; 4; 3; 2; 1] = last active_states
  ∧ decode_status_current int_of_str (PyInt n)
    = default "no_status" (last active_states)
  ∧ decode_status_complete int_of_str (PyInt n)
    = match active_states with
      | [] => "no_states"
      | _ => join_space active_states
      end.
Proof.
  cbv zeta.
  assert (Hlast : first_active n [6; 5; 4; 3; 2; 1]
                  = last (collect_active n [1; 2; 3; 4; 5; 6])).
  { unfold first_active, collect_active.
    destruct (bit_active n 6), (bit_active n 5), (bit_active n 4),
      (bit_active n 3), (bit_active n 2), (bit_active n 1); reflexivity. }
  destruct (decoders_on_int n) as [-> ->]. rewrite Hlast.
  split; [done|]. split; [done|].
  by destruct (collect_active n [1; 2; 3; 4; 5; 6]).
Qed.

(** X17.  [decode_status_current] has eight possible results: the two
    fixed texts and the six names of [STATUS_BITS]; the fallback name
    ['unknown_status_bit_N'] of the lookup is never produced. *)
Theorem decode_status_current_range (status_value : pyval) :
  decode_status_current int_of_str status_value
  ∈ [ "no_status"; "invalid_value"; "start_phase_1"; "start_phase_2";
      "start_phase_3"; "start_phase_4"; "start_phase_5"; "start_phase_6" ].
Proof.
  unfold decode_status_current.
  destruct (is_None status_value || py_eq_zero status_value);
    [set_solver|].
  destruct (py_int int_of_str status_value) as [n|]; [|set_solver].
  unfold first_active.
  destruct (bit_active n 6), (bit_active n 5), (bit_active n 4),
    (bit_active n 3), (bit_active n 2), (bit_active n 1);
    vm_compute default; set_solver.
Qed.

Lemma histories_distinct :
  NoDup ((λ k, decode_status_complete int_of_str (PyInt k)) <$> seqZ 0 64).
Proof. apply (bool_decide_unpack _). vm_compute. exact I. Qed.

(** X18.  The history determines the six bits: two integers with the same
    [decode_status_complete] text agree on their six low bits. *)
Theorem history_determines_bits (n m : Z)
    (Hsame : decode_status_complete int_of_str (PyInt n)
             = decode_status_complete int_of_str (PyInt m)) :
  Z.land n 63 = Z.land m 63.
Proof.
  assert (Hmask : ∀ k, decode_status_complete int_of_str (PyInt k)
                       = decode_status_complete int_of_str
                           (PyInt (Z.land k 63))).
  { intros k. destruct (decoders_on_int k) as [_ ->].
    destruct (decoders_on_int (Z.land k 63)) as [_ ->].
    by destruct (loops_ignore_high_bits k) as [_ ->]. }
  rewrite (Hmask n), (Hmask m) in Hsame.
  assert (Hrange : ∀ k, 0 <= Z.land k 63 < 64).
  { intros k. change 63 with (Z.ones 6). rewrite Z.land_ones by lia.
    change (2 ^ 6) with 64. apply Z.mod_pos_bound. lia. }
  assert (Hin : ∀ k, seqZ 0 64 !! Z.to_nat (Z.land k 63) = Some (Z.land k 63)).
  { intros k. rewrite lookup_seqZ. specialize (Hrange k). split; lia. }
  pose proof histories_distinct as Hnodup.
  assert (Hidx : Z.to_nat (Z.land n 63) = Z.to_nat (Z.land m 63)).
  { eapply NoDup_lookup; [exact Hnodup| |].
    - rewrite list_lookup_fmap, (Hin n). reflexivity.
    - rewrite list_lookup_fmap, (Hin m). cbn. by rewrite Hsame. }
  pose proof (Hrange n). pose proof (Hrange m). lia.
Qed.

End DecoderCoverage.

(* ===================================================================== *)
(** * Properties of the connection manager *)
(* ===================================================================== *)

Section ConnectionManagerProperties.

Import connection_manager.

Lemma DB_CONFIGS_keys (getenv : string → string → string)
    (getenv_int : string → Z → Z) (db_type : string) :
  DB_CONFIGS getenv getenv_int !! db_type = None
  ↔ db_type ∉ ["equipment"; "Code"; "Combined"].
Proof.
  unfold DB_CONFIGS.
  rewrite !lookup_insert_None, lookup_singleton_None.
  rewrite !not_elem_of_cons. split.
  - intros [[H1 H2] H3]. repeat split; try done. apply not_elem_of_nil.
  - intros (H1 & H2 & H3 & _). done.
Qed.

(** The test of the poll-level executor is that of the connection manager:
    with nothing added to credentials.py, a database type is configured
    exactly when [DB_CONFIGS] has it, in whatever environment. *)
Lemma configured_as_shipped (getenv : string → string → string)
    (getenv_int : string → Z → Z) (db_type : string) :
  configured as_shipped db_type = true
  ↔ is_Some (DB_CONFIGS getenv getenv_int !! db_type).
Proof.
  unfold configured, as_shipped, DB_TYPES.
  rewrite orb_true_iff, !bool_decide_eq_true.
  rewrite <- not_eq_None_Some, DB_CONFIGS_keys. split.
  - intros [Hin|Hin%elem_of_nil]; [|done]. by intros Hout.
  - intros Hnot. left.
    destruct (decide (db_type ∈ ["equipment"; "Code"; "Combined"])); [done|].
    by destruct Hnot.
Qed.

(** X19.  A manager over the [DB_CONFIGS] of credentials.py, in whatever
    environment, raises [ValueError] from [connect] exactly for the
    database types other than ['equipment'], ['Code'] and ['Combined'],
    and then changes nothing.  The types ['scanner'] and ['analytics'],
    which the data processor and the writer of combined records pass to
    the query executor, are among those it rejects. *)
Theorem connect_raises_unless_configured
    (getenv : string → string → string) (getenv_int : string → Z → Z)
    (db_type : string) (m : Manager)
    (Hinit : connections m = DB_CONFIGS getenv getenv_int) :
  (connect db_type m = (Raise ValueError, m)
   ↔ db_type ∉ ["equipment"; "Code"; "Combined"])
  ∧ (∀ e, (connect db_type m).1 = Raise e →
          connect db_type m = (Raise ValueError, m))
  ∧ connect "scanner" m = (Raise ValueError, m)
  ∧ connect "analytics" m = (Raise ValueError, m).
Proof.
  assert (Hraise : ∀ t, connections m !! t = None →
                        connect t m = (Raise ValueError, m)).
  { intros t Ht. unfold connect. by rewrite Ht. }
  assert (Hok : ∀ t e, (connect t m).1 = Raise e →
                       connections m !! t = None).
  { intros t e. unfold connect.
    destruct (connections m !! t); [|done].
    destruct (active_connections m !! t); [done|].
    by destruct (default true (head (attempts m))). }
  split; [|split; [|split]].
  - rewrite <- (DB_CONFIGS_keys getenv getenv_int), <- Hinit. split.
    + intros Hrun. apply (Hok db_type ValueError). by rewrite Hrun.
    + apply Hraise.
  - intros e He. by apply Hraise, (Hok db_type e).
  - apply Hraise. rewrite Hinit. apply DB_CONFIGS_keys.
    rewrite !not_elem_of_cons. repeat split; try done. apply not_elem_of_nil.
  - apply Hraise. rewrite Hinit. apply DB_CONFIGS_keys.
    rewrite !not_elem_of_cons. repeat split; try done. apply not_elem_of_nil.
Qed.

(** The connection that [connect] returns is the active one of its
    type. *)
Lemma connect_returns_active (db_type : string) (m : Manager)
    (conn : connection) :
  (connect db_type m).1 = Ok (Some conn) →
  active_connections (connect db_type m).2 !! db_type = Some conn
  ∧ closed (connect db_type m).2 = closed m.
Proof.
  unfold connect.
  destruct (connections m !! db_type) as [c|] eqn:Hconfig; [|done].
  destruct (active_connections m !! db_type) as [conn0|] eqn:Hactive.
  - cbn. by intros [= <-].
  - destruct (default true (head (attempts m))); cbn; [|done].
    intros [= <-]. by rewrite lookup_insert_eq.
Qed.

(** X20.  [connect] caches: after it returned a connection, the next
    [connect] for that type returns the same object and changes nothing,
    so no second connection is made.  A failed attempt is not cached: it
    returns [None], logs the error and leaves the type without an active
    connection, so the next call tries again. *)
Theorem connect_caches_connections (db_type : string) (m : Manager) :
  let r := connect db_type m in
  (∀ conn, r.1 = Ok (Some conn) →
           active_connections r.2 !! db_type = Some conn
           ∧ connect db_type r.2 = (Ok (Some conn), r.2))
  ∧ (r.1 = Ok None →
       active_connections r.2 = active_connections m
       ∧ active_connections r.2 !! db_type = None
       ∧ made r.2 = made m
       ∧ events r.2 = (events m ++ [(ERROR, ErrorConnecting db_type)])%list)
  ∧ connections r.2 = connections m
  ∧ closed r.2 = closed m.
Proof.
  cbv zeta. unfold connect.
  destruct (connections m !! db_type) as [c|] eqn:Hconfig; [|done].
  destruct (active_connections m !! db_type) as [conn0|] eqn:Hactive.
  - cbn. split; [|done]. intros conn [= <-]. by rewrite Hconfig, Hactive.
  - destruct (default true (head (attempts m))); cbn.
    + split; [|done]. intros conn [= <-].
      rewrite Hconfig, lookup_insert_eq. done.
    + split; [done|]. done.
Qed.

Lemma connect_holds (db_type : string) (m : Manager) :
  holds_open_connections m → holds_open_connections (connect db_type m).2.
Proof.
  intros (Hopen & Hinj & Hclosed). unfold connect.
  destruct (connections m !! db_type); [|done].
  destruct (active_connections m !! db_type) as [conn0|] eqn:Hactive; [done|].
  destruct (default true (head (attempts m))); [|done].
  split; [|split]; cbn.
  - intros t conn [[<- <-]|[Hne Ht]]%lookup_insert_Some.
    + split; [|lia]. intros Hin. apply Hclosed in Hin. lia.
    + destruct (Hopen t conn Ht). split; [done|lia].
  - intros t1 t2 conn [[<- <-]|[Hne1 Ht1]]%lookup_insert_Some
      [[<- Heq]|[Hne2 Ht2]]%lookup_insert_Some; try done.
    + destruct (Hopen t2 _ Ht2). lia.
    + destruct (Hopen t1 _ Ht1). lia.
    + by eapply Hinj.
  - intros conn Hin. apply Hclosed in Hin. lia.
Qed.

Lemma close_connection_holds (db_type : string) (m : Manager) :
  holds_open_connections m →
  holds_open_connections (close_connection db_type m).
Proof.
  intros (Hopen & Hinj & Hclosed). unfold close_connection.
  destruct (active_connections m !! db_type) as [conn0|] eqn:Hactive; [|done].
  split; [|split]; cbn.
  - intros t conn [Hne Ht]%lookup_delete_Some.
    destruct (Hopen t conn Ht) as [Hnot Hmade]. split; [|done].
    intros [Hin|Heq%elem_of_singleton]%elem_of_union; [done|]. subst conn0.
    apply Hne. by eapply Hinj.
  - intros t1 t2 conn [_ Ht1]%lookup_delete_Some [_ Ht2]%lookup_delete_Some.
    by eapply Hinj.
  - intros conn [Hin|Heq%elem_of_singleton]%elem_of_union; [by apply Hclosed|].
    subst conn0. by destruct (Hopen db_type conn Hactive).
Qed.

Lemma close_list_holds (items : list (string * connection)) (m : Manager) :
  holds_open_connections m →
  holds_open_connections
    (foldl (λ m' item, close_connection item.1 m') m items).
Proof.
  revert m. induction items as [|item items IH]; intros m Hm; [done|].
  cbn. apply IH. by apply close_connection_holds.
Qed.

Lemma new_manager_holds_open_connections
    (DB_CONFIGS : gmap string config) (attempts : list bool) :
  holds_open_connections (DatabaseConnectionManager__init__ DB_CONFIGS attempts).
Proof.
  split; [|split]; cbn.
  - intros t conn Ht. by rewrite lookup_empty in Ht.
  - intros t1 t2 conn Ht. by rewrite lookup_empty in Ht.
  - intros conn Hin. by apply not_elem_of_empty in Hin.
Qed.

(** X21.  The manager never hands out a connection it has closed.  That
    the held connections are open (made by the manager, not closed by it,
    one per type) holds for a new manager and is kept by [connect],
    [close_connection] and [close_all]; under it, every connection that
    [connect] returns is open, and a [connect] that follows
    [close_connection] makes a new connection instead of returning the
    closed one. *)
Theorem manager_hands_out_open_connections (db_type : string) (m : Manager)
    (Hm : holds_open_connections m) :
  holds_open_connections (connect db_type m).2
  ∧ holds_open_connections (close_connection db_type m)
  ∧ holds_open_connections (close_all m)
  ∧ (∀ conn, (connect db_type m).1 = Ok (Some conn) →
             conn ∉ closed (connect db_type m).2)
  ∧ (∀ old new,
       active_connections m !! db_type = Some old →
       (connect db_type (close_connection db_type m)).1 = Ok (Some new) →
       old ∈ closed (close_connection db_type m) ∧ new ≠ old)
  ∧ (∀ DB_CONFIGS attempts,
       holds_open_connections
         (DatabaseConnectionManager__init__ DB_CONFIGS attempts)).
Proof.
  split; [by apply connect_holds|].
  split; [by apply close_connection_holds|].
  split; [by apply close_list_holds|].
  split; [|split].
  - intros conn Hconn.
    pose proof (connect_holds db_type m Hm) as (Hopen & _ & _).
    destruct (connect_returns_active db_type m conn Hconn) as [Hactive _].
    by destruct (Hopen db_type conn Hactive).
  - intros old new Hold Hnew.
    pose proof (close_connection_holds db_type m Hm) as Hclose.
    pose proof (connect_holds db_type _ Hclose) as (Hopen & _ & _).
    destruct (connect_returns_active db_type (close_connection db_type m)
                new Hnew) as [Hactive Hsame].
    destruct (Hopen db_type new Hactive) as [Hnot _].
    assert (Hin : old ∈ closed (close_connection db_type m)).
    { unfold close_connection. rewrite Hold. cbn.
      apply elem_of_union. right. by apply elem_of_singleton. }
    split; [done|]. intros ->. apply Hnot. by rewrite Hsame.
  - apply new_manager_holds_open_connections.
Qed.

Lemma close_list_spec (items : list (string * connection)) :
  ∀ m,
    NoDup items.*1 →
    (∀ item, item ∈ items → active_connections m !! item.1 = Some item.2) →
    let m' := foldl (λ m' item, close_connection item.1 m') m items in
    (∀ t, active_connections m' !! t
          = if decide (t ∈ items.*1) then None
            else active_connections m !! t)
    ∧ closed m' = closed m ∪ list_to_set items.*2
    ∧ connections m' = connections m
    ∧ made m' = made m
    ∧ attempts m' = attempts m
    ∧ events m' = events m.
Proof.
  induction items as [|[t0 conn0] items IH]; intros m Hnodup Hitems.
  - cbn. repeat split; try done. by rewrite (right_id_L ∅ (∪)).
  - cbn [foldl fst]. apply NoDup_cons in Hnodup as [Hfresh Hnodup].
    assert (Hhead : active_connections m !! t0 = Some conn0)
      by (apply (Hitems (t0, conn0)); left).
    set (m1 := close_connection t0 m).
    assert (Hm1 : active_connections m1 = delete t0 (active_connections m)
                  ∧ closed m1 = closed m ∪ {[ conn0 ]}
                  ∧ connections m1 = connections m ∧ made m1 = made m
                  ∧ attempts m1 = attempts m ∧ events m1 = events m).
    { unfold m1, close_connection. by rewrite Hhead. }
    destruct Hm1 as (Hactive1 & Hclosed1 & Hconf1 & Hmade1 & Hatt1 & Hev1).
    destruct (IH m1 Hnodup) as (Hactive & Hclosed & Hconf & Hmade & Hatt & Hev).
    { intros item Hitem. rewrite Hactive1, lookup_delete_ne.
      - apply Hitems. by right.
      - intros ->. apply Hfresh. apply list_elem_of_fmap. by exists item. }
    cbv zeta. split; [|split; [|by rewrite ?Hconf, ?Hmade, ?Hatt, ?Hev]].
    + intros t. rewrite Hactive, Hactive1. cbn [fmap list_fmap fst].
      destruct (decide (t ∈ items.*1)) as [Hin|Hnotin].
      * rewrite decide_True by (by right). done.
      * destruct (decide (t = t0)) as [->|Hne].
        -- rewrite decide_True by left. apply lookup_delete_eq.
        -- rewrite decide_False by (by intros [?|?]%elem_of_cons).
           by apply lookup_delete_ne.
    + rewrite Hclosed, Hclosed1. cbn. by rewrite (assoc_L (∪)).
Qed.

(** X22.  [close_all] leaves no active connection and closes exactly the
    connections that were active; the configuration, the count of
    connections made, the pending attempts and the log are as before. *)
Theorem close_all_closes_every_connection (m : Manager) :
  active_connections (close_all m) = ∅
  ∧ (∀ conn, conn ∈ closed (close_all m)
             ↔ conn ∈ closed m
               ∨ ∃ db_type, active_connections m !! db_type = Some conn)
  ∧ connections (close_all m) = connections m
  ∧ made (close_all m) = made m
  ∧ attempts (close_all m) = attempts m
  ∧ events (close_all m) = events m.
Proof.
  unfold close_all.
  destruct (close_list_spec (map_to_list (active_connections m)) m)
    as (Hactive & Hclosed & Hrest).
  { apply NoDup_fst_map_to_list. }
  { intros [t conn] Hitem. by apply elem_of_map_to_list in Hitem. }
  cbv zeta in Hactive, Hclosed, Hrest.
  split; [|split; [|exact Hrest]].
  - apply map_eq. intros t. rewrite Hactive, lookup_empty.
    destruct (decide (t ∈ (map_to_list (active_connections m)).*1))
      as [Hin|Hnotin]; [done|].
    destruct (active_connections m !! t) as [conn|] eqn:Ht; [|done].
    exfalso. apply Hnotin. apply list_elem_of_fmap. exists (t, conn).
    split; [done|]. by apply elem_of_map_to_list.
  - intros conn. rewrite Hclosed, elem_of_union, elem_of_list_to_set.
    rewrite list_elem_of_fmap. split.
    + intros [Hin|([t conn'] & -> & Hitem)]; [by left|right].
      exists t. by apply elem_of_map_to_list in Hitem.
    + intros [Hin|(t & Ht)]; [by left|right].
      exists (t, conn). split; [done|]. by apply elem_of_map_to_list.
Qed.

Lemma connect_then_close_released {R} (db_type : string) (m : Manager)
    (result : connection → R) (failure : R) :
  query_executor.released db_type m
    (match connect db_type m with
     | (Raise e, m1) => (Raise e, m1)
     | (Ok None, m1) => (Ok failure, m1)
     | (Ok (Some conn), m1) =>
         (Ok (result conn), query_executor.finally_close true db_type m1)
     end).
Proof.
  pose proof (connect_holds db_type m) as Hkept.
  unfold query_executor.released, query_executor.finally_close.
  unfold connect in *.
  destruct (connections m !! db_type) as [c|] eqn:Hconfig.
  2: { cbn. split; [done|]. split; [by intros e [= <-]|done]. }
  destruct (active_connections m !! db_type) as [conn0|] eqn:Hactive.
  - cbn. split; [|split; [done|split]].
    + intros _ _. unfold close_connection. rewrite Hactive. cbn.
      apply lookup_delete_eq.
    + unfold close_connection. by rewrite Hactive.
    + apply close_connection_holds.
  - destruct (default true (head (attempts m))); cbn.
    + split; [|split; [done|split]].
      * intros _ _. unfold close_connection. cbn. rewrite lookup_insert_eq.
        cbn. apply lookup_delete_eq.
      * unfold close_connection. cbn. by rewrite lookup_insert_eq.
      * intros Hm. apply close_connection_holds. by apply Hkept.
    + split; [done|]. split; [done|]. split; [done|]. exact Hkept.
Qed.

(** X23.  With [close_after], its default, every call of the executor
    leaves its database type without an active connection, whether the
    connection had to be made or was found in the manager, and whether the
    statement ran or failed; a failed connection gives [None] or [False].
    The call raises only for a type that is not configured, with the
    [ValueError] of [connect], which the executor does not catch, and then
    changes nothing.  The held connections stay open ones.  An empty
    batch of [execute_many] returns [True] without asking the manager at
    all, also for a type that is not configured. *)
Theorem executor_releases_its_connection {R P} (db_type : string)
    (query : connection → option R) (update : connection → bool)
    (batch : list P → connection → bool) (params_list : list P)
    (m : Manager) :
  query_executor.released db_type m
    (query_executor.execute_query db_type query true m)
  ∧ query_executor.released db_type m
      (query_executor.execute_update db_type update true m)
  ∧ (params_list ≠ [] →
     query_executor.released db_type m
       (query_executor.execute_many db_type batch params_list true m))
  ∧ (∀ close_after,
       query_executor.execute_many db_type batch [] close_after m
       = (Ok true, m)).
Proof.
  split; [|split; [|split; [|done]]].
  - apply (connect_then_close_released db_type m query None).
  - apply (connect_then_close_released db_type m update false).
  - intros Hne. unfold query_executor.execute_many.
    destruct params_list as [|p rest]; [done|].
    apply (connect_then_close_released db_type m (batch (p :: rest)) false).
Qed.

End ConnectionManagerProperties.


(* ===================================================================== *)
(** * The further properties at concrete data *)
(* ===================================================================== *)

(** The cycle check over the one decoded row of the trigger at 09:00:00. *)
Lemma decoded_rows_never_complete_witness :
  Forall (decoded_row no_text_int)
    (tb_combined_data (database world_cursor_ahead_of_data))
  ∧ result_of (_verify_complete_cycle with_scanner_and_analytics
                 (at_second 32400) None
                 world_cursor_ahead_of_data)
    = Ok false.
Proof.
  assert (Hdecoded : Forall (decoded_row no_text_int)
            (tb_combined_data (database world_cursor_ahead_of_data))).
  { repeat constructor. }
  split; [exact Hdecoded|].
  exact (decoded_rows_never_complete with_scanner_and_analytics no_text_int
           (at_second 32400) None
           world_cursor_ahead_of_data Hdecoded).
Defined.

(** A poll from the cursor 09:00:00: the trigger 200 seconds before it is
    fetched by the query and dropped, the trigger at the cursor and the
    later one are returned in order. *)
Lemma poll_returns_triggers_from_cursor_witness :
  next_up world_polling_from_cursor
  ∧ (∃ ds w',
       get_new_conveyor_requests as_shipped no_strptime object_connector
         world_polling_from_cursor
       = (Ok (object_connector <$> ds), w')
       ∧ StronglySorted dt_le ds
       ∧ ds ≡ₚ filter (λ t, dt_le (at_second 32400) t)
                 (tb_conveyor_requests (database world_polling_from_cursor)))
  ∧ result_of (get_new_conveyor_requests as_shipped no_strptime object_connector
                 world_polling_from_cursor)
    = Ok [TDatetime (at_second 32400); TDatetime (at_second 32520)].
Proof.
  assert (Hup : next_up world_polling_from_cursor) by discriminate.
  split; [exact Hup|]. split; [|reflexivity].
  exact (proj1 (poll_returns_triggers_from_cursor as_shipped no_strptime
                  object_connector
                  world_polling_from_cursor Hup)
           (at_second 32400) eq_refl (λ d _, eq_refl)).
Defined.

(** A trigger with a code, one fetched sample and a save that fails: the
    failure is logged and the cursor stays. *)
Lemma failed_save_keeps_cursor_witness :
  cursor_state
    (world_of (_process_individual_conveyor_request with_scanner_and_analytics no_strptime
                 object_connector no_sql_text handler_get_one_sample
                 handler_save_failing (TDatetime (at_second 32400))
                 [TDatetime (at_second 32400)] 0
                 (fresh_world db_three_samples)))
  = cursor_state (fresh_world db_three_samples)
  ∧ last (log (world_of
                 (_process_individual_conveyor_request with_scanner_and_analytics no_strptime
                    object_connector no_sql_text handler_get_one_sample
                    handler_save_failing (TDatetime (at_second 32400))
                    [TDatetime (at_second 32400)] 0
                    (fresh_world db_three_samples))))
    = Some (ERROR, FailedSaving (at_second 32400)).
Proof.
  split; [|reflexivity].
  apply (failed_save_keeps_cursor with_scanner_and_analytics no_strptime object_connector
           no_sql_text
           handler_get_one_sample handler_save_failing).
  - intros start_time end_time w. left. reflexivity.
  - intros combined_data w. left. reflexivity.
  - intros combined_data w. discriminate.
  - intros start_time end_time w equipment_data [= <-]. discriminate.
Defined.

(** The cursor 09:00:00.250000 is read back as 09:00:00 by a restart. *)
Lemma restart_reads_persisted_second_witness :
  all_up (fresh_world db_three_samples)
  ∧ last_processed_time
      (world_of (update_last_processed_time as_shipped no_strptime no_sql_text
                   (Some (TDatetime quarter_past_second))
                   (fresh_world db_three_samples)))
    = Some quarter_past_second
  ∧ last_processed_time
      (world_of (StateManager__init__ as_shipped no_strptime object_connector
                   (world_of (update_last_processed_time as_shipped no_strptime
                                no_sql_text
                                (Some (TDatetime quarter_past_second))
                                (fresh_world db_three_samples)))))
    = Some (at_second 32400).
Proof.
  assert (Hup : all_up (fresh_world db_three_samples)) by constructor.
  split; [exact Hup|].
  pose proof (restart_reads_persisted_second as_shipped no_strptime object_connector
                no_sql_text quarter_past_second (fresh_world db_three_samples)
                Hup (λ _ _, eq_refl)) as (_ & Hmemory & _ & Hrestart & _).
  split; [exact Hmemory|exact Hrestart].
Defined.

(** Three cycles over a database that cannot be reached. *)
Lemma datetime_connector_never_fatal_witness :
  (∀ d, ∃ d', object_connector d = TDatetime d')
  ∧ result_of (main as_shipped no_text_int no_strptime object_connector no_sql_text
                 no_descriptions 3 world_database_down)
    = Ok true.
Proof.
  assert (Hobject : ∀ d, ∃ d', object_connector d = TDatetime d')
    by (intros d; by exists d).
  split; [exact Hobject|].
  exact (datetime_connector_never_fatal as_shipped no_text_int no_strptime
           object_connector no_sql_text no_descriptions Hobject 3
           world_database_down).
Defined.

(** The latest trigger timestamp of a table with the one row of the
    trigger at 09:00:00. *)
Lemma getters_return_latest_timestamp_witness :
  next_up world_cursor_ahead_of_data
  ∧ (∃ r,
       get_last_processed_time_from_conveyor_data as_shipped no_strptime object_connector
         world_cursor_ahead_of_data
       = (Ok r, after_call world_cursor_ahead_of_data)
       ∧ match r with
         | Some t =>
             dt_microsecond t = 0
             ∧ (∃ row,
                  row ∈ tb_combined_data (database world_cursor_ahead_of_data)
                  ∧ cd_conveyor_timestamp row = Some (dt_seconds t))
             ∧ (∀ row c,
                  row ∈ tb_combined_data (database world_cursor_ahead_of_data) →
                  cd_conveyor_timestamp row = Some c → c <= dt_seconds t)
         | None =>
             ∀ row,
               row ∈ tb_combined_data (database world_cursor_ahead_of_data) →
               cd_conveyor_timestamp row = None
         end)
  ∧ result_of (get_last_processed_time_from_conveyor_data as_shipped no_strptime
                 object_connector world_cursor_ahead_of_data)
    = Ok (Some (at_second 32400)).
Proof.
  assert (Hup : next_up world_cursor_ahead_of_data) by discriminate.
  split; [exact Hup|]. split; [|reflexivity].
  exact (proj1 (getters_return_latest_timestamp as_shipped no_strptime object_connector
                  world_cursor_ahead_of_data Hup (λ _ _, eq_refl))).
Defined.

(** 3 and 67 have the same history and the same six low bits. *)
Lemma history_determines_bits_witness :
  process_decoder.decode_status_complete no_text_int (PyInt 3)
  = process_decoder.decode_status_complete no_text_int (PyInt 67)
  ∧ Z.land 3 63 = Z.land 67 63.
Proof.
  split; [reflexivity|].
  exact (history_determines_bits no_text_int 3 67 eq_refl).
Defined.

(** The manager of a new process rejects the types of the code search and
    of the writer, and accepts ['equipment']. *)
Lemma connect_raises_unless_configured_witness :
  connection_manager.connections new_manager
  = connection_manager.DB_CONFIGS unset_getenv unset_getenv_int
  ∧ connection_manager.connect "scanner" new_manager
    = (Raise ValueError, new_manager)
  ∧ connection_manager.connect "analytics" new_manager
    = (Raise ValueError, new_manager)
  ∧ (connection_manager.connect "equipment" new_manager).1 = Ok (Some 0%nat).
Proof.
  split; [reflexivity|].
  pose proof (connect_raises_unless_configured unset_getenv unset_getenv_int
                "equipment" new_manager eq_refl) as (_ & _ & Hscanner & Hanalytics).
  split; [exact Hscanner|]. split; [exact Hanalytics|reflexivity].
Defined.

(** The manager after its first connection. *)
Lemma manager_hands_out_open_connections_witness :
  connection_manager.holds_open_connections new_manager
  ∧ connection_manager.holds_open_connections
      (connection_manager.connect "equipment" new_manager).2
  ∧ 0%nat ∉ connection_manager.closed
              (connection_manager.connect "equipment" new_manager).2.
Proof.
  assert (Hnew : connection_manager.holds_open_connections new_manager)
    by apply new_manager_holds_open_connections.
  split; [exact Hnew|].
  pose proof (manager_hands_out_open_connections "equipment" new_manager Hnew)
    as (Hkept & _ & _ & Hopen & _).
  split; [exact Hkept|]. apply Hopen. reflexivity.
Defined.
